(** * A shallow embedding of the Okta Terraform provider

    The provider is glue code: every resource function reads the flat
    Terraform resource data, talks to the remote identity service through
    an SDK client and writes the answer back.  The embedding keeps that
    shape.  A remote call is a transition of an abstract service state,
    every call is appended to a log together with the error it returned,
    and Go's [(value, err)] results are ordinary pairs whose second
    component is an [error]. *)

From stdpp Require Import base strings list gmap sets.

Open Scope string_scope.
Open Scope list_scope.

(** ** Go values *)

(** A Go [error]: [nil] is [None], otherwise the message. *)
Definition error := option string.

(** [fmt.Errorf (prefix ++ "%v", err)]. *)
Definition Errorf (prefix : string) (err : string) : string := prefix +:+ err.

(** A slice that may be [nil]; ranging over [nil] visits nothing. *)
Definition range {A} (s : option (list A)) : list A := default [] s.

(** [*okta.Response]: the status code and the link to the next page. *)
Record Response := { StatusCode : Z; NextPage : string }.

(** ** Remote calls with a log *)

Section Effects.
Context {Σ C : Type}.

(** The world: the state of the remote service and the calls issued so
    far, oldest first, each with the error it came back with. *)
Record World := MkWorld { remote : Σ; calls : list (C * error) }.

Definition M (A : Type) : Type := World → A * World.

Definition ret {A} (a : A) : M A := λ w, (a, w).

Definition bind {A B} (m : M A) (k : A → M B) : M B :=
  λ w, let '(a, w') := m w in k a w'.

(** One request: run the handler on the service state, log the call. *)
Definition request {A} (c : C) (h : Σ → (A * error) * Σ) : M (A * error) :=
  λ w, let '(r, s) := h (remote w) in (r, MkWorld s (calls w ++ [(c, r.2)])).

(** The calls a computation adds to an empty log. *)
Definition issued {A} (m : M A) (s : Σ) : list (C * error) :=
  calls (m (MkWorld s [])).2.
End Effects.

Arguments World : clear implicits.
Arguments M : clear implicits.

Notation "'let*' x := m 'in' k" := (bind m (λ x, k))
  (at level 10, x pattern, m at level 100, k at level 200, only parsing).

(** Modelled from the spec: [contains] is a helper defined in another file
    of the provider.  The grant and revoke lists are a "set difference
    between two string lists", so [contains s e] is the membership test, a
    linear scan of the slice. *)
Fixpoint contains (s : list string) (e : string) : bool :=
  match s with
  | [] => false
  | a :: s' => if decide (a = e) then true else contains s' e
  end.

(** Modelled from the spec: [is404] is defined in another file of the
    provider; it is the check of the status code of a response against
    404. *)
Definition is404 (status : Z) : bool := bool_decide (status = 404%Z).

(** ** okta/resource_okta_app_oauth_api_scope.go *)

Module OAuthApiScope.

(** [okta.OAuth2ScopeConsentGrant], the fields the resource touches. *)
Record OAuth2ScopeConsentGrant := {
  Id : string;
  Issuer : string;
  ScopeId : string;
}.

(** The schema of the resource: [app_id], [issuer], [scopes], and the
    resource id. *)
Record ResourceData := {
  id : string;
  app_id : string;
  issuer : string;
  scopes : list string;
}.

Definition SetId (v : string) (d : ResourceData) : ResourceData :=
  {| id := v; app_id := app_id d; issuer := issuer d; scopes := scopes d |}.
Definition Set_issuer (v : string) (d : ResourceData) : ResourceData :=
  {| id := id d; app_id := app_id d; issuer := v; scopes := scopes d |}.
Definition Set_scopes (v : list string) (d : ResourceData) : ResourceData :=
  {| id := id d; app_id := app_id d; issuer := issuer d; scopes := v |}.
Definition Set_app_id (v : string) (d : ResourceData) : ResourceData :=
  {| id := id d; app_id := v; issuer := issuer d; scopes := scopes d |}.

Inductive Call :=
| ListScopeConsentGrantsCall (appId : string)
| GrantConsentToScopeCall (appId : string) (grant : OAuth2ScopeConsentGrant)
| RevokeScopeConsentGrantCall (appId : string) (grantId : string).

(** The three endpoints of [client.Application] the resource uses. *)
Record ApplicationClient (Σ : Type) := {
  ListScopeConsentGrants :
    string → Σ → ((option (list OAuth2ScopeConsentGrant) * option Response) * error) * Σ;
  GrantConsentToScope :
    string → OAuth2ScopeConsentGrant → Σ → ((OAuth2ScopeConsentGrant * option Response) * error) * Σ;
  RevokeScopeConsentGrant :
    string → string → Σ → (option Response * error) * Σ;
}.
Arguments ListScopeConsentGrants {Σ}.
Arguments GrantConsentToScope {Σ}.
Arguments RevokeScopeConsentGrant {Σ}.

(** Creates a new OAuth2ScopeConsentGrant struct *)
Definition newOAuthApiScope (scopeId issuer : string) : OAuth2ScopeConsentGrant :=
  {| Id := ""; Issuer := issuer; ScopeId := scopeId |}.

(** [result := make(.., len(scopeIds)); result[i] = newOAuthApiScope(..)] *)
Definition getOAuthApiScopeList (scopeIds : list string) (issuer : string)
  : list OAuth2ScopeConsentGrant :=
  (λ scopeId, newOAuthApiScope scopeId issuer) <$> scopeIds.

(** Diff function to identify which scope needs to be added or removed.
    The four loops of the source, each appending to its slice. *)
Definition getOAuthApiScopeUpdateLists (d : ResourceData)
    (from : option (list OAuth2ScopeConsentGrant)) : list string * list string :=
  let desiredScopes :=
    fold_left (λ acc scope, acc ++ [scope]) (scopes d) [] in
  let currentScopes :=
    fold_left (λ acc currentScope, acc ++ [ScopeId currentScope]) (range from) [] in
  let revokeList :=
    fold_left (λ acc currentScope,
                 if negb (contains desiredScopes currentScope)
                 then acc ++ [currentScope] else acc) currentScopes [] in
  let grantList :=
    fold_left (λ acc desiredScope,
                 if negb (contains currentScopes desiredScope)
                 then acc ++ [desiredScope] else acc) desiredScopes [] in
  (grantList, revokeList).

(** set resource schema from a list scopes *)
Definition setOAuthApiScopes (d : ResourceData) (to : option (list OAuth2ScopeConsentGrant))
  : ResourceData * error :=
  let scopes := ScopeId <$> range to in
  let d := SetId (app_id d) d in
  let d := Set_issuer (issuer d) d in
  let d := Set_scopes scopes d in
  (d, None).

Section Resource.
Context {Σ : Type} (client : ApplicationClient Σ).
(** [suppressErrorOn404] is a helper defined in another file of the
    provider; the resource is modelled for any such function. *)
Context (suppressErrorOn404 : option Response → error → error).

Abbreviation M := (M Σ Call).

(** Fetches current granted application scopes and returns a map with
    names and IDs. *)
Definition getOAuthApiScopeIdMap (d : ResourceData) : M (option (gmap string string) * error) :=
  let* ((currentScopes, resp), err) := request (ListScopeConsentGrantsCall (app_id d))
             (ListScopeConsentGrants client (app_id d)) in
  match suppressErrorOn404 resp err with
  | Some err =>
      ret (None, Some (Errorf "failed to get application scope consent grants: " err))
  | None =>
      ret (Some (fold_left (λ result currentScope,
                              <[ScopeId currentScope := Id currentScope]> result)
                           (range currentScopes) ∅), None)
  end.

(** Grant a list of scopes to an OAuth application. *)
Fixpoint grantOAuthApiScopes (d : ResourceData)
    (scopeGrants : list OAuth2ScopeConsentGrant) : M error :=
  match scopeGrants with
  | [] => ret None
  | scopeGrant :: rest =>
      let* (_, err) := request (GrantConsentToScopeCall (app_id d) scopeGrant)
                          (GrantConsentToScope client (app_id d) scopeGrant) in
      match err with
      | Some err => ret (Some (Errorf "failed to grant application api scope: " err))
      | None => grantOAuthApiScopes d rest
      end
  end.

(** Revoke a list of scopes from an OAuth application. *)
Fixpoint revokeOAuthApiScope (d : ResourceData) (ids : list string) : M error :=
  match ids with
  | [] => ret None
  | id :: rest =>
      let* (resp, err) := request (RevokeScopeConsentGrantCall (app_id d) id)
                             (RevokeScopeConsentGrant client (app_id d) id) in
      match suppressErrorOn404 resp err with
      | Some err => ret (Some (Errorf "failed to revoke application api scope: " err))
      | None => revokeOAuthApiScope d rest
      end
  end.

Definition resourceAppOAuthApiScopeRead (d : ResourceData) : M (error * ResourceData) :=
  let* ((scopes, _), err) := request (ListScopeConsentGrantsCall (app_id d))
             (ListScopeConsentGrants client (app_id d)) in
  match err with
  | Some err =>
      ret (Some (Errorf "failed to get application scope consent grants: " err), d)
  | None =>
      match scopes with
      | None => ret (None, SetId "" d)
      | Some _ =>
          let '(d, err) := setOAuthApiScopes d scopes in
          match err with
          | Some err =>
              ret (Some (Errorf "failed to set application scope consent grant: " err), d)
          | None => ret (None, d)
          end
      end
  end.

Definition resourceAppOAuthApiScopeCreate (d : ResourceData) : M (error * ResourceData) :=
  let scopes := fold_left (λ acc scope, acc ++ [scope]) (scopes d) [] in
  let grantScopeList := getOAuthApiScopeList scopes (issuer d) in
  let* err := grantOAuthApiScopes d grantScopeList in
  match err with
  | Some err =>
      ret (Some (Errorf "failed to create application scope consent grant: " err), d)
  | None => resourceAppOAuthApiScopeRead d
  end.

Definition resourceAppOAuthApiScopeUpdate (d : ResourceData) : M (error * ResourceData) :=
  let* ((scopes, _), err) := request (ListScopeConsentGrantsCall (app_id d))
             (ListScopeConsentGrants client (app_id d)) in
  match err with
  | Some err =>
      ret (Some (Errorf "failed to get application scope consent grants: " err), d)
  | None =>
      let '(grantList, revokeList) := getOAuthApiScopeUpdateLists d scopes in
      let grantScopeList := getOAuthApiScopeList grantList (issuer d) in
      let* err := grantOAuthApiScopes d grantScopeList in
      match err with
      | Some err =>
          ret (Some (Errorf "failed to create application scope consent grant: " err), d)
      | None =>
          let* (scopeMap, err) := getOAuthApiScopeIdMap d in
          match err with
          | Some err =>
              ret (Some (Errorf "failed to get application scope consent grant: " err), d)
          | None =>
              (* indexing a nil map or a missing key gives the zero value *)
              let revokeListIds :=
                fold_left (λ acc scope, acc ++ [default "" (default ∅ scopeMap !! scope)])
                          revokeList [] in
              let* err := revokeOAuthApiScope d revokeListIds in
              match err with
              | Some err =>
                  ret (Some (Errorf "failed to revoke application scope consent grant: " err), d)
              | None => resourceAppOAuthApiScopeRead d
              end
          end
      end
  end.

Definition resourceAppOAuthApiScopeDelete (d : ResourceData) : M error :=
  let* (scopeMap, err) := getOAuthApiScopeIdMap d in
  match err with
  | Some err =>
      ret (Some (Errorf "failed to get application scope consent grant: " err))
  | None =>
      let revokeListIds :=
        fold_left (λ acc scope, acc ++ [default "" (default ∅ scopeMap !! scope)])
                  (scopes d) [] in
      let* err := revokeOAuthApiScope d revokeListIds in
      match err with
      | Some err =>
          ret (Some (Errorf "failed to revoke application scope consent grant: " err))
      | None => ret None
      end
  end.
(** The [StateContext] function of the importer.  The resource data is a
    pointer in the source, so what the function has written is returned
    also when it fails. *)
Definition importerStateContext (d : ResourceData)
  : M ((option (list ResourceData) * error) * ResourceData) :=
  let* ((scopes, _), err) :=
    request (ListScopeConsentGrantsCall (id d)) (ListScopeConsentGrants client (id d)) in
  match err with
  | Some err => ret ((None, Some err), d)
  | None =>
      let d := Set_app_id (id d) d in
      match range scopes with
      | first :: _ =>
          (* Assume issuer is the same for all granted scopes, taking the first *)
          let d := Set_issuer (Issuer first) d in
          let '(d, err) := setOAuthApiScopes d scopes in
          match err with
          | Some err => ret ((None, Some err), d)
          | None => ret ((Some [d], None), d)
          end
      | [] => ret ((None, Some "no application scope found"), d)
      end
  end.
End Resource.
End OAuthApiScope.

(** ** SDK types shared by the user data source and the user resource *)

Module Okta.
(** [okta.User]: the id, the status and the profile (a flat map). *)
Record User := {
  Id : string;
  Status : string;
  Profile : gmap string string;
}.

(** [query.Params], the fields the provider sets. *)
Record Params := {
  Search : string;
  Limit : Z;
  SortOrder : string;
  After : string;
  Activate : option bool;
}.

Definition NewQueryParams : Params :=
  {| Search := ""; Limit := 0; SortOrder := ""; After := ""; Activate := None |}.
Definition WithActivate (b : bool) (qp : Params) : Params :=
  {| Search := Search qp; Limit := Limit qp; SortOrder := SortOrder qp;
     After := After qp; Activate := Some b |}.
(** [qp.After = after] *)
Definition set_After (after : string) (qp : Params) : Params :=
  {| Search := Search qp; Limit := Limit qp; SortOrder := SortOrder qp;
     After := after; Activate := Activate qp |}.
End Okta.

(** ** okta/data_source_okta_users.go *)

Module UsersDataSource.
Import Okta.

Record searchResults := { Users : list User }.

Inductive Call := ListUsersCall (qp : Params).

Section DataSource.
Context {Σ : Type}.
(** [client.User.ListUsers] *)
Context (ListUsers : Params → Σ → ((list User * option Response) * error) * Σ).
(** [sdk.GetAfterParam] reads the cursor of the next page off the
    response; it is defined in another package of the provider. *)
Context (GetAfterParam : option Response → string).

Abbreviation M := (M Σ Call).

(** Recursively list apps until no next links are returned.  The Go
    function recurses without a bound, so the embedding takes fuel and
    answers [None] when it runs out.  [results] and [qp] are pointers
    in the source: the updated values are returned with the error. *)
Fixpoint collectUsers (fuel : nat) (results : searchResults) (qp : Params)
  : M (option (error * searchResults * Params)) :=
  match fuel with
  | O => ret None
  | S fuel =>
      let* ((users, res), err) := request (ListUsersCall qp) (ListUsers qp) in
      match err with
      | Some err => ret (Some (Some err, results, qp))
      | None =>
          let results := {| Users := Users results ++ users |} in
          let after := GetAfterParam res in
          if bool_decide (after ≠ "") then
            let qp := set_After after qp in
            collectUsers fuel results qp
          else ret (Some (None, results, qp))
      end
  end.

(** *** What the endpoint does from a given request on *)

(** [pages qp s trail s']: asked [qp] in state [s], the endpoint answers
    without error page after page.  [trail] lists the requests with the
    users each was answered with; every response but the last carries an
    after-token, which the next request takes over, and the last response
    carries none and leaves the service in [s']. *)
Inductive pages : Params → Σ → list (Params * list User) → Σ → Prop :=
| pages_last qp s users res s' :
    ListUsers qp s = (((users, res), None), s') →
    GetAfterParam res = "" →
    pages qp s [(qp, users)] s'
| pages_next qp s users res s' trail s'' :
    ListUsers qp s = (((users, res), None), s') →
    GetAfterParam res ≠ "" →
    pages (set_After (GetAfterParam res) qp) s' trail s'' →
    pages qp s ((qp, users) :: trail) s''.

(** [remaining qp s n]: from request [qp] in state [s] on, exactly [n]
    requests are answered before a response has an error or no
    after-token. *)
Inductive remaining : Params → Σ → nat → Prop :=
| remaining_error qp s r err s' :
    ListUsers qp s = ((r, Some err), s') →
    remaining qp s 1
| remaining_last qp s users res s' :
    ListUsers qp s = (((users, res), None), s') →
    GetAfterParam res = "" →
    remaining qp s 1
| remaining_next qp s users res s' n :
    ListUsers qp s = (((users, res), None), s') →
    GetAfterParam res ≠ "" →
    remaining (set_After (GetAfterParam res) qp) s' n →
    remaining qp s (S n).

(** [failing qp s trail qp' err s']: asked [qp] in state [s], the endpoint
    answers the requests of [trail] without error, each with an
    after-token, and then answers the request [qp'] with the error [err],
    leaving the service in [s']. *)
Inductive failing : Params → Σ → list (Params * list User) → Params → string → Σ → Prop :=
| failing_now qp s r err s' :
    ListUsers qp s = ((r, Some err), s') →
    failing qp s [] qp err s'
| failing_next qp s users res s' trail qp' err s'' :
    ListUsers qp s = (((users, res), None), s') →
    GetAfterParam res ≠ "" →
    failing (set_After (GetAfterParam res) qp) s' trail qp' err s'' →
    failing qp s ((qp, users) :: trail) qp' err s''.

(** The recursive call of [collectUsers]: [(qp', s')] is what the call
    at [(qp, s)] recurses on. *)
Definition recursive_call (next cur : Params * Σ) : Prop :=
  ∃ users res,
    ListUsers cur.1 cur.2 = (((users, res), None), next.2) ∧
    GetAfterParam res ≠ "" ∧
    next.1 = set_After (GetAfterParam res) cur.1.
End DataSource.

(** *** The read of the data source *)

Section Read.
Context {Σ RawMap Filter : Type}.

(** The resource data of the data source: its id, the [search] filters of
    the configuration and the computed [users]. *)
Record ResourceData := {
  id : string;
  search : Filter;
  users : option (list RawMap);
}.

Definition SetId (v : string) (d : ResourceData) : ResourceData :=
  {| id := v; search := search d; users := users d |}.

Context (ListUsers : Params → Σ → ((list User * option Response) * error) * Σ).
Context (GetAfterParam : option Response → string).
(** Helpers defined in other files of the provider, and functions of the
    libraries it uses: the search expression of the filters, the
    flattening of a user, [params.String()], [hashcode.String] and the
    ["%d"] format. *)
Context (getSearchCriteria : ResourceData → string).
Context (flattenUser : User → ResourceData → RawMap * error).
Context (Params_String : Params → string).
Context (hashcode_String : string → Z).
Context (Sprintf_d : Z → string).
(** [d.Set("users", arr)], a method of the plugin SDK whose error the read
    returns: the resource data as the call leaves it, and the error. *)
Context (Set_users : list RawMap → ResourceData → ResourceData * error).

(** The loop [for i, user := range results.Users] with its early return. *)
Fixpoint flattenUsers (users : list User) (d : ResourceData) (arr : list RawMap)
  : list RawMap * error :=
  match users with
  | [] => (arr, None)
  | user :: users =>
      let '(rawMap, err) := flattenUser user d in
      match err with
      | Some err => (arr, Some err)
      | None => flattenUsers users d (arr ++ [rawMap])
      end
  end.

(** [None]: the fuel of [collectUsers] ran out. *)
Definition dataSourceUsersRead (fuel : nat) (d : ResourceData)
  : M Σ Call (option (error * ResourceData)) :=
  let results := {| Users := [] |} in
  let params := {| Search := getSearchCriteria d; Limit := 200; SortOrder := "0";
                   After := ""; Activate := None |} in
  let* collected := collectUsers ListUsers GetAfterParam fuel results params in
  match collected with
  | None => ret None
  | Some (err, results, params) =>
      match err with
      | Some err => ret (Some (Some (Errorf "Error Getting User from Okta: " err), d))
      | None =>
          let d := SetId (Sprintf_d (hashcode_String (Params_String params))) d in
          let '(arr, err) := flattenUsers (Users results) d [] in
          match err with
          | Some err => ret (Some (Some err, d))
          | None =>
              let '(d, err) := Set_users arr d in
              ret (Some (err, d))
          end
      end
  end.

(** The request the read starts from. *)
Definition firstRequest (d : ResourceData) : Params :=
  {| Search := getSearchCriteria d; Limit := 200; SortOrder := "0";
     After := ""; Activate := None |}.
End Read.
End UsersDataSource.

(** ** The user resource ([resourceUser] and its functions) *)

Module UserResource.
Import Okta.

(** Modelled from the spec: the status constants are declared in another
    file of the provider.  Their values are the status names the schema
    and its descriptions use: ACTIVE, STAGED, DEPROVISIONED, SUSPENDED,
    PROVISIONED, PASSWORD_EXPIRED and RECOVERY. *)
Definition statusActive : string := "ACTIVE".
Definition userStatusStaged : string := "STAGED".
Definition userStatusDeprovisioned : string := "DEPROVISIONED".
Definition userStatusSuspended : string := "SUSPENDED".
Definition userStatusProvisioned : string := "PROVISIONED".
Definition userStatusPasswordExpired : string := "PASSWORD_EXPIRED".
Definition userStatusRecovery : string := "RECOVERY".

(** All profile properties, in the order of the source. *)
Definition profileKeys : list string := [
  "city"; "cost_center"; "country_code"; "custom_profile_attributes";
  "department"; "display_name"; "division"; "email"; "employee_number";
  "first_name"; "honorific_prefix"; "honorific_suffix"; "last_name";
  "locale"; "login"; "manager"; "manager_id"; "middle_name";
  "mobile_phone"; "nick_name"; "organization"; "postal_address";
  "preferred_language"; "primary_phone"; "profile_url"; "second_email";
  "state"; "street_address"; "timezone"; "title"; "user_type"; "zip_code";
  "password"; "recovery_question"; "recovery_answer" ].

(** *** The plugin SDK's resource data

    [schema.ResourceData] belongs to the host framework.  It is kept as
    the resource id, the attributes of the prior state and the
    attributes the functions read and write. *)
Inductive Value :=
| VString (s : string)
| VSet (l : list string).

#[global] Instance Value_eq_dec : EqDecision Value.
Proof. solve_decision. Defined.

Record ResourceData := {
  id : string;
  prior : gmap string Value;
  attrs : gmap string Value;
}.

Definition SetId (v : string) (d : ResourceData) : ResourceData :=
  {| id := v; prior := prior d; attrs := attrs d |}.
(** [d.Set(k, v)] *)
Definition Set_ (k : string) (v : Value) (d : ResourceData) : ResourceData :=
  {| id := id d; prior := prior d; attrs := <[k := v]> (attrs d) |}.
(** [d.Get(k)] *)
Definition Get (k : string) (d : ResourceData) : option Value := attrs d !! k.
(** [d.Get(k).(string)]; an unset string attribute reads as [""]. *)
Definition GetString (k : string) (d : ResourceData) : string :=
  match Get k d with Some (VString s) => s | _ => "" end.
(** [d.GetOkExists(k)] *)
Definition GetOkExists (k : string) (d : ResourceData) : option Value * bool :=
  (Get k d, bool_decide (is_Some (attrs d !! k))).
(** [d.HasChange(k)] *)
Definition HasChange (k : string) (d : ResourceData) : bool :=
  bool_decide (prior d !! k ≠ attrs d !! k).
(** [d.GetChange(k)], both sides asserted to be strings. *)
Definition GetChangeString (k : string) (d : ResourceData) : string * string :=
  (match prior d !! k with Some (VString s) => s | _ => "" end, GetString k d).

(** *** Request bodies *)
Record PasswordCredential := { Value_ : string }.
Record RecoveryQuestionCredential := { Question : string; Answer : string }.
Record UserCredentials := {
  Password : option PasswordCredential;
  RecoveryQuestion : option RecoveryQuestionCredential;
}.
Record CreateUserRequest := {
  cur_Profile : gmap string string;
  cur_Credentials : UserCredentials;
}.
Record ChangePasswordRequest := {
  OldPassword : PasswordCredential;
  NewPassword : PasswordCredential;
}.

(** Every remote operation the resource starts.  The first six are
    endpoints of [client.User]; the others are helpers defined in other
    files of the provider, each of which reaches the service and is logged
    as one operation. *)
Inductive Call :=
| CreateUserCall (body : CreateUserRequest) (qp : Params)
| GetUserCall (userId : string)
| UpdateUserCall (userId : string) (profile : gmap string string)
| ChangePasswordCall (userId : string) (body : ChangePasswordRequest)
| ChangeRecoveryQuestionCall (userId : string) (body : UserCredentials)
| DeactivateOrDeleteUserCall (userId : string)
| assignAdminRolesToUserCall (userId : string) (roles : list string)
| assignGroupsToUserCall (userId : string) (groups : option (list string))
| updateUserStatusCall (userId : string) (status : string)
| updateAdminRolesOnUserCall (userId : string) (roles : list string)
| updateGroupsOnUserCall (userId : string) (groups : list string)
| setAdminRolesCall (userId : string)
| setGroupsCall (userId : string).

#[global] Instance PasswordCredential_eq_dec : EqDecision PasswordCredential.
Proof. solve_decision. Defined.
#[global] Instance RecoveryQuestionCredential_eq_dec : EqDecision RecoveryQuestionCredential.
Proof. solve_decision. Defined.
#[global] Instance UserCredentials_eq_dec : EqDecision UserCredentials.
Proof. solve_decision. Defined.
#[global] Instance CreateUserRequest_eq_dec : EqDecision CreateUserRequest.
Proof. solve_decision. Defined.
#[global] Instance ChangePasswordRequest_eq_dec : EqDecision ChangePasswordRequest.
Proof. solve_decision. Defined.
#[global] Instance Params_eq_dec : EqDecision Params.
Proof. solve_decision. Defined.
#[global] Instance Call_eq_dec : EqDecision Call.
Proof. solve_decision. Defined.

(** [client.User] *)
Record UserClient (Σ : Type) := {
  CreateUser : CreateUserRequest → Params → Σ → ((User * option Response) * error) * Σ;
  GetUser : string → Σ → ((User * option Response) * error) * Σ;
  UpdateUser : string → gmap string string → Σ → ((User * option Response) * error) * Σ;
  ChangePassword : string → ChangePasswordRequest → Σ → ((UserCredentials * option Response) * error) * Σ;
  ChangeRecoveryQuestion : string → UserCredentials → Σ → ((UserCredentials * option Response) * error) * Σ;
  DeactivateOrDeleteUser : string → Σ → (option Response * error) * Σ;
}.
Arguments CreateUser {Σ}.
Arguments GetUser {Σ}.
Arguments UpdateUser {Σ}.
Arguments ChangePassword {Σ}.
Arguments ChangeRecoveryQuestion {Σ}.
Arguments DeactivateOrDeleteUser {Σ}.

(** The helpers that the resource calls and that are defined in other
    files of the provider; the resource is modelled for any such helpers. *)
Record Helpers (Σ : Type) := {
  populateUserProfile : ResourceData → gmap string string;
  convertInterfaceToStringSet : option Value → list string;
  convertInterfaceToStringSetNullable : option Value → option (list string);
  assignAdminRolesToUser : string → list string → Σ → (unit * error) * Σ;
  assignGroupsToUser : string → option (list string) → Σ → (unit * error) * Σ;
  updateUserStatus : string → string → Σ → (unit * error) * Σ;
  updateAdminRolesOnUser : string → list string → Σ → (unit * error) * Σ;
  updateGroupsOnUser : string → list string → Σ → (unit * error) * Σ;
  flattenUser : User → gmap string Value * error;
  setNonPrimitives : ResourceData → gmap string Value → ResourceData * error;
  setAdminRoles : ResourceData → Σ → (ResourceData * error) * Σ;
  setGroups : ResourceData → Σ → (ResourceData * error) * Σ;
}.
Arguments populateUserProfile {Σ}.
Arguments convertInterfaceToStringSet {Σ}.
Arguments convertInterfaceToStringSetNullable {Σ}.
Arguments assignAdminRolesToUser {Σ}.
Arguments assignGroupsToUser {Σ}.
Arguments updateUserStatus {Σ}.
Arguments updateAdminRolesOnUser {Σ}.
Arguments updateGroupsOnUser {Σ}.
Arguments flattenUser {Σ}.
Arguments setNonPrimitives {Σ}.
Arguments setAdminRoles {Σ}.
Arguments setGroups {Σ}.

Definition mapStatus (currentStatus : string) : string :=
  (* PASSWORD_EXPIRED is effectively ACTIVE for our purposes *)
  if bool_decide (currentStatus = userStatusPasswordExpired)
     || bool_decide (currentStatus = userStatusRecovery)
  then statusActive
  else currentStatus.

(** Checks whether any profile keys have changed: the loop over
    [profileKeys] with its early [return true]. *)
Fixpoint hasChangeIn (keys : list string) (d : ResourceData) : bool :=
  match keys with
  | [] => false
  | k :: keys => if HasChange k d then true else hasChangeIn keys d
  end.
Definition hasProfileChange (d : ResourceData) : bool := hasChangeIn profileKeys d.

(** The [DiffSuppressFunc] of the [status] attribute. *)
Definition statusDiffSuppress (old new : string) : bool :=
  bool_decide (old = userStatusProvisioned) && bool_decide (new = statusActive)
  || bool_decide (old = userStatusPasswordExpired) && bool_decide (new = statusActive).


Section Resource.
Context {Σ : Type} (client : UserClient Σ) (helpers : Helpers Σ).

Abbreviation M := (M Σ Call).

(** [resp != nil && is404(resp.StatusCode)] *)
Definition notFound (resp : option Response) : bool :=
  match resp with
  | Some resp => is404 (StatusCode resp)
  | None => false
  end.

Definition resourceUserRead (d : ResourceData) : M (error * ResourceData) :=
  let* ((user, resp), err) := request (GetUserCall (id d)) (GetUser client (id d)) in
  if notFound resp then ret (None, SetId "" d)
  else
    match err with
    | Some err => ret (Some (Errorf "[ERROR] Error Getting User from Okta: " err), d)
    | None =>
        let d := Set_ "status" (VString (mapStatus (Status user))) d in
        let d := Set_ "raw_status" (VString (Status user)) d in
        let '(rawMap, err) := flattenUser helpers user in
        match err with
        | Some err => ret (Some err, d)
        | None =>
            let '(d, err) := setNonPrimitives helpers d rawMap in
            match err with
            | Some err => ret (Some err, d)
            | None =>
                let* (d, err) := request (setAdminRolesCall (id d)) (setAdminRoles helpers d) in
                match err with
                | Some err => ret (Some err, d)
                | None =>
                    (* Only sync when it is outlined *)
                    if (GetOkExists "group_memberships" d).2 then
                      let* (d, err) := request (setGroupsCall (id d)) (setGroups helpers d) in
                      ret (err, d)
                    else ret (None, d)
                end
            end
        end
    end.

Definition resourceUserCreate (d : ResourceData) : M (error * ResourceData) :=
  let profile := populateUserProfile helpers d in
  let qp := NewQueryParams in
  (* setting activate to false on user creation will leave the user with a
     status of STAGED *)
  let qp := if bool_decide (GetString "status" d = userStatusStaged)
            then WithActivate false NewQueryParams else qp in
  let password := GetString "password" d in
  let recoveryQuestion := GetString "recovery_question" d in
  let recoveryAnswer := GetString "recovery_answer" d in
  let uc := {| Password := Some {| Value_ := password |}; RecoveryQuestion := None |} in
  let uc := if bool_decide (recoveryQuestion ≠ "")
            then {| Password := Password uc;
                    RecoveryQuestion :=
                      Some {| Question := recoveryQuestion; Answer := recoveryAnswer |} |}
            else uc in
  let userBody := {| cur_Profile := profile; cur_Credentials := uc |} in
  let* ((user, _), err) := request (CreateUserCall userBody qp) (CreateUser client userBody qp) in
  match err with
  | Some err => ret (Some (Errorf "[ERROR] Error Creating User from Okta: " err), d)
  | None =>
      (* set the user id into state before setting roles and status in
         case they fail *)
      let d := SetId (Id user) d in
      (* role assigning can only happen after the user is created so order
         matters here *)
      let roles := convertInterfaceToStringSetNullable helpers (Get "admin_roles" d) in
      let* err :=
        match roles with
        | Some roles =>
            let* (_, err) := request (assignAdminRolesToUserCall (Id user) roles)
                                     (assignAdminRolesToUser helpers (Id user) roles) in
            ret err
        | None => ret None
        end in
      match err with
      | Some err => ret (Some err, d)
      | None =>
          (* Only sync when there is opt in *)
          let* err :=
            if (GetOkExists "group_memberships" d).2 then
              let groups :=
                convertInterfaceToStringSetNullable helpers (Get "group_memberships" d) in
              let* (_, err) := request (assignGroupsToUserCall (Id user) groups)
                                       (assignGroupsToUser helpers (Id user) groups) in
              ret err
            else ret None in
          match err with
          | Some err => ret (Some err, d)
          | None =>
              (* status changing can only happen after user is created as well *)
              let* err :=
                if bool_decide (GetString "status" d = userStatusSuspended)
                   || bool_decide (GetString "status" d = userStatusDeprovisioned)
                then
                  let* (_, err) := request (updateUserStatusCall (Id user) (GetString "status" d))
                                           (updateUserStatus helpers (Id user) (GetString "status" d)) in
                  ret (Errorf "[ERROR] Error Updating Status for User: " <$> err)
                else ret None in
              match err with
              | Some err => ret (Some err, d)
              | None => resourceUserRead d
              end
          end
      end
  end.

(** One guarded step of the update: run it when [cond] holds and hand its
    error on. *)
Definition when (cond : bool) (step : M error) : M error :=
  if cond then step else ret None.

Definition resourceUserUpdate (d : ResourceData) : M (error * ResourceData) :=
  let status := GetString "status" d in
  let statusChange := HasChange "status" d in
  if bool_decide (status = userStatusStaged) && statusChange then
    ret (Some "[ERROR] Okta will not allow a user to be updated to STAGED. Can set to STAGED on user creation only", d)
  else
    let roleChange := HasChange "admin_roles" d in
    let groupChange := HasChange "group_memberships" d in
    let userChange := hasProfileChange d in
    let passwordChange := HasChange "password" d in
    let recoveryQuestionChange := HasChange "recovery_question" d in
    let recoveryAnswerChange := HasChange "recovery_answer" d in
    (* run the update status func first *)
    let* err :=
      when statusChange
        (let* (_, err) := request (updateUserStatusCall (id d) status)
                                  (updateUserStatus helpers (id d) status) in
         ret (Errorf "[ERROR] Error Updating Status for User: " <$> err)) in
    match err with
    | Some err => ret (Some err, d)
    | None =>
        let d := if statusChange then Set_ "status" (VString status) d else d in
        if bool_decide (status = userStatusDeprovisioned) && userChange then
          ret (Some "[ERROR] Only the status of a DEPROVISIONED user can be updated, we detected other change", d)
        else
          let* err :=
            when userChange
              (let profile := populateUserProfile helpers d in
               let* (_, err) := request (UpdateUserCall (id d) profile)
                                        (UpdateUser client (id d) profile) in
               ret (Errorf "[ERROR] Error Updating User in Okta: " <$> err)) in
          match err with
          | Some err => ret (Some err, d)
          | None =>
              let roles := convertInterfaceToStringSet helpers (Get "admin_roles" d) in
              let* err :=
                when roleChange
                  (let* (_, err) := request (updateAdminRolesOnUserCall (id d) roles)
                                            (updateAdminRolesOnUser helpers (id d) roles) in
                   ret err) in
              match err with
              | Some err => ret (Some err, d)
              | None =>
                  let d := if roleChange then Set_ "admin_roles" (VSet roles) d else d in
                  let groups := convertInterfaceToStringSet helpers (Get "group_memberships" d) in
                  let* err :=
                    when groupChange
                      (let* (_, err) := request (updateGroupsOnUserCall (id d) groups)
                                                (updateGroupsOnUser helpers (id d) groups) in
                       ret err) in
                  match err with
                  | Some err => ret (Some err, d)
                  | None =>
                      let d := if groupChange then Set_ "group_memberships" (VSet groups) d else d in
                      let* err :=
                        when passwordChange
                          (let '(oldPassword, newPassword) := GetChangeString "password" d in
                           let npr := {| OldPassword := {| Value_ := oldPassword |};
                                         NewPassword := {| Value_ := newPassword |} |} in
                           let* (_, err) := request (ChangePasswordCall (id d) npr)
                                                    (ChangePassword client (id d) npr) in
                           ret (Errorf "[ERROR] Error Updating User password in Okta: " <$> err)) in
                      match err with
                      | Some err => ret (Some err, d)
                      | None =>
                          let* err :=
                            when (recoveryQuestionChange || recoveryAnswerChange)
                              (let nuc :=
                                 {| Password := Some {| Value_ := GetString "password" d |};
                                    RecoveryQuestion :=
                                      Some {| Question := GetString "recovery_question" d;
                                              Answer := GetString "recovery_answer" d |} |} in
                               let* (_, err) := request (ChangeRecoveryQuestionCall (id d) nuc)
                                                        (ChangeRecoveryQuestion client (id d) nuc) in
                               ret (Errorf "[ERROR] Error Updating User password recovery credentials in Okta: " <$> err)) in
                          match err with
                          | Some err => ret (Some err, d)
                          | None => resourceUserRead d
                          end
                      end
                  end
              end
          end
    end.

(** The loop [for i := 0; i < passes; i++] of [ensureUserDelete], by the
    number of passes still to make. *)
Fixpoint deletePasses (id : string) (passes : nat) : M error :=
  match passes with
  | O => ret None
  | S passes =>
      let* (_, err) := request (DeactivateOrDeleteUserCall id)
                               (DeactivateOrDeleteUser client id) in
      match err with
      | Some err => ret (Some (Errorf "failed to deprovision or delete user from Okta: " err))
      | None => deletePasses id passes
      end
  end.

Definition ensureUserDelete (id status : string) : M error :=
  (* only deprovisioned users can be deleted fully from okta
     make two passes on the user if they aren't deprovisioned already to
     deprovision them first *)
  let passes := 2 in
  let passes := if bool_decide (status = userStatusDeprovisioned) then 1 else passes in
  deletePasses id passes.

Definition resourceUserDelete (d : ResourceData) : M error :=
  ensureUserDelete (id d) (GetString "status" d).

Definition resourceUserExists (d : ResourceData) : M (bool * error) :=
  let* ((_, resp), err) := request (GetUserCall (id d)) (GetUser client (id d)) in
  if notFound resp then ret (false, None)
  else ret (bool_decide (err = None), err).
End Resource.
End UserResource.

(** ** sdk/group_role.go *)

Module Sdk.
Import Okta.

Record Role := {
  AssignmentType : string;
  Id : string;
  Status : string;
  Type_ : string;
}.

Record RoleGroupTarget := { target_Id : string }.

Definition ValidAdminRoles : list string :=
  [ "SUPER_ADMIN"; "ORG_ADMIN"; "API_ACCESS_MANAGEMENT_ADMIN"; "APP_ADMIN";
    "USER_ADMIN"; "MOBILE_ADMIN"; "READ_ONLY_ADMIN"; "HELP_DESK_ADMIN" ].
Definition ValidAdminRolesForGroupTarget : list string :=
  [ "USER_ADMIN"; "HELP_DESK_ADMIN" ].

(** An HTTP request as the request executor builds it. *)
Record Request := {
  Method : string;
  URL : string;
  Body : option Role;
}.

(** What [RequestExecutor.Do] decodes a response body into. *)
Inductive Payload :=
| NoPayload
| RolesPayload (roles : list Role)
| RolePayload (role : Role)
| TargetsPayload (targets : list RoleGroupTarget).

(** The only remote operation of the file: sending a request. *)
Inductive Call := DoCall (req : Request).

Section ApiSupplement.
Context {Σ : Type}.
(** [m.RequestExecutor], a part of the vendor's SDK: [NewRequest] builds a
    request or fails, [Do] sends it. *)
Context (NewRequest : string → string → option Role → Request * error).
Context (Do : Request → Σ → ((Payload * option Response) * error) * Σ).
(** [qp.String()] *)
Context (Params_String : Params → string).

Abbreviation M := (M Σ Call).

(** [url += qp.String()] under [if qp != nil] *)
Definition withParams (url : string) (qp : option Params) : string :=
  match qp with
  | Some qp => url +:+ Params_String qp
  | None => url
  end.

Definition DeleteAdminRole (groupId roleId : string) : M (option Response * error) :=
  let url := "/api/v1/groups/" +:+ groupId +:+ "/roles/" +:+ roleId in
  let '(req, err) := NewRequest "DELETE" url None in
  match err with
  | Some err => ret (None, Some err)
  | None =>
      let* ((_, resp), err) := request (DoCall req) (Do req) in
      ret (resp, err)
  end.

Definition ListAdminRoles (groupId : string) (qp : option Params)
  : M (option (list Role) * option Response * error) :=
  let url := "/api/v1/groups/" +:+ groupId +:+ "/roles" in
  let url := withParams url qp in
  let '(req, err) := NewRequest "GET" url None in
  match err with
  | Some err => ret (None, None, Some err)
  | None =>
      let* ((body, resp), err) := request (DoCall req) (Do req) in
      let roles := match body with RolesPayload roles => Some roles | _ => None end in
      ret (roles, resp, err)
  end.

Definition CreateAdminRole (groupId : string) (body : Role) (qp : option Params)
  : M (option Role * option Response * error) :=
  let url := "/api/v1/groups/" +:+ groupId +:+ "/roles" in
  let url := withParams url qp in
  let '(req, err) := NewRequest "POST" url (Some body) in
  match err with
  | Some err => ret (None, None, Some err)
  | None =>
      let respBody := {| AssignmentType := ""; Id := ""; Status := ""; Type_ := "" |} in
      let* ((payload, resp), err) := request (DoCall req) (Do req) in
      let respBody := match payload with RolePayload role => role | _ => respBody end in
      ret (Some respBody, resp, err)
  end.

Definition DeleteAdminRoleGroupTarget (groupId roleId targetGroupId : string)
  : M (option Response * error) :=
  let url := "/api/v1/groups/" +:+ groupId +:+ "/roles/" +:+ roleId
             +:+ "/targets/groups/" +:+ targetGroupId in
  let '(req, err) := NewRequest "DELETE" url None in
  match err with
  | Some err => ret (None, Some err)
  | None =>
      let* ((_, resp), err) := request (DoCall req) (Do req) in
      ret (resp, err)
  end.

Definition ListAdminRoleGroupTargets (groupId roleId : string) (qp : option Params)
  : M (option (list RoleGroupTarget) * option Response * error) :=
  let url := "/api/v1/groups/" +:+ groupId +:+ "/roles/" +:+ roleId
             +:+ "/targets/groups" in
  let url := withParams url qp in
  let '(req, err) := NewRequest "GET" url None in
  match err with
  | Some err => ret (None, None, Some err)
  | None =>
      let* ((body, resp), err) := request (DoCall req) (Do req) in
      let rolegrouptargets :=
        match body with TargetsPayload targets => Some targets | _ => None end in
      ret (rolegrouptargets, resp, err)
  end.

Definition CreateAdminRoleGroupTarget (groupId roleId targetGroupId : string)
  : M (option Response * error) :=
  let url := "/api/v1/groups/" +:+ groupId +:+ "/roles/" +:+ roleId
             +:+ "/targets/groups/" +:+ targetGroupId in
  let '(req, err) := NewRequest "PUT" url None in
  match err with
  | Some err => ret (None, Some err)
  | None =>
      let* ((_, resp), err) := request (DoCall req) (Do req) in
      ret (resp, err)
  end.
End ApiSupplement.
End Sdk.

(** ** okta/resource_okta_app_swa.go *)

Module AppSwa.
Import Okta.
Export UserResource (ResourceData, Value, VString, VSet, Get, GetString, Set_).

(** The SDK's application structs, with their pointers: a [nil] pointer is
    [None]. *)
Record SwaApplicationSettingsApplication := {
  ButtonField : string;
  LoginUrlRegex : string;
  PasswordField : string;
  Url : string;
  UsernameField : string;
}.
Record SwaApplicationSettings := { App : option SwaApplicationSettingsApplication }.
Record ApplicationCredentialsUsernameTemplate := {
  Suffix : string;
  Template : string;
  Type_ : string;
}.
Record ApplicationCredentials := {
  UserNameTemplate : option ApplicationCredentialsUsernameTemplate;
}.

Section Resource.
(** [*okta.ApplicationVisibility] and [*okta.ApplicationAccessibility]
    are only handed on. *)
Context {Visibility Accessibility : Type}.

Record SwaApplication := {
  Id : string;
  Label : string;
  Name : string;
  SignOnMode : string;
  Status : string;
  Settings : option SwaApplicationSettings;
  Credentials : option ApplicationCredentials;
  Visibility_ : option Visibility;
  Accessibility_ : option Accessibility;
}.

Inductive Call :=
| CreateApplicationCall (app : SwaApplication) (params : Params)
| UpdateApplicationCall (appId : string) (app : SwaApplication)
| fetchAppCall (appId : string)
| handleAppGroupsAndUsersCall (appId : string)
| syncGroupsAndUsersCall (appId : string)
| setAppStatusCall (appId : string) (status : string)
| deleteApplicationCall (appId : string).

(** The SDK and the helpers defined in other files of the provider.  The
    SDK decodes the response of a create or an update into the application
    it was given, and [fetchApp] fills the one it is given: each returns
    the application as it has left it.  A helper that is given the
    resource data returns it as it has left it. *)
Record Backend (Σ : Type) := {
  NewSwaApplication : SwaApplication;
  CreateApplication :
    SwaApplication → Params → Σ → ((SwaApplication * option Response) * error) * Σ;
  UpdateApplication :
    string → SwaApplication → Σ → ((SwaApplication * option Response) * error) * Σ;
  buildVisibility : ResourceData → option Visibility;
  fetchApp : ResourceData → SwaApplication → Σ → ((SwaApplication * ResourceData) * error) * Σ;
  appRead : ResourceData → string → string → string → string →
            option Accessibility → option Visibility → ResourceData;
  handleAppGroupsAndUsers : string → ResourceData → Σ → (ResourceData * error) * Σ;
  syncGroupsAndUsers : string → ResourceData → Σ → (ResourceData * error) * Σ;
  setAppStatus : ResourceData → string → Σ → (ResourceData * error) * Σ;
  deleteApplication : ResourceData → Σ → (ResourceData * error) * Σ;
}.
Arguments NewSwaApplication {Σ}.
Arguments CreateApplication {Σ}.
Arguments UpdateApplication {Σ}.
Arguments buildVisibility {Σ}.
Arguments fetchApp {Σ}.
Arguments appRead {Σ}.
Arguments handleAppGroupsAndUsers {Σ}.
Arguments syncGroupsAndUsers {Σ}.
Arguments setAppStatus {Σ}.
Arguments deleteApplication {Σ}.

Context {Σ : Type} (backend : Backend Σ).

Definition buildAppSwa (d : ResourceData) : SwaApplication :=
  (* Abstracts away name and SignOnMode which are constant for this app type. *)
  let app := NewSwaApplication backend in
  let label := GetString "label" d in
  let name := GetString "preconfigured_app" d in
  {| Id := Id app;
     Label := label;
     Name := if bool_decide (name ≠ "") then name else Name app;
     (* in case pre-configured app has more then one sign-on modes *)
     SignOnMode := if bool_decide (name ≠ "") then "AUTO_LOGIN" else SignOnMode app;
     Status := Status app;
     Settings :=
       Some {| App := Some {| ButtonField := GetString "button_field" d;
                              UsernameField := GetString "username_field" d;
                              PasswordField := GetString "password_field" d;
                              Url := GetString "url" d;
                              LoginUrlRegex := GetString "url_regex" d |} |};
     Visibility_ := buildVisibility backend d;
     Credentials :=
       Some {| UserNameTemplate :=
                 Some {| Suffix := GetString "user_name_template_suffix" d;
                         Template := GetString "user_name_template" d;
                         Type_ := GetString "user_name_template_type" d |} |};
     Accessibility_ := Accessibility_ app |}.

(** The result is [None] when the function dereferences a [nil] pointer:
    the settings or the credentials of the fetched application. *)
Definition resourceAppSwaRead (d : ResourceData)
  : M Σ Call (option (error * ResourceData)) :=
  let app := NewSwaApplication backend in
  let* ((app, d), err) := request (fetchAppCall (UserResource.id d)) (fetchApp backend d app) in
  match err with
  | Some err => ret (Some (Some (Errorf "failed to get SWA application: " err), d))
  | None =>
      if bool_decide (Id app = "") then ret (Some (None, UserResource.SetId "" d))
      else
        match Settings app ≫= App, Credentials app ≫= UserNameTemplate with
        | Some settings, Some template =>
            let d := Set_ "button_field" (VString (ButtonField settings)) d in
            let d := Set_ "password_field" (VString (PasswordField settings)) d in
            let d := Set_ "username_field" (VString (UsernameField settings)) d in
            let d := Set_ "url" (VString (Url settings)) d in
            let d := Set_ "url_regex" (VString (LoginUrlRegex settings)) d in
            let d := Set_ "user_name_template" (VString (Template template)) d in
            let d := Set_ "user_name_template_type" (VString (Type_ template)) d in
            let d := Set_ "user_name_template_suffix" (VString (Suffix template)) d in
            let d := appRead backend d (Name app) (Status app) (SignOnMode app) (Label app)
                       (Accessibility_ app) (Visibility_ app) in
            let* (d, err) := request (syncGroupsAndUsersCall (Id app))
                                     (syncGroupsAndUsers backend (Id app) d) in
            match err with
            | Some err =>
                ret (Some (Some (Errorf "failed to sync groups and users for SWA application: " err), d))
            | None => ret (Some (None, d))
            end
        | _, _ => ret None
        end
  end.

Definition resourceAppSwaCreate (d : ResourceData)
  : M Σ Call (option (error * ResourceData)) :=
  let app := buildAppSwa d in
  let activate := bool_decide (GetString "status" d = UserResource.statusActive) in
  let params := {| Search := ""; Limit := 0; SortOrder := ""; After := "";
                   Activate := Some activate |} in
  let* ((app, _), err) := request (CreateApplicationCall app params)
                                  (CreateApplication backend app params) in
  match err with
  | Some err => ret (Some (Some (Errorf "failed to create SWA application: " err), d))
  | None =>
      let d := UserResource.SetId (Id app) d in
      let* (d, err) := request (handleAppGroupsAndUsersCall (Id app))
                               (handleAppGroupsAndUsers backend (Id app) d) in
      match err with
      | Some err =>
          ret (Some (Some (Errorf "failed to handle groups and users for SWA application: " err), d))
      | None => resourceAppSwaRead d
      end
  end.

Definition resourceAppSwaUpdate (d : ResourceData)
  : M Σ Call (option (error * ResourceData)) :=
  let app := buildAppSwa d in
  let* ((app, _), err) := request (UpdateApplicationCall (UserResource.id d) app)
                                  (UpdateApplication backend (UserResource.id d) app) in
  match err with
  | Some err => ret (Some (Some (Errorf "failed to update SWA application: " err), d))
  | None =>
      let* (d, err) := request (setAppStatusCall (UserResource.id d) (Status app))
                               (setAppStatus backend d (Status app)) in
      match err with
      | Some err =>
          ret (Some (Some (Errorf "failed to set SWA application status: " err), d))
      | None =>
          let* (d, err) := request (handleAppGroupsAndUsersCall (Id app))
                                   (handleAppGroupsAndUsers backend (Id app) d) in
          match err with
          | Some err =>
              ret (Some (Some (Errorf "failed to handle groups and users for SWA application: " err), d))
          | None => resourceAppSwaRead d
          end
      end
  end.

Definition resourceAppSwaDelete (d : ResourceData) : M Σ Call (error * ResourceData) :=
  let* (d, err) := request (deleteApplicationCall (UserResource.id d))
                           (deleteApplication backend d) in
  match err with
  | Some err => ret (Some (Errorf "failed to delete SWA application: " err), d)
  | None => ret (None, d)
  end.

(** The calls [resourceAppSwaRead] starts. *)
Definition is_read_call (c : Call) : bool :=
  match c with
  | fetchAppCall _ | syncGroupsAndUsersCall _ => true
  | _ => false
  end.

(** The attributes [resourceAppSwaRead] writes itself. *)
Definition readKeys : list string :=
  [ "button_field"; "password_field"; "username_field"; "url"; "url_regex";
    "user_name_template"; "user_name_template_type"; "user_name_template_suffix" ].
End Resource.

Arguments NewSwaApplication {Visibility Accessibility Σ}.
Arguments CreateApplication {Visibility Accessibility Σ}.
Arguments UpdateApplication {Visibility Accessibility Σ}.
Arguments buildVisibility {Visibility Accessibility Σ}.
Arguments fetchApp {Visibility Accessibility Σ}.
Arguments appRead {Visibility Accessibility Σ}.
Arguments handleAppGroupsAndUsers {Visibility Accessibility Σ}.
Arguments syncGroupsAndUsers {Visibility Accessibility Σ}.
Arguments setAppStatus {Visibility Accessibility Σ}.
Arguments deleteApplication {Visibility Accessibility Σ}.
End AppSwa.

(** ** The transport that adds the default headers ([RoundTrip]) *)

Module Transport.

(** [*http.Request]: the URL and the header, which holds for each key its
    values in the order they were added. *)
Record Request := {
  URL : string;
  Header : gmap string (list string);
}.

(** Go's [Header.Add]: the value is appended to the values of the key. *)
Definition Header_Add (key value : string) (h : gmap string (list string))
  : gmap string (list string) :=
  <[key := default [] (h !! key) ++ [value]]> h.

Inductive Call := RoundTripCall (req : Request).

Section AddHeaderTransport.
Context {Σ : Type}.
(** [adt.T], the transport that is wrapped. *)
Context (T : Request → Σ → (option Response * error) * Σ).

(** The request is a pointer in the source: it is returned as the function
    has left it. *)
Definition RoundTrip (req : Request) : M Σ Call ((option Response * error) * Request) :=
  let req := {| URL := URL req;
                Header := Header_Add "User-Agent" "Okta Terraform Provider" (Header req) |} in
  let* (resp, err) := request (RoundTripCall req) (T req) in
  ret ((resp, err), req).

(** The same request sent [n] times, as a client does that tries again. *)
Fixpoint resend (n : nat) (req : Request) : M Σ Call Request :=
  match n with
  | O => ret req
  | S n => let* (_, req) := RoundTrip req in resend n req
  end.
End AddHeaderTransport.
End Transport.

(** ** What a log shows *)

Module Observe.
Import OAuthApiScope.

(** The answers of a service to the requests [send x1], [send x2], ...
    sent one after the other from the state [s]: each item with the answer
    to its request and the state the request leaves. *)
Fixpoint answers {Σ X A : Type} (send : X → Σ → A * Σ) (items : list X) (s : Σ)
  : list (X * A * Σ) :=
  match items with
  | [] => []
  | x :: items => let '(a, s') := send x s in (x, a, s') :: answers send items s'
  end.

(** The entries of a list up to the first one that is a [stop], that one
    included; the whole list if there is none. *)
Fixpoint upto {A : Type} (stop : A → bool) (l : list A) : list A :=
  match l with
  | [] => []
  | x :: l => if stop x then [x] else x :: upto stop l
  end.

(** The state of the service after the requests [sent] from state [s]. *)
Definition stateAfter {Σ X A : Type} (s : Σ) (sent : list (X * A * Σ)) : Σ :=
  default s (snd <$> last sent).

(** The scopes of the [GrantConsentToScope] calls of a log, in order. *)
Definition grantedScopes (log : list Call) : list string :=
  omap (λ c, match c with
             | GrantConsentToScopeCall _ grant => Some (ScopeId grant)
             | _ => None
             end) log.

(** The grant ids of the [RevokeScopeConsentGrant] calls of a log. *)
Definition revokedIds (log : list Call) : list string :=
  omap (λ c, match c with
             | RevokeScopeConsentGrantCall _ grantId => Some grantId
             | _ => None
             end) log.

(** How often [x] occurs in [l]. *)
Definition occurrences (x : string) (l : list string) : nat :=
  length (filter (λ y, y = x) l).

(** The calls of an update are minimal for the desired and the current
    scopes: one grant call for each scope that is desired and not current
    and for no other scope, and as many revoke calls as there are scopes
    that are current and not desired. *)
Definition minimal_calls (desired current : list string) (log : list Call) : Prop :=
  (∀ scope, occurrences scope (grantedScopes log) =
            if decide (scope ∈ desired ∧ scope ∉ current) then 1 else 0) ∧
  length (revokedIds log) =
    length (remove_dups (filter (λ scope, scope ∉ desired) current)).

(** The calls [resourceUserRead] starts. *)
Definition is_read_call (c : UserResource.Call) : bool :=
  match c with
  | UserResource.GetUserCall _
  | UserResource.setAdminRolesCall _
  | UserResource.setGroupsCall _ => true
  | _ => false
  end.

(** The steps of [resourceUserCreate] that follow the creation of user
    [uid], in the order of the source. *)
Definition createSteps {Σ} (helpers : UserResource.Helpers Σ)
    (d : UserResource.ResourceData) (uid : string) : list UserResource.Call :=
  let status := UserResource.GetString "status" d in
  match UserResource.convertInterfaceToStringSetNullable helpers
          (UserResource.Get "admin_roles" d) with
  | Some roles => [UserResource.assignAdminRolesToUserCall uid roles]
  | None => []
  end ++
  (if (UserResource.GetOkExists "group_memberships" d).2
   then [UserResource.assignGroupsToUserCall uid
           (UserResource.convertInterfaceToStringSetNullable helpers
              (UserResource.Get "group_memberships" d))]
   else []) ++
  (if bool_decide (status = UserResource.userStatusSuspended)
      || bool_decide (status = UserResource.userStatusDeprovisioned)
   then [UserResource.updateUserStatusCall uid status]
   else []).

(** A log entry of a call that came back without error. *)
Definition ok {C} (c : C) : C * error := (c, None).

(** The paths of the role resources of a group: the collection of its
    roles, and the collection of the group targets of one of them. *)
Definition rolesURL (groupId : string) : string :=
  "/api/v1/groups/" +:+ groupId +:+ "/roles".
Definition targetsURL (groupId roleId : string) : string :=
  rolesURL groupId +:+ "/" +:+ roleId +:+ "/targets/groups".

(** The requests of [resourceUserUpdate] before its final read, in the
    order of the source, each under the change that triggers it.  The
    profile is taken after the status has been written back; every other
    argument is the one of the resource data the update was called with. *)
Definition updateSteps {Σ} (helpers : UserResource.Helpers Σ)
    (d : UserResource.ResourceData) : list UserResource.Call :=
  let uid := UserResource.id d in
  let status := UserResource.GetString "status" d in
  let d1 := if UserResource.HasChange "status" d
            then UserResource.Set_ "status" (UserResource.VString status) d else d in
  (if UserResource.HasChange "status" d
   then [UserResource.updateUserStatusCall uid status] else []) ++
  (if UserResource.hasProfileChange d
   then [UserResource.UpdateUserCall uid (UserResource.populateUserProfile helpers d1)]
   else []) ++
  (if UserResource.HasChange "admin_roles" d
   then [UserResource.updateAdminRolesOnUserCall uid
           (UserResource.convertInterfaceToStringSet helpers
              (UserResource.Get "admin_roles" d))]
   else []) ++
  (if UserResource.HasChange "group_memberships" d
   then [UserResource.updateGroupsOnUserCall uid
           (UserResource.convertInterfaceToStringSet helpers
              (UserResource.Get "group_memberships" d))]
   else []) ++
  (if UserResource.HasChange "password" d
   then [UserResource.ChangePasswordCall uid
           {| UserResource.OldPassword :=
                {| UserResource.Value_ := (UserResource.GetChangeString "password" d).1 |};
              UserResource.NewPassword :=
                {| UserResource.Value_ := (UserResource.GetChangeString "password" d).2 |} |}]
   else []) ++
  (if UserResource.HasChange "recovery_question" d
      || UserResource.HasChange "recovery_answer" d
   then [UserResource.ChangeRecoveryQuestionCall uid
           {| UserResource.Password :=
                Some {| UserResource.Value_ := UserResource.GetString "password" d |};
              UserResource.RecoveryQuestion :=
                Some {| UserResource.Question := UserResource.GetString "recovery_question" d;
                        UserResource.Answer := UserResource.GetString "recovery_answer" d |} |}]
   else []).
End Observe.

(** ** Small services to run the functions against *)

Module Service.

(** [suppressErrorOn404] as its name has it: a 404 response is no error. *)
Definition suppress404 (resp : option Response) (err : error) : error :=
  match resp with
  | Some resp => if is404 (StatusCode resp) then None else err
  | None => err
  end.

(** A consent service that keeps the granted scopes in a list. *)
Definition grants : OAuthApiScope.ApplicationClient (list OAuthApiScope.OAuth2ScopeConsentGrant) :=
  {| OAuthApiScope.ListScopeConsentGrants _ s :=
       (((Some s, Some {| StatusCode := 200; NextPage := "" |}), None), s);
     OAuthApiScope.GrantConsentToScope _ grant s :=
       let stored := {| OAuthApiScope.Id := "g-" +:+ OAuthApiScope.ScopeId grant;
                        OAuthApiScope.Issuer := OAuthApiScope.Issuer grant;
                        OAuthApiScope.ScopeId := OAuthApiScope.ScopeId grant |} in
       (((stored, Some {| StatusCode := 200; NextPage := "" |}), None), s ++ [stored]);
     OAuthApiScope.RevokeScopeConsentGrant _ grantId s :=
       ((Some {| StatusCode := 204; NextPage := "" |}, None),
        filter (λ g, OAuthApiScope.Id g ≠ grantId) s) |}.

(** The same service when it refuses every grant request. *)
Definition refusing : OAuthApiScope.ApplicationClient (list OAuthApiScope.OAuth2ScopeConsentGrant) :=
  {| OAuthApiScope.ListScopeConsentGrants := OAuthApiScope.ListScopeConsentGrants grants;
     OAuthApiScope.GrantConsentToScope _ grant s :=
       (((grant, Some {| StatusCode := 403; NextPage := "" |}), Some "forbidden"), s);
     OAuthApiScope.RevokeScopeConsentGrant := OAuthApiScope.RevokeScopeConsentGrant grants |}.

Definition scopeData (scopes : list string) : OAuthApiScope.ResourceData :=
  {| OAuthApiScope.id := "0oa1"; OAuthApiScope.app_id := "0oa1";
     OAuthApiScope.issuer := "https://example.okta.com"; OAuthApiScope.scopes := scopes |}.

Definition granted (scope : string) : OAuthApiScope.OAuth2ScopeConsentGrant :=
  {| OAuthApiScope.Id := "g-" +:+ scope; OAuthApiScope.Issuer := "https://example.okta.com";
     OAuthApiScope.ScopeId := scope |}.

(** A user directory of three pages, addressed by the after-token. *)
Definition user (n : string) : Okta.User :=
  {| Okta.Id := n; Okta.Status := "ACTIVE"; Okta.Profile := ∅ |}.

Definition listUsers (qp : Okta.Params) (s : unit)
  : ((list Okta.User * option Response) * error) * unit :=
  if decide (Okta.After qp = "") then
    ((([user "u1"; user "u2"], Some {| StatusCode := 200; NextPage := "c1" |}), None), s)
  else if decide (Okta.After qp = "c1") then
    ((([user "u3"], Some {| StatusCode := 200; NextPage := "c2" |}), None), s)
  else if decide (Okta.After qp = "c2") then
    ((([user "u4"; user "u5"], Some {| StatusCode := 200; NextPage := "" |}), None), s)
  else ((([], None), Some "invalid cursor"), s).

Definition afterParam (res : option Response) : string :=
  match res with
  | Some res => NextPage res
  | None => ""
  end.

Definition firstPage : Okta.Params :=
  {| Okta.Search := ""; Okta.Limit := 200; Okta.SortOrder := "0";
     Okta.After := ""; Okta.Activate := None |}.

(** A user service that keeps the status of the one user it knows and
    counts down to the request it refuses ([None]: it refuses none). *)
Record Directory := { status : string; refuse_in : option nat }.

Definition answer {A} (a : A) (s : Directory) : (A * error) * Directory :=
  match refuse_in s with
  | Some O => ((a, Some "refused"), {| status := status s; refuse_in := None |})
  | Some (S n) => ((a, None), {| status := status s; refuse_in := Some n |})
  | None => ((a, None), s)
  end.

Definition ok200 : option Response := Some {| StatusCode := 200; NextPage := "" |}.

Definition directory : UserResource.UserClient Directory :=
  {| UserResource.CreateUser _ _ s :=
       answer ({| Okta.Id := "00u1"; Okta.Status := status s; Okta.Profile := ∅ |}, ok200) s;
     UserResource.GetUser userId s :=
       answer ({| Okta.Id := userId; Okta.Status := status s; Okta.Profile := ∅ |}, ok200) s;
     UserResource.UpdateUser userId profile s :=
       answer ({| Okta.Id := userId; Okta.Status := status s; Okta.Profile := profile |}, ok200) s;
     UserResource.ChangePassword _ _ s :=
       answer ({| UserResource.Password := None; UserResource.RecoveryQuestion := None |}, ok200) s;
     UserResource.ChangeRecoveryQuestion _ creds s := answer (creds, ok200) s;
     UserResource.DeactivateOrDeleteUser _ s := answer ok200 s |}.

Definition directoryHelpers : UserResource.Helpers Directory :=
  {| UserResource.populateUserProfile _ := ∅;
     UserResource.convertInterfaceToStringSet v :=
       match v with Some (UserResource.VSet l) => l | _ => [] end;
     UserResource.convertInterfaceToStringSetNullable v :=
       match v with
       | Some (UserResource.VSet (x :: l)) => Some (x :: l)
       | _ => None
       end;
     UserResource.assignAdminRolesToUser _ _ s := answer () s;
     UserResource.assignGroupsToUser _ _ s := answer () s;
     UserResource.updateUserStatus _ st s :=
       answer () {| status := st; refuse_in := refuse_in s |};
     UserResource.updateAdminRolesOnUser _ _ s := answer () s;
     UserResource.updateGroupsOnUser _ _ s := answer () s;
     UserResource.flattenUser _ := (∅, None);
     UserResource.setNonPrimitives d _ := (d, None);
     UserResource.setAdminRoles d s := answer d s;
     UserResource.setGroups d s := answer d s |}.

Definition userData (prior attrs : list (string * UserResource.Value)) : UserResource.ResourceData :=
  {| UserResource.id := "00u1"; UserResource.prior := list_to_map prior;
     UserResource.attrs := list_to_map attrs |}.

(** An application service that stores at most one SWA application. *)
Definition swaStored (id status : string) (app : @AppSwa.SwaApplication unit unit)
  : @AppSwa.SwaApplication unit unit :=
  {| AppSwa.Id := id; AppSwa.Label := AppSwa.Label app; AppSwa.Name := AppSwa.Name app;
     AppSwa.SignOnMode := AppSwa.SignOnMode app; AppSwa.Status := status;
     AppSwa.Settings := AppSwa.Settings app; AppSwa.Credentials := AppSwa.Credentials app;
     AppSwa.Visibility_ := AppSwa.Visibility_ app;
     AppSwa.Accessibility_ := AppSwa.Accessibility_ app |}.

Definition swa : AppSwa.Backend (option (@AppSwa.SwaApplication unit unit)) :=
  {| AppSwa.NewSwaApplication :=
       {| AppSwa.Id := ""; AppSwa.Label := ""; AppSwa.Name := "template_swa";
          AppSwa.SignOnMode := "BROWSER_PLUGIN"; AppSwa.Status := "";
          AppSwa.Settings := None; AppSwa.Credentials := None;
          AppSwa.Visibility_ := None; AppSwa.Accessibility_ := None |};
     AppSwa.CreateApplication app params s :=
       let stored :=
         swaStored "0oa9" (if default true (Okta.Activate params)
                           then "ACTIVE" else "INACTIVE") app in
       (((stored, ok200), None), Some stored);
     AppSwa.UpdateApplication appId app s :=
       let stored := swaStored appId "ACTIVE" app in
       (((stored, ok200), None), Some stored);
     AppSwa.buildVisibility _ := None;
     AppSwa.fetchApp d app s := (((default app s, d), None), s);
     AppSwa.appRead d name status signOnMode label _ _ :=
       UserResource.Set_ "label" (UserResource.VString label)
         (UserResource.Set_ "status" (UserResource.VString status) d);
     AppSwa.handleAppGroupsAndUsers _ d s := ((d, None), s);
     AppSwa.syncGroupsAndUsers _ d s := ((d, None), s);
     AppSwa.setAppStatus d _ s := ((d, None), s);
     AppSwa.deleteApplication d _ := ((d, None), None) |}.

Definition wiki : @AppSwa.SwaApplication unit unit :=
  {| AppSwa.Id := "0oa9"; AppSwa.Label := "Wiki"; AppSwa.Name := "template_swa";
     AppSwa.SignOnMode := "BROWSER_PLUGIN"; AppSwa.Status := "ACTIVE";
     AppSwa.Settings :=
       Some {| AppSwa.App :=
                 Some {| AppSwa.ButtonField := "btn-login"; AppSwa.LoginUrlRegex := "";
                         AppSwa.PasswordField := "txtbox-password";
                         AppSwa.Url := "https://example.com/login.html";
                         AppSwa.UsernameField := "txtbox-username" |} |};
     AppSwa.Credentials :=
       Some {| AppSwa.UserNameTemplate :=
                 Some {| AppSwa.Suffix := ""; AppSwa.Template := "${source.login}";
                         AppSwa.Type_ := "BUILT_IN" |} |};
     AppSwa.Visibility_ := None; AppSwa.Accessibility_ := None |}.

(** A user service that knows no user: every request is answered 404. *)
Definition notFound404 : option Response := Some {| StatusCode := 404; NextPage := "" |}.

Definition gone : UserResource.UserClient unit :=
  {| UserResource.CreateUser _ _ s :=
       ((({| Okta.Id := ""; Okta.Status := ""; Okta.Profile := ∅ |}, notFound404),
         Some "not found"), s);
     UserResource.GetUser _ s :=
       ((({| Okta.Id := ""; Okta.Status := ""; Okta.Profile := ∅ |}, notFound404),
         Some "not found"), s);
     UserResource.UpdateUser _ _ s :=
       ((({| Okta.Id := ""; Okta.Status := ""; Okta.Profile := ∅ |}, notFound404),
         Some "not found"), s);
     UserResource.ChangePassword _ _ s :=
       ((({| UserResource.Password := None; UserResource.RecoveryQuestion := None |},
          notFound404), Some "not found"), s);
     UserResource.ChangeRecoveryQuestion _ creds s :=
       (((creds, notFound404), Some "not found"), s);
     UserResource.DeactivateOrDeleteUser _ s := ((notFound404, Some "not found"), s) |}.

Definition goneHelpers : UserResource.Helpers unit :=
  {| UserResource.populateUserProfile _ := ∅;
     UserResource.convertInterfaceToStringSet _ := [];
     UserResource.convertInterfaceToStringSetNullable _ := None;
     UserResource.assignAdminRolesToUser _ _ s := (((), None), s);
     UserResource.assignGroupsToUser _ _ s := (((), None), s);
     UserResource.updateUserStatus _ _ s := (((), None), s);
     UserResource.updateAdminRolesOnUser _ _ s := (((), None), s);
     UserResource.updateGroupsOnUser _ _ s := (((), None), s);
     UserResource.flattenUser _ := (∅, None);
     UserResource.setNonPrimitives d _ := (d, None);
     UserResource.setAdminRoles d s := ((d, None), s);
     UserResource.setGroups d s := ((d, None), s) |}.

(** A user directory whose second page cannot be fetched. *)
Definition listUsersFlaky (qp : Okta.Params) (s : unit)
  : ((list Okta.User * option Response) * error) * unit :=
  if decide (Okta.After qp = "") then
    ((([user "u1"; user "u2"], Some {| StatusCode := 200; NextPage := "c1" |}), None), s)
  else ((([], Some {| StatusCode := 500; NextPage := "" |}), Some "server error"), s).

(** A [d.Set] of [users] that takes every value and stores it. *)
Definition setUsers {RawMap Filter : Type} (v : list RawMap)
    (d : @UsersDataSource.ResourceData RawMap Filter)
  : @UsersDataSource.ResourceData RawMap Filter * error :=
  ({| UsersDataSource.id := UsersDataSource.id d;
      UsersDataSource.search := UsersDataSource.search d;
      UsersDataSource.users := Some v |}, None).
End Service.

(** * Properties *)

(** ** Loops that append *)

Section Loops.
Context {A B : Type}.

Lemma fold_append (f : A → B) (l : list A) (acc : list B) :
  fold_left (λ acc x, acc ++ [f x]) l acc = acc ++ (f <$> l).
Proof.
  revert acc. induction l as [|x l IH]; intros acc; simpl.
  - by rewrite app_nil_r.
  - rewrite IH. by rewrite <- app_assoc.
Qed.

Lemma fold_append_if (p : A → bool) (l acc : list A) :
  fold_left (λ acc x, if p x then acc ++ [x] else acc) l acc
  = acc ++ filter (λ x, p x = true) l.
Proof.
  revert acc. induction l as [|x l IH]; intros acc; simpl.
  - by rewrite app_nil_r.
  - rewrite IH, filter_cons. destruct (p x) eqn:Hp.
    + rewrite decide_True by done. by rewrite <- app_assoc.
    + rewrite decide_False by done. done.
Qed.
End Loops.

Lemma contains_elem_of (s : list string) (e : string) :
  contains s e = true ↔ e ∈ s.
Proof.
  induction s as [|a s IH]; simpl.
  - split; [done | by intros ?%elem_of_nil].
  - rewrite elem_of_cons. destruct (decide (a = e)) as [->|Hne].
    + split; [by left | done].
    + rewrite IH. split; [by right | by intros [->|?]].
Qed.

Lemma not_contains_elem_of (s : list string) (e : string) :
  negb (contains s e) = true ↔ e ∉ s.
Proof.
  rewrite negb_true_iff, <- contains_elem_of. by destruct (contains s e).
Qed.

(** ** The functions on small inputs *)

Example getOAuthApiScopeUpdateLists_example :
  OAuthApiScope.getOAuthApiScopeUpdateLists
    (Service.scopeData ["okta.users.read"; "okta.groups.read"])
    (Some [Service.granted "okta.groups.read"; Service.granted "okta.apps.read"])
  = (["okta.users.read"], ["okta.apps.read"]).
Proof. reflexivity. Qed.

Example getOAuthApiScopeUpdateLists_nil :
  OAuthApiScope.getOAuthApiScopeUpdateLists (Service.scopeData ["okta.users.read"]) None
  = (["okta.users.read"], []).
Proof. reflexivity. Qed.

Example mapStatus_examples :
  UserResource.mapStatus "PASSWORD_EXPIRED" = "ACTIVE" ∧
  UserResource.mapStatus "RECOVERY" = "ACTIVE" ∧
  UserResource.mapStatus "SUSPENDED" = "SUSPENDED" ∧
  UserResource.mapStatus "PROVISIONED" = "PROVISIONED".
Proof. by split_and!. Qed.

Example ensureUserDelete_deprovisioned :
  (issued (UserResource.ensureUserDelete Service.directory "00u1" "DEPROVISIONED")
          {| Service.status := "DEPROVISIONED"; Service.refuse_in := None |}).*1
  = [UserResource.DeactivateOrDeleteUserCall "00u1"].
Proof. reflexivity. Qed.

Example ensureUserDelete_refused :
  UserResource.ensureUserDelete Service.directory "00u1" "ACTIVE"
    (MkWorld {| Service.status := "ACTIVE"; Service.refuse_in := Some 0%nat |} [])
  = (Some "failed to deprovision or delete user from Okta: refused",
     MkWorld {| Service.status := "ACTIVE"; Service.refuse_in := None |}
             [(UserResource.DeactivateOrDeleteUserCall "00u1", Some "refused")]).
Proof. reflexivity. Qed.

(** A creation with roles and a SUSPENDED status whose role assignment is
    refused stops there. *)
Example resourceUserCreate_refused_roles :
  (issued (UserResource.resourceUserCreate Service.directory Service.directoryHelpers
             (Service.userData []
                [("admin_roles", UserResource.VSet ["APP_ADMIN"]);
                 ("status", UserResource.VString "SUSPENDED")]))
          {| Service.status := "ACTIVE"; Service.refuse_in := Some 1%nat |}).*2
  = [None; Some "refused"].
Proof. vm_compute. reflexivity. Qed.

(** ** The diff of the scope lists *)

Section ScopeDiff.
Import OAuthApiScope.

(** The four loops of [getOAuthApiScopeUpdateLists] are two filters. *)
Lemma getOAuthApiScopeUpdateLists_filter d from :
  getOAuthApiScopeUpdateLists d from
  = (filter (λ s, s ∉ ScopeId <$> range from) (scopes d),
     filter (λ s, s ∉ scopes d) (ScopeId <$> range from)).
Proof.
  unfold getOAuthApiScopeUpdateLists.
  rewrite !fold_append, !fold_append_if. simpl. rewrite list_fmap_id.
  f_equal; apply list_filter_iff; intros s; apply not_contains_elem_of.
Qed.

(** C1: the grant list holds exactly the desired scopes that are not
    current and the revoke list exactly the current scopes that are not
    desired; each is the other list filtered, in its order. *)
Theorem getOAuthApiScopeUpdateLists_set_difference d from :
  let desired := scopes d in
  let current := ScopeId <$> range from in
  let '(grantList, revokeList) := getOAuthApiScopeUpdateLists d from in
  (∀ s, s ∈ grantList ↔ s ∈ desired ∧ s ∉ current) ∧
  (∀ s, s ∈ revokeList ↔ s ∈ current ∧ s ∉ desired) ∧
  grantList = filter (λ s, s ∉ current) desired ∧
  revokeList = filter (λ s, s ∉ desired) current.
Proof.
  intros desired current. rewrite getOAuthApiScopeUpdateLists_filter.
  fold desired current. split_and!; try done.
  - intros s. rewrite list_elem_of_filter. tauto.
  - intros s. rewrite list_elem_of_filter. tauto.
Qed.

(** C2: for scope lists without duplicates the grant list and the revoke
    list are disjoint, free of duplicates, and together they are the
    symmetric difference of the desired and the current scopes. *)
Theorem getOAuthApiScopeUpdateLists_partition d from :
  NoDup (scopes d) →
  NoDup (ScopeId <$> range from) →
  let desired : gset string := list_to_set (scopes d) in
  let current : gset string := list_to_set (ScopeId <$> range from) in
  let '(grantList, revokeList) := getOAuthApiScopeUpdateLists d from in
  list_to_set grantList ## (list_to_set revokeList : gset string) ∧
  list_to_set grantList ∪ list_to_set revokeList
    = (desired ∖ current) ∪ (current ∖ desired) ∧
  (∀ s, s ∈ grantList → s ∉ revokeList) ∧
  NoDup grantList ∧ NoDup revokeList.
Proof.
  intros Hd Hc desired current. rewrite getOAuthApiScopeUpdateLists_filter.
  assert (Hg : ∀ s, s ∈ filter (λ s, s ∉ ScopeId <$> range from) (scopes d)
                    ↔ s ∈ desired ∧ s ∉ current).
  { intros s. unfold desired, current.
    rewrite list_elem_of_filter, !elem_of_list_to_set. tauto. }
  assert (Hr : ∀ s, s ∈ filter (λ s, s ∉ scopes d) (ScopeId <$> range from)
                    ↔ s ∈ current ∧ s ∉ desired).
  { intros s. unfold desired, current.
    rewrite list_elem_of_filter, !elem_of_list_to_set. tauto. }
  split_and!.
  - intros s. rewrite !elem_of_list_to_set, Hg, Hr. tauto.
  - apply set_eq. intros s.
    rewrite !elem_of_union, !elem_of_difference, !elem_of_list_to_set, Hg, Hr.
    tauto.
  - intros s. rewrite Hg, Hr. tauto.
  - by apply NoDup_filter.
  - by apply NoDup_filter.
Qed.

Lemma getOAuthApiScopeUpdateLists_partition_witness :
  let d := Service.scopeData ["okta.users.read"; "okta.groups.read"] in
  let from := Some [Service.granted "okta.groups.read"; Service.granted "okta.apps.read"] in
  let desired : gset string := list_to_set (scopes d) in
  let current : gset string := list_to_set (ScopeId <$> range from) in
  let '(grantList, revokeList) := getOAuthApiScopeUpdateLists d from in
  list_to_set grantList ## (list_to_set revokeList : gset string) ∧
  list_to_set grantList ∪ list_to_set revokeList
    = (desired ∖ current) ∪ (current ∖ desired) ∧
  (∀ s, s ∈ grantList → s ∉ revokeList) ∧
  NoDup grantList ∧ NoDup revokeList.
Proof.
  apply (getOAuthApiScopeUpdateLists_partition
           (Service.scopeData ["okta.users.read"; "okta.groups.read"])
           (Some [Service.granted "okta.groups.read"; Service.granted "okta.apps.read"])).
  - apply (bool_decide_unpack _). vm_compute. reflexivity.
  - apply (bool_decide_unpack _). vm_compute. reflexivity.
Defined.
End ScopeDiff.

(** ** Running the effects *)

Section Run.
Context {Σ C : Type}.

Lemma bind_run {A B} (m : M Σ C A) (k : A → M Σ C B) w :
  bind m k w = k (m w).1 (m w).2.
Proof. unfold bind. by destruct (m w). Qed.

Lemma request_run {A} (c : C) (h : Σ → (A * error) * Σ) (w : World Σ C) :
  request c h w
  = ((h (remote w)).1, MkWorld (h (remote w)).2 (calls w ++ [(c, (h (remote w)).1.2)])).
Proof. unfold request. by destruct (h (remote w)). Qed.

Lemma bind_ret_run {A B} (a : A) (k : A → M Σ C B) w : bind (ret a) k w = k a w.
Proof. done. Qed.

Lemma bind_bind_run {A B D} (m : M Σ C A) (f : A → M Σ C B) (k : B → M Σ C D) w :
  bind (bind m f) k w = bind m (λ a, bind (f a) k) w.
Proof. unfold bind. destruct (m w) as [a w1]. by destruct (f a w1). Qed.

Lemma bind_request {A B} (c : C) (h : Σ → (A * error) * Σ)
    (k : A * error → M Σ C B) (w : World Σ C) :
  bind (request c h) k w
  = k (h (remote w)).1 (MkWorld (h (remote w)).2 (calls w ++ [(c, (h (remote w)).1.2)])).
Proof. by rewrite bind_run, request_run. Qed.
End Run.

(** Run the request at the head of the goal and name what the service
    answers. *)
Ltac run_request :=
  rewrite bind_request;
  match goal with
  | |- context [?h (remote ?w)] =>
      destruct (h (remote w)) as [[? ?] ?] eqn:?; cbn [fst snd calls remote];
      repeat match goal with
             | x : (_ * _)%type |- _ => destruct x; cbn [fst snd calls remote]
             end
  end.

Lemma occurrences_NoDup (x : string) (l : list string) :
  NoDup l → Observe.occurrences x l = if decide (x ∈ l) then 1 else 0.
Proof.
  unfold Observe.occurrences. induction 1 as [|y l Hy Hl IH].
  - rewrite decide_False; [done | by intros ?%elem_of_nil].
  - rewrite filter_cons. destruct (decide (y = x)) as [->|Hne]; simpl.
    + rewrite IH. rewrite decide_False by done.
      rewrite decide_True; [done | by left].
    + rewrite IH. destruct (decide (x ∈ l)) as [Hin|Hin].
      * rewrite decide_True; [done | by right].
      * rewrite decide_False; [done |].
        intros [->|?]%elem_of_cons; done.
Qed.

Lemma remove_dups_NoDup (l : list string) : NoDup l → remove_dups l = l.
Proof.
  induction 1 as [|x l Hx Hl IH]; simpl; [done |].
  destruct (decide_rel elem_of x l); [done | by rewrite IH].
Qed.

(** ** The update of the OAuth API scope resource *)

(** *** Loops of requests *)

Section RequestLoops.
Import Observe.
Context {Σ X A : Type}.

Lemma answers_items (send : X → Σ → A * Σ) items s :
  (answers send items s).*1.*1 = items.
Proof.
  revert s. induction items as [|x items IH]; intros s; [done |].
  cbn [answers]. destruct (send x s) as [a s']. cbn. by rewrite IH.
Qed.

Lemma last_take_S {B} (l : list B) (k : nat) x :
  l !! k = Some x → last (take (S k) l) = Some x.
Proof.
  revert k. induction l as [|y l IH]; intros [|k] Hk; try done.
  cbn [take]. by rewrite last_cons, (IH k Hk).
Qed.

Lemma upto_take {B} (stop : B → bool) l :
  upto stop l = take (length (upto stop l)) l.
Proof.
  induction l as [|x l IH]; [done |]. cbn [upto].
  destruct (stop x); [done |]. cbn [length take]. by rewrite <- IH.
Qed.

(** Nothing stops before the last entry of [upto]: it stops at the first
    entry that does. *)
Lemma upto_first {B} (stop : B → bool) l :
  (Forall (λ x, stop x = false) l ∧ upto stop l = l)
  ∨ (∃ (k : nat) x, l !! k = Some x ∧ stop x = true ∧
             Forall (λ y, stop y = false) (take k l) ∧
             upto stop l = take (S k) l).
Proof.
  induction l as [|x l IH]; [by left |]. cbn [upto].
  destruct (stop x) eqn:Hx.
  - right. exists 0%nat, x. split_and!; [done | done | by constructor | done].
  - destruct IH as [[Hall Heq]|(k & y & Hk & Hy & Hall & Heq)].
    + left. split; [by constructor |]. by rewrite Heq.
    + right. exists (S k), y. split_and!; [done | done | | ].
      * cbn [take]. by constructor.
      * by rewrite Heq.
Qed.

Lemma upto_all {B} (stop : B → bool) l :
  (∀ x, last (upto stop l) = Some x → stop x = false) → upto stop l = l.
Proof.
  induction l as [|x l IH]; [done |]. cbn [upto]. intros Hlast.
  destruct (stop x) eqn:Hx.
  - specialize (Hlast x eq_refl). congruence.
  - f_equal. apply IH. intros y Hy. apply Hlast. by rewrite last_cons, Hy.
Qed.

Lemma upto_items (send : X → Σ → A * Σ) stop items s :
  (upto stop (answers send items s)).*1.*1
  = take (length (upto stop (answers send items s))) items.
Proof.
  rewrite (upto_take stop (answers send items s)) at 1.
  by rewrite !fmap_take, answers_items.
Qed.
End RequestLoops.

Lemma fold_insert_lookup {A} (key val : A → string) (l : list A)
    (m : gmap string string) (s : string) :
  fold_left (λ result x, <[key x := val x]> result) l m !! s
  = match last (filter (λ x, key x = s) l) with
    | Some x => Some (val x)
    | None => m !! s
    end.
Proof.
  revert m. induction l as [|x l IH]; intros m; [done |].
  cbn [fold_left]. rewrite IH, filter_cons.
  destruct (decide (key x = s)) as [Hx|Hx].
  - rewrite last_cons. destruct (last (filter _ l)); [done |].
    by rewrite <- Hx, lookup_insert_eq.
  - destruct (last (filter _ l)); [done |]. by rewrite lookup_insert_ne.
Qed.

Section ScopeUpdate.
Import OAuthApiScope Observe.
Context {Σ : Type} (client : ApplicationClient Σ).
Context (suppressErrorOn404 : option Response → error → error).

Lemma grantedScopes_app l1 l2 :
  grantedScopes (l1 ++ l2) = grantedScopes l1 ++ grantedScopes l2.
Proof. apply omap_app. Qed.

Lemma revokedIds_app l1 l2 : revokedIds (l1 ++ l2) = revokedIds l1 ++ revokedIds l2.
Proof. apply omap_app. Qed.

Lemma grantedScopes_grants app issuer (l : list string) :
  grantedScopes (GrantConsentToScopeCall app <$> getOAuthApiScopeList l issuer) = l.
Proof.
  unfold grantedScopes, getOAuthApiScopeList.
  induction l as [|x l IH]; simpl; [done | by f_equal].
Qed.

Lemma grantedScopes_revokes app (ids : list string) :
  grantedScopes (RevokeScopeConsentGrantCall app <$> ids) = [].
Proof. induction ids as [|x l IH]; simpl; done. Qed.

Lemma revokedIds_grants app (l : list OAuth2ScopeConsentGrant) :
  revokedIds (GrantConsentToScopeCall app <$> l) = [].
Proof. induction l as [|x l IH]; simpl; done. Qed.

Lemma revokedIds_revokes app (ids : list string) :
  revokedIds (RevokeScopeConsentGrantCall app <$> ids) = ids.
Proof.
  unfold revokedIds. induction ids as [|x l IH]; simpl; [done | by f_equal].
Qed.

(** The grant loop: the requests it sends are the grants up to the first
    one that comes back with an error, and that error is the result. *)
Lemma grantOAuthApiScopes_run d grants w :
  grantOAuthApiScopes client d grants w
  = let sent := upto (λ e, bool_decide (is_Some e.1.2.2))
                  (answers (GrantConsentToScope client (app_id d)) grants (remote w)) in
    (Errorf "failed to grant application api scope: " <$> (last sent ≫= λ e, e.1.2.2),
     MkWorld (stateAfter (remote w) sent)
       (calls w ++ ((λ e, (GrantConsentToScopeCall (app_id d) e.1.1, e.1.2.2)) <$> sent))).
Proof.
  cbv zeta. revert w. induction grants as [|g grants IH]; intros [s log].
  - cbn. by rewrite app_nil_r.
  - cbn [grantOAuthApiScopes answers remote]. rewrite bind_request. cbn [remote calls].
    destruct (GrantConsentToScope client (app_id d) g s) as [[[g' resp] err] s1].
    cbn [fst snd upto]. destruct err as [err|].
    + rewrite bool_decide_eq_true_2 by by eexists. done.
    + rewrite bool_decide_eq_false_2 by by intros [? ?].
      rewrite IH. cbn [remote calls]. unfold stateAfter.
      rewrite last_cons, fmap_cons, <- app_assoc. cbn [fst snd app].
      by destruct (last _) as [e|].
Qed.

(** The revoke loop: the requests it sends are the revokes up to the first
    one whose error [suppressErrorOn404] does not clear, and that error is
    the result. *)
Lemma revokeOAuthApiScope_run d ids w :
  revokeOAuthApiScope client suppressErrorOn404 d ids w
  = let sent := upto (λ e, bool_decide (is_Some (suppressErrorOn404 e.1.2.1 e.1.2.2)))
                  (answers (RevokeScopeConsentGrant client (app_id d)) ids (remote w)) in
    (Errorf "failed to revoke application api scope: "
       <$> (last sent ≫= λ e, suppressErrorOn404 e.1.2.1 e.1.2.2),
     MkWorld (stateAfter (remote w) sent)
       (calls w ++ ((λ e, (RevokeScopeConsentGrantCall (app_id d) e.1.1, e.1.2.2)) <$> sent))).
Proof.
  cbv zeta. revert w. induction ids as [|i ids IH]; intros [s log].
  - cbn. by rewrite app_nil_r.
  - cbn [revokeOAuthApiScope answers remote]. rewrite bind_request. cbn [remote calls].
    destruct (RevokeScopeConsentGrant client (app_id d) i s) as [[resp err] s1].
    cbn [fst snd upto]. destruct (suppressErrorOn404 resp err) as [e|] eqn:Hsup.
    + rewrite bool_decide_eq_true_2 by by eexists.
      cbn [last fmap list_fmap mbind option_bind fst snd]. by rewrite Hsup.
    + rewrite bool_decide_eq_false_2 by by intros [? ?].
      rewrite IH. cbn [remote calls]. unfold stateAfter.
      rewrite last_cons, fmap_cons, <- app_assoc. cbn [fst snd app].
      destruct (last _) as [e|]; [done |]. cbn. by rewrite Hsup.
Qed.

Lemma getOAuthApiScopeIdMap_run d w :
  getOAuthApiScopeIdMap client suppressErrorOn404 d w
  = let '(((current, resp), err), s1) :=
      ListScopeConsentGrants client (app_id d) (remote w) in
    (match suppressErrorOn404 resp err with
     | Some err =>
         (None, Some (Errorf "failed to get application scope consent grants: " err))
     | None =>
         (Some (fold_left (λ result g, <[ScopeId g := Id g]> result) (range current) ∅),
          None)
     end,
     MkWorld s1 (calls w ++ [(ListScopeConsentGrantsCall (app_id d), err)])).
Proof.
  unfold getOAuthApiScopeIdMap. rewrite bind_request.
  destruct (ListScopeConsentGrants client (app_id d) (remote w))
    as [[[current resp] err] s1]. cbn [fst snd].
  by destruct (suppressErrorOn404 resp err).
Qed.

Lemma scopeIdMap_lookup (current : list OAuth2ScopeConsentGrant) (s : string) :
  fold_left (λ result g, <[ScopeId g := Id g]> result) current (∅ : gmap string string) !! s
  = Id <$> last (filter (λ g, ScopeId g = s) current).
Proof.
  rewrite fold_insert_lookup. destruct (last _); [done | by rewrite lookup_empty].
Qed.

Lemma resourceAppOAuthApiScopeRead_calls d w :
  calls (resourceAppOAuthApiScopeRead client d w).2
  = calls w ++ [(ListScopeConsentGrantsCall (app_id d),
                 (ListScopeConsentGrants client (app_id d) (remote w)).1.2)].
Proof.
  unfold resourceAppOAuthApiScopeRead. rewrite bind_request.
  destruct (ListScopeConsentGrants client (app_id d) (remote w))
    as [[[current resp] [e|]] s1]; cbn [fst snd]; [done |].
  by destruct current.
Qed.

Lemma resourceAppOAuthApiScopeRead_error d w :
  (resourceAppOAuthApiScopeRead client d w).1.1
  = Errorf "failed to get application scope consent grants: "
      <$> (ListScopeConsentGrants client (app_id d) (remote w)).1.2.
Proof.
  unfold resourceAppOAuthApiScopeRead. rewrite bind_request.
  destruct (ListScopeConsentGrants client (app_id d) (remote w))
    as [[[current resp] [e|]] s1]; cbn [fst snd]; [done |].
  by destruct current.
Qed.

(** The whole run of an update, stage by stage. *)
Lemma resourceAppOAuthApiScopeUpdate_run d w :
  resourceAppOAuthApiScopeUpdate client suppressErrorOn404 d w
  = let '(((listed, _), err0), s0) := ListScopeConsentGrants client (app_id d) (remote w) in
    let current := ScopeId <$> range listed in
    let toGrant := filter (λ sc, sc ∉ current) (scopes d) in
    let toRevoke := filter (λ sc, sc ∉ scopes d) current in
    let list := ListScopeConsentGrantsCall (app_id d) in
    let w0 := MkWorld s0 (calls w ++ [(list, err0)]) in
    match err0 with
    | Some err =>
        ((Some (Errorf "failed to get application scope consent grants: " err), d), w0)
    | None =>
        let granted :=
          upto (λ e, bool_decide (is_Some e.1.2.2))
            (answers (GrantConsentToScope client (app_id d))
               (getOAuthApiScopeList toGrant (issuer d)) s0) in
        let w1 := MkWorld (stateAfter s0 granted)
                    (calls w0 ++ ((λ e, (GrantConsentToScopeCall (app_id d) e.1.1, e.1.2.2))
                                    <$> granted)) in
        match last granted ≫= (λ e, e.1.2.2) with
        | Some err =>
            ((Some (Errorf "failed to create application scope consent grant: "
                      (Errorf "failed to grant application api scope: " err)), d), w1)
        | None =>
            let '(((relisted, resp1), err1), s2) :=
              ListScopeConsentGrants client (app_id d) (stateAfter s0 granted) in
            let idOf sc :=
              default "" (Id <$> last (filter (λ g, ScopeId g = sc) (range relisted))) in
            let w2 := MkWorld s2 (calls w1 ++ [(list, err1)]) in
            match suppressErrorOn404 resp1 err1 with
            | Some err =>
                ((Some (Errorf "failed to get application scope consent grant: "
                          (Errorf "failed to get application scope consent grants: " err)),
                  d), w2)
            | None =>
                let revoked :=
                  upto (λ e, bool_decide (is_Some (suppressErrorOn404 e.1.2.1 e.1.2.2)))
                    (answers (RevokeScopeConsentGrant client (app_id d))
                       (idOf <$> toRevoke) s2) in
                let w3 := MkWorld (stateAfter s2 revoked)
                            (calls w2
                             ++ ((λ e, (RevokeScopeConsentGrantCall (app_id d) e.1.1, e.1.2.2))
                                   <$> revoked)) in
                match last revoked ≫= (λ e, suppressErrorOn404 e.1.2.1 e.1.2.2) with
                | Some err =>
                    ((Some (Errorf "failed to revoke application scope consent grant: "
                              (Errorf "failed to revoke application api scope: " err)), d),
                     w3)
                | None => resourceAppOAuthApiScopeRead client d w3
                end
            end
        end
    end.
Proof.
  unfold resourceAppOAuthApiScopeUpdate. rewrite bind_request.
  destruct (ListScopeConsentGrants client (app_id d) (remote w))
    as [[[listed resp0] [err0|]] s0]; cbn [fst snd]; [done |].
  rewrite getOAuthApiScopeUpdateLists_filter. cbv beta iota zeta.
  rewrite bind_run, grantOAuthApiScopes_run. cbv zeta. cbn [fst snd remote calls].
  destruct (last _ ≫= _) as [err|]; [done |]. cbn [fmap option_fmap option_map].
  rewrite bind_run, getOAuthApiScopeIdMap_run. cbn [remote calls].
  destruct (ListScopeConsentGrants client (app_id d) _) as [[[relisted resp1] err1] s2].
  destruct (suppressErrorOn404 resp1 err1) as [err|]; cbn [fst snd]; [done |].
  rewrite bind_run, fold_append, app_nil_l, revokeOAuthApiScope_run. cbv zeta.
  cbn [fst snd remote calls default].
  match goal with
  | |- context [answers _ (?f <$> ?l) s2] =>
      rewrite (list_fmap_ext f
                 (λ sc, default "" (Id <$> last (filter (λ g, ScopeId g = sc)
                                                        (range relisted)))) l)
        by (intros _ sc _; cbn; by rewrite scopeIdMap_lookup)
  end.
  by destruct (last _ ≫= _) as [err|].
Qed.

Lemma elem_of_take_1 {B} (x : B) (n : nat) (l : list B) : x ∈ take n l → x ∈ l.
Proof. intros Hx. rewrite <- (take_drop n l). apply elem_of_app. by left. Qed.

Lemma NoDup_take_1 {B} (n : nat) (l : list B) : NoDup l → NoDup (take n l).
Proof. rewrite <- (take_drop n l) at 1. by intros [? _]%NoDup_app. Qed.

(** What the entries of a grant loop show in a log. *)
Lemma grant_entries app issuer (l : list string) (s0 : Σ) stop :
  let granted := upto stop (answers (GrantConsentToScope client app)
                              (getOAuthApiScopeList l issuer) s0) in
  let log := ((λ e, (GrantConsentToScopeCall app e.1.1, e.1.2.2)) <$> granted).*1 in
  grantedScopes log = take (length granted) l ∧ revokedIds log = [].
Proof.
  cbv zeta. set (granted := upto _ _).
  assert (Hlog : ((λ e, (GrantConsentToScopeCall app e.1.1, e.1.2.2)) <$> granted).*1
                 = GrantConsentToScopeCall app <$> granted.*1.*1).
  { rewrite <- !list_fmap_compose. by apply list_fmap_ext. }
  rewrite Hlog. unfold granted. rewrite upto_items.
  assert (Htake : ∀ n, take n (getOAuthApiScopeList l issuer)
                       = getOAuthApiScopeList (take n l) issuer).
  { intros n. unfold getOAuthApiScopeList. by rewrite fmap_take. }
  rewrite Htake.
  split; [apply grantedScopes_grants | apply revokedIds_grants].
Qed.

(** What the entries of a revoke loop show in a log. *)
Lemma revoke_entries app (ids : list string) (s0 : Σ) stop :
  let revoked := upto stop (answers (RevokeScopeConsentGrant client app) ids s0) in
  let log := ((λ e, (RevokeScopeConsentGrantCall app e.1.1, e.1.2.2)) <$> revoked).*1 in
  revokedIds log = take (length revoked) ids ∧ grantedScopes log = [].
Proof.
  cbv zeta. set (revoked := upto _ _).
  assert (Hlog : ((λ e, (RevokeScopeConsentGrantCall app e.1.1, e.1.2.2)) <$> revoked).*1
                 = RevokeScopeConsentGrantCall app <$> revoked.*1.*1).
  { rewrite <- !list_fmap_compose. by apply list_fmap_ext. }
  rewrite Hlog. unfold revoked. rewrite upto_items.
  split; [apply revokedIds_revokes | apply grantedScopes_revokes].
Qed.

(** A loop whose last request did not stop it has sent a request for every
    item. *)
Lemma upto_complete {X A} (send : X → Σ → A * Σ) (err : X * A * Σ → error) items s :
  let sent := upto (λ e, bool_decide (is_Some (err e))) (answers send items s) in
  last sent ≫= err = None → length sent = length items.
Proof.
  cbv zeta. intros Hlast. rewrite upto_all.
  - by rewrite <- (answers_items send items s) at 2; rewrite !length_fmap.
  - intros e He. rewrite He in Hlast. cbn in Hlast. rewrite Hlast.
    apply bool_decide_eq_false_2. by intros [? ?].
Qed.

(** C3, amended.  Whatever the service answers, the run of an update is:
    the list request; one grant request for each entry of the desired list
    whose scope is not current, up to the first one that fails; the second
    list request; one revoke request for each current grant whose scope is
    not desired, under the id the second list has for that scope (the last
    grant of the scope; the empty id if there is none), up to the first
    one whose error is not cleared; and the list request of the read.  The
    update returns no error exactly when no stage has failed, and then the
    whole plan has been sent.  In every run the grants and revokes sent
    are an initial part of the plan; no grant names a scope that is both
    desired and current, and no revoke is made under the id of a grant of
    a desired scope when the listed ids identify their grants.  Without
    duplicates in either list no scope is granted twice and the scopes to
    revoke are distinct; an update without error then sends exactly one
    grant per scope of desired-minus-current and one revoke per scope of
    current-minus-desired. *)
Theorem resourceAppOAuthApiScopeUpdate_calls d s :
  let r := resourceAppOAuthApiScopeUpdate client suppressErrorOn404 d (MkWorld s []) in
  let log := (calls r.2).*1 in
  let '(((listed, _), err0), s0) := ListScopeConsentGrants client (app_id d) s in
  let desired := scopes d in
  let current := ScopeId <$> range listed in
  let toGrant := filter (λ sc, sc ∉ current) desired in
  let toRevoke := filter (λ sc, sc ∉ desired) current in
  let granted :=
    upto (λ e, bool_decide (is_Some e.1.2.2))
      (answers (GrantConsentToScope client (app_id d))
         (getOAuthApiScopeList toGrant (issuer d)) s0) in
  let grantError := last granted ≫= (λ e, e.1.2.2) in
  let '(((relisted, resp1), err1), s2) :=
    ListScopeConsentGrants client (app_id d) (stateAfter s0 granted) in
  let idOf sc := default "" (Id <$> last (filter (λ g, ScopeId g = sc) (range relisted))) in
  let revoked :=
    upto (λ e, bool_decide (is_Some (suppressErrorOn404 e.1.2.1 e.1.2.2)))
      (answers (RevokeScopeConsentGrant client (app_id d)) (idOf <$> toRevoke) s2) in
  let revokeError := last revoked ≫= (λ e, suppressErrorOn404 e.1.2.1 e.1.2.2) in
  let readError := (ListScopeConsentGrants client (app_id d) (stateAfter s2 revoked)).1.2 in
  let list := ListScopeConsentGrantsCall (app_id d) in
  calls r.2
  = (list, err0) ::
    match err0 with
    | Some _ => []
    | None =>
        ((λ e, (GrantConsentToScopeCall (app_id d) e.1.1, e.1.2.2)) <$> granted) ++
        match grantError with
        | Some _ => []
        | None =>
            (list, err1) ::
            match suppressErrorOn404 resp1 err1 with
            | Some _ => []
            | None =>
                ((λ e, (RevokeScopeConsentGrantCall (app_id d) e.1.1, e.1.2.2)) <$> revoked) ++
                match revokeError with
                | Some _ => []
                | None => [(list, readError)]
                end
            end
        end
    end ∧
  (r.1.1 = None ↔
   err0 = None ∧ grantError = None ∧ suppressErrorOn404 resp1 err1 = None ∧
   revokeError = None ∧ readError = None) ∧
  (∃ g v : nat,
     grantedScopes log = take g toGrant ∧
     revokedIds log = idOf <$> take v toRevoke ∧
     (revokedIds log ≠ [] → grantedScopes log = toGrant) ∧
     (r.1.1 = None → grantedScopes log = toGrant ∧ revokedIds log = idOf <$> toRevoke)) ∧
  (∀ sc, sc ∈ desired → sc ∈ current → sc ∉ grantedScopes log) ∧
  (∀ g, g ∈ range relisted → ScopeId g ∈ desired → Id g ≠ "" →
        (∀ g', g' ∈ range relisted → Id g' = Id g → ScopeId g' = ScopeId g) →
        Id g ∉ revokedIds log) ∧
  (NoDup desired → NoDup current →
   (∀ sc, (occurrences sc (grantedScopes log)
           ≤ if decide (sc ∈ desired ∧ sc ∉ current) then 1 else 0)%nat) ∧
   NoDup toRevoke ∧
   (r.1.1 = None → minimal_calls desired current log)).
Proof.
  cbv zeta.
  pose proof (resourceAppOAuthApiScopeUpdate_run d (MkWorld s [])) as Hrun.
  cbn [remote calls] in Hrun.
  destruct (ListScopeConsentGrants client (app_id d) s) as [[[listed resp0] err0] s0].
  cbv beta iota zeta in Hrun |- *.
  set (current := ScopeId <$> range listed) in *.
  set (toGrant := filter (λ sc, sc ∉ current) (scopes d)) in *.
  set (toRevoke := filter (λ sc, sc ∉ scopes d) current) in *.
  set (granted := upto (λ e, bool_decide (is_Some e.1.2.2))
                    (answers (GrantConsentToScope client (app_id d))
                       (getOAuthApiScopeList toGrant (issuer d)) s0)) in *.
  destruct (ListScopeConsentGrants client (app_id d) (stateAfter s0 granted))
    as [[[relisted resp1] err1] s2].
  cbv beta iota zeta in Hrun |- *.
  set (idOf := λ sc : string,
         default "" (Id <$> last (filter (λ g, ScopeId g = sc) (range relisted)))) in *.
  set (revoked := upto (λ e, bool_decide (is_Some (suppressErrorOn404 e.1.2.1 e.1.2.2)))
                    (answers (RevokeScopeConsentGrant client (app_id d))
                       (idOf <$> toRevoke) s2)) in *.
  set (r := resourceAppOAuthApiScopeUpdate client suppressErrorOn404 d _) in *.
  set (log := (calls r.2).*1).
  (* what the two loops show in a log *)
  assert (Hgg : grantedScopes
                  ((λ e, (GrantConsentToScopeCall (app_id d) e.1.1, e.1.2.2)) <$> granted).*1
                = take (length granted) toGrant) by apply grant_entries.
  assert (Hgr : revokedIds
                  ((λ e, (GrantConsentToScopeCall (app_id d) e.1.1, e.1.2.2)) <$> granted).*1
                = []) by apply grant_entries.
  assert (Hrr : revokedIds
                  ((λ e, (RevokeScopeConsentGrantCall (app_id d) e.1.1, e.1.2.2))
                     <$> revoked).*1
                = idOf <$> take (length revoked) toRevoke).
  { rewrite fmap_take. apply revoke_entries. }
  assert (Hrg : grantedScopes
                  ((λ e, (RevokeScopeConsentGrantCall (app_id d) e.1.1, e.1.2.2))
                     <$> revoked).*1
                = []) by apply revoke_entries.
  assert (Hgall : last granted ≫= (λ e, e.1.2.2) = None → length granted = length toGrant).
  { intros Hnone.
    etrans; [exact (upto_complete (GrantConsentToScope client (app_id d)) (λ e, e.1.2.2)
                      (getOAuthApiScopeList toGrant (issuer d)) s0 Hnone) |].
    unfold getOAuthApiScopeList. by rewrite length_fmap. }
  assert (Hrall : last revoked ≫= (λ e, suppressErrorOn404 e.1.2.1 e.1.2.2) = None →
                  length revoked = length toRevoke).
  { intros Hnone.
    etrans; [exact (upto_complete (RevokeScopeConsentGrant client (app_id d))
                      (λ e, suppressErrorOn404 e.1.2.1 e.1.2.2) (idOf <$> toRevoke) s2
                      Hnone) |].
    by rewrite length_fmap. }
  (* the log, the result, and the grants and revokes in the log *)
  assert (Hmain :
    calls r.2
    = (ListScopeConsentGrantsCall (app_id d), err0) ::
      match err0 with
      | Some _ => []
      | None =>
          ((λ e, (GrantConsentToScopeCall (app_id d) e.1.1, e.1.2.2)) <$> granted) ++
          match last granted ≫= (λ e, e.1.2.2) with
          | Some _ => []
          | None =>
              (ListScopeConsentGrantsCall (app_id d), err1) ::
              match suppressErrorOn404 resp1 err1 with
              | Some _ => []
              | None =>
                  ((λ e, (RevokeScopeConsentGrantCall (app_id d) e.1.1, e.1.2.2))
                     <$> revoked) ++
                  match last revoked ≫= (λ e, suppressErrorOn404 e.1.2.1 e.1.2.2) with
                  | Some _ => []
                  | None =>
                      [(ListScopeConsentGrantsCall (app_id d),
                        (ListScopeConsentGrants client (app_id d)
                           (stateAfter s2 revoked)).1.2)]
                  end
              end
          end
      end ∧
    (r.1.1 = None ↔
     err0 = None ∧ last granted ≫= (λ e, e.1.2.2) = None ∧
     suppressErrorOn404 resp1 err1 = None ∧
     last revoked ≫= (λ e, suppressErrorOn404 e.1.2.1 e.1.2.2) = None ∧
     (ListScopeConsentGrants client (app_id d) (stateAfter s2 revoked)).1.2 = None) ∧
    ∃ g v : nat,
      grantedScopes log = take g toGrant ∧
      revokedIds log = idOf <$> take v toRevoke ∧
      (revokedIds log ≠ [] → grantedScopes log = toGrant) ∧
      (r.1.1 = None → grantedScopes log = toGrant ∧ revokedIds log = idOf <$> toRevoke)).
  { unfold log. rewrite Hrun. clear Hrun. unfold error in *.
    destruct err0 as [e0|].
    { cbn [fst snd calls]. split_and!; [done | split; [done | by intros [? _]] |].
      exists 0%nat, 0%nat. by split_and!. }
    destruct (last granted ≫= _) as [eg|] eqn:Hgerr.
    { cbn [fst snd calls]. rewrite app_nil_l, app_nil_r.
      split_and!; [done | split; [done | by intros (_ & ? & _)] |].
      exists (length granted), 0%nat.
      rewrite !fmap_app, !grantedScopes_app, !revokedIds_app, Hgg, Hgr.
      by split_and!. }
    specialize (Hgall eq_refl).
    destruct (suppressErrorOn404 resp1 err1) as [e1|].
    { cbn [fst snd calls]. rewrite app_nil_l.
      split_and!; [by rewrite <- app_assoc | split; [done | by intros (_ & _ & ? & _)] |].
      exists (length granted), 0%nat.
      rewrite !fmap_app, !grantedScopes_app, !revokedIds_app, Hgg, Hgr.
      cbn. rewrite app_nil_r. by split_and!. }
    destruct (last revoked ≫= _) as [er|] eqn:Hrerr.
    { cbn [fst snd calls]. rewrite app_nil_l, app_nil_r.
      split_and!; [by rewrite <- !app_assoc | split; [done | by intros (_ & _ & _ & ? & _)] |].
      exists (length granted), (length revoked).
      rewrite !fmap_app, !grantedScopes_app, !revokedIds_app, Hgg, Hgr, Hrr, Hrg.
      cbn. rewrite !app_nil_r, Hgall, firstn_all. by split_and!. }
    specialize (Hrall eq_refl).
    rewrite resourceAppOAuthApiScopeRead_calls, resourceAppOAuthApiScopeRead_error.
    unfold error in *.
    cbn [remote calls]. rewrite app_nil_l.
    split_and!.
    - by rewrite <- !app_assoc.
    - split; [intros Hnone | by intros (_ & _ & _ & _ & ->)].
      split_and!; try done. by destruct (_.1.2).
    - exists (length granted), (length revoked).
      rewrite !fmap_app, !grantedScopes_app, !revokedIds_app, Hgg, Hgr, Hrr, Hrg.
      cbn. rewrite !app_nil_r, Hgall, Hrall, !firstn_all. by split_and!. }
  destruct Hmain as (Hlog & Hres & g & v & Hg & Hv & Hord & Hok).
  split_and!; [exact Hlog | exact Hres | by exists g, v | | |].
  - intros sc _ Hcur. rewrite Hg. intros Hin%elem_of_take_1.
    apply list_elem_of_filter in Hin as [Hnot _]. done.
  - intros gr Hgr' Hdes Hid Huniq. rewrite Hv.
    intros (sc & Heq & Hsc%elem_of_take_1)%list_elem_of_fmap.
    apply list_elem_of_filter in Hsc as [Hnot _].
    unfold idOf in Heq.
    destruct (last (filter (λ g, ScopeId g = sc) (range relisted))) as [g'|] eqn:Hlast;
      [| by destruct Hid].
    apply last_Some_elem_of, list_elem_of_filter in Hlast as [Hsc Hin].
    cbn in Heq. apply Hnot. rewrite <- Hsc, (Huniq g' Hin); [done | done].
  - intros Hd Hc. split_and!.
    + intros sc. rewrite Hg.
      rewrite occurrences_NoDup by by apply NoDup_take_1, NoDup_filter.
      destruct (decide (sc ∈ take g toGrant)) as [Hin|]; [| lia].
      apply elem_of_take_1, list_elem_of_filter in Hin. rewrite decide_True; [done | tauto].
    + by apply NoDup_filter.
    + intros Hnone. destruct (Hok Hnone) as [Hg' Hv']. split.
      * intros sc. rewrite Hg', occurrences_NoDup by by apply NoDup_filter.
        destruct (decide (sc ∈ scopes d ∧ sc ∉ current)) as [Hin|Hin].
        -- rewrite decide_True; [done |]. unfold toGrant. apply list_elem_of_filter. tauto.
        -- rewrite decide_False; [done |]. unfold toGrant. rewrite list_elem_of_filter. tauto.
      * rewrite Hv', length_fmap, remove_dups_NoDup; [done |]. by apply NoDup_filter.
Qed.
End ScopeUpdate.
Lemma resourceAppOAuthApiScopeUpdate_calls_witness :
  Observe.minimal_calls
    ["okta.users.read"; "okta.groups.read"]
    ["okta.groups.read"; "okta.apps.read"]
    (issued (OAuthApiScope.resourceAppOAuthApiScopeUpdate Service.grants Service.suppress404
               (Service.scopeData ["okta.users.read"; "okta.groups.read"]))
            [Service.granted "okta.groups.read"; Service.granted "okta.apps.read"]).*1.
Proof.
  pose (d := Service.scopeData ["okta.users.read"; "okta.groups.read"]).
  pose (s := [Service.granted "okta.groups.read"; Service.granted "okta.apps.read"]).
  refine (proj2 (proj2
            (proj2 (proj2 (proj2 (proj2 (proj2
               (resourceAppOAuthApiScopeUpdate_calls Service.grants Service.suppress404
                  d s))))) _ _)) _).
  - apply (bool_decide_unpack _). vm_compute. reflexivity.
  - apply (bool_decide_unpack _). vm_compute. reflexivity.
  - vm_compute. reflexivity.
Defined.

(** The run of the witness: the scope that is desired and not current is
    granted, the scope that is current and not desired is revoked under
    the id of its grant, and the scope in both lists is left alone. *)
Example resourceAppOAuthApiScopeUpdate_calls_example :
  (issued (OAuthApiScope.resourceAppOAuthApiScopeUpdate Service.grants Service.suppress404
             (Service.scopeData ["okta.users.read"; "okta.groups.read"]))
          [Service.granted "okta.groups.read"; Service.granted "okta.apps.read"]).*1
  = [OAuthApiScope.ListScopeConsentGrantsCall "0oa1";
     OAuthApiScope.GrantConsentToScopeCall "0oa1"
       (OAuthApiScope.newOAuthApiScope "okta.users.read" "https://example.okta.com");
     OAuthApiScope.ListScopeConsentGrantsCall "0oa1";
     OAuthApiScope.RevokeScopeConsentGrantCall "0oa1" "g-okta.apps.read";
     OAuthApiScope.ListScopeConsentGrantsCall "0oa1"].
Proof. vm_compute. reflexivity. Qed.

(** C3 as stated fails.  With a scope listed twice in the configuration
    the update returns no error and has sent two grant requests for it;
    and when the service refuses the first grant, no request is sent for
    the second scope, which is desired and not current. *)
Lemma resourceAppOAuthApiScopeUpdate_not_minimal :
  (let d := Service.scopeData ["okta.users.read"; "okta.users.read"] in
   let r := OAuthApiScope.resourceAppOAuthApiScopeUpdate
              Service.grants Service.suppress404 d (MkWorld [] []) in
   r.1.1 = None ∧
   Observe.grantedScopes (calls r.2).*1 = ["okta.users.read"; "okta.users.read"] ∧
   ¬ Observe.minimal_calls (OAuthApiScope.scopes d) [] (calls r.2).*1) ∧
  (let d := Service.scopeData ["okta.users.read"; "okta.groups.read"] in
   let r := OAuthApiScope.resourceAppOAuthApiScopeUpdate
              Service.refusing Service.suppress404 d (MkWorld [] []) in
   r.1.1 ≠ None ∧
   Observe.grantedScopes (calls r.2).*1 = ["okta.users.read"] ∧
   ¬ Observe.minimal_calls (OAuthApiScope.scopes d) [] (calls r.2).*1).
Proof.
  split; cbv zeta; split_and!.
  - vm_compute. reflexivity.
  - vm_compute. reflexivity.
  - intros [H _]. specialize (H "okta.users.read"). vm_compute in H. discriminate.
  - vm_compute. discriminate.
  - vm_compute. reflexivity.
  - intros [H _]. specialize (H "okta.groups.read"). vm_compute in H. discriminate.
Qed.

(** ** Pagination of the user list *)

Section Pagination.
Import Okta UsersDataSource.
Context {Σ : Type}.
Context (ListUsers : Params → Σ → ((list User * option Response) * error) * Σ).
Context (GetAfterParam : option Response → string).

Local Abbreviation collect := (collectUsers ListUsers GetAfterParam).
Local Abbreviation pages := (pages ListUsers GetAfterParam).
Local Abbreviation remaining := (remaining ListUsers GetAfterParam).
Local Abbreviation recursive_call := (recursive_call ListUsers GetAfterParam).

(** One unfolding of [collectUsers] at a request the service answers. *)
Lemma collectUsers_step fuel results qp s log users res err s' :
  ListUsers qp s = (((users, res), err), s') →
  collect (S fuel) results qp (MkWorld s log)
  = match err with
    | Some err =>
        (Some (Some err, results, qp), MkWorld s' (log ++ [(ListUsersCall qp, Some err)]))
    | None =>
        if bool_decide (GetAfterParam res ≠ "") then
          collect fuel {| Users := Users results ++ users |}
                  (set_After (GetAfterParam res) qp)
                  (MkWorld s' (log ++ [(ListUsersCall qp, None)]))
        else
          (Some (None, {| Users := Users results ++ users |}, qp),
           MkWorld s' (log ++ [(ListUsersCall qp, None)]))
    end.
Proof.
  intros Hlist. cbn [collectUsers]. rewrite bind_request.
  cbn [remote calls]. rewrite Hlist. cbn [fst snd].
  destruct err; [done |]. by destruct (bool_decide _).
Qed.

Lemma pages_nonempty qp s trail s' : pages qp s trail s' → trail.*1 ≠ [].
Proof. by destruct 1. Qed.

Lemma last_request (qp a : Params) (l : list Params) :
  l ≠ [] → default qp (last (qp :: l)) = default a (last l).
Proof.
  destruct l as [|b l]; [done | intros _].
  rewrite last_cons_cons, last_cons. by destruct (last l).
Qed.

Lemma collectUsers_pages qp s trail s' :
  pages qp s trail s' →
  ∀ (fuel : nat) results log, (length trail ≤ fuel)%nat →
    collect fuel results qp (MkWorld s log)
    = (Some (None, {| Users := Users results ++ concat trail.*2 |},
             default qp (last trail.*1)),
       MkWorld s' (log ++ ((λ qp, (ListUsersCall qp, None)) <$> trail.*1))).
Proof.
  induction 1 as [qp s users res s' Hlist Hafter
                 |qp s users res s' trail s'' Hlist Hafter Hrest IH];
    intros fuel results log Hfuel.
  - destruct fuel as [|fuel]; [simpl in Hfuel; lia |].
    rewrite (collectUsers_step _ _ _ _ _ _ _ _ _ Hlist).
    rewrite bool_decide_eq_false_2 by (by intros ?).
    simpl. by rewrite app_nil_r.
  - destruct fuel as [|fuel]; [simpl in Hfuel; lia |].
    rewrite (collectUsers_step _ _ _ _ _ _ _ _ _ Hlist).
    rewrite bool_decide_eq_true_2 by done.
    rewrite IH by (simpl in Hfuel; lia).
    rewrite !fmap_cons.
    rewrite (last_request qp (set_After (GetAfterParam res) qp))
      by by eapply pages_nonempty.
    cbn [Users fst snd concat]. by rewrite <- !app_assoc.
Qed.

(** C6: when the endpoint answers page after page, [collectUsers] with
    enough fuel returns no error, has asked for each page in turn, each
    request carrying the after-token of the response before it, and has
    appended the users of the pages in page order: from an empty
    accumulator the result is the concatenation of all pages. *)
Theorem collectUsers_concat qp s trail s' fuel :
  pages qp s trail s' →
  (length trail ≤ fuel)%nat →
  (∀ results log,
     collect fuel results qp (MkWorld s log)
     = (Some (None, {| Users := Users results ++ concat trail.*2 |},
              default qp (last trail.*1)),
        MkWorld s' (log ++ ((λ qp, (ListUsersCall qp, None)) <$> trail.*1)))) ∧
  (collect fuel {| Users := [] |} qp (MkWorld s [])).1
    = Some (None, {| Users := concat trail.*2 |}, default qp (last trail.*1)).
Proof.
  intros Hpages Hfuel. split.
  - intros results log. by apply collectUsers_pages.
  - by rewrite (collectUsers_pages _ _ _ _ Hpages).
Qed.

Lemma remaining_positive qp s n : remaining qp s n → (0 < n)%nat.
Proof. destruct 1; lia. Qed.

(** C7: when only finitely many responses in a row carry an after-token,
    the recursion of [collectUsers] is well-founded: every recursive call
    has one page less remaining, so fuel equal to the number of remaining
    pages is enough for a result, which is reached after exactly that
    many requests, and less fuel is not enough. *)
Theorem collectUsers_terminates qp s n :
  remaining qp s n →
  Acc recursive_call (qp, s) ∧
  (∀ next, recursive_call next (qp, s) → ∃ m, n = S m ∧ remaining next.1 next.2 m) ∧
  (∀ fuel results log, (n ≤ fuel)%nat →
     ∃ r w', collect fuel results qp (MkWorld s log) = (Some r, w') ∧
             length (calls w') = (length log + n)%nat) ∧
  (∀ fuel results log, (fuel < n)%nat →
     (collect fuel results qp (MkWorld s log)).1 = None).
Proof.
  induction 1 as [qp s r err s' Hlist
                 |qp s users res s' Hlist Hafter
                 |qp s users res s' n Hlist Hafter Hrest IH].
  - split_and!.
    + constructor. intros [qp' s''] (users & res & Heq & _). simpl in Heq. congruence.
    + intros next (users & res & Heq & _). simpl in Heq. congruence.
    + intros [|fuel] results log Hfuel; [lia |]. destruct r as [users res].
      rewrite (collectUsers_step _ _ _ _ _ _ _ _ _ Hlist).
      eexists _, _. split; [done |]. cbn [calls]. by rewrite length_app.
    + intros fuel results log Hfuel. by replace fuel with 0 by lia.
  - split_and!.
    + constructor. intros [qp' s''] (users' & res' & Heq & Hne & _).
      simpl in Heq. congruence.
    + intros next (users' & res' & Heq & Hne & _). simpl in Heq. congruence.
    + intros [|fuel] results log Hfuel; [lia |].
      rewrite (collectUsers_step _ _ _ _ _ _ _ _ _ Hlist).
      rewrite bool_decide_eq_false_2 by (by intros ?).
      eexists _, _. split; [done |]. cbn [calls]. by rewrite length_app.
    + intros fuel results log Hfuel. by replace fuel with 0 by lia.
  - destruct IH as (IHacc & _ & IHfuel & IHshort). split_and!.
    + constructor. intros [qp' s''] (users' & res' & Heq & Hne & Hqp).
      simpl in Heq, Hqp. rewrite Hlist in Heq. by simplify_eq.
    + intros [qp' s''] (users' & res' & Heq & Hne & Hqp).
      simpl in Heq, Hqp. rewrite Hlist in Heq. simplify_eq. by exists n.
    + intros [|fuel] results log Hfuel; [lia |].
      rewrite (collectUsers_step _ _ _ _ _ _ _ _ _ Hlist).
      rewrite bool_decide_eq_true_2 by done.
      destruct (IHfuel fuel {| Users := Users results ++ users |}
                  (log ++ [(ListUsersCall qp, None)])) as (r & w' & -> & Hlen); [lia |].
      exists r, w'. split; [done |]. rewrite Hlen, length_app. simpl. lia.
    + intros [|fuel] results log Hfuel; [done |].
      rewrite (collectUsers_step _ _ _ _ _ _ _ _ _ Hlist).
      rewrite bool_decide_eq_true_2 by done. apply IHshort. lia.
Qed.
End Pagination.

Lemma collectUsers_concat_witness :
  (UsersDataSource.collectUsers Service.listUsers Service.afterParam 3
     {| UsersDataSource.Users := [] |} Service.firstPage (MkWorld () [])).1
  = Some (None,
          {| UsersDataSource.Users :=
               [Service.user "u1"; Service.user "u2"; Service.user "u3";
                Service.user "u4"; Service.user "u5"] |},
          Okta.set_After "c2" (Okta.set_After "c1" Service.firstPage)).
Proof.
  refine (proj2 (collectUsers_concat Service.listUsers Service.afterParam
            Service.firstPage ()
            [(Service.firstPage, [Service.user "u1"; Service.user "u2"]);
             (Okta.set_After "c1" Service.firstPage, [Service.user "u3"]);
             (Okta.set_After "c2" (Okta.set_After "c1" Service.firstPage),
              [Service.user "u4"; Service.user "u5"])]
            () 3 _ _)).
  - eapply UsersDataSource.pages_next; [reflexivity | discriminate |].
    eapply UsersDataSource.pages_next; [reflexivity | discriminate |].
    eapply UsersDataSource.pages_last; reflexivity.
  - simpl. lia.
Defined.

Lemma collectUsers_terminates_witness :
  ∃ r w', UsersDataSource.collectUsers Service.listUsers Service.afterParam
            3 {| UsersDataSource.Users := [] |} Service.firstPage (MkWorld () [])
          = (Some r, w') ∧
          length (calls w') = (0 + 3)%nat.
Proof.
  refine (proj1 (proj2 (proj2 (collectUsers_terminates Service.listUsers Service.afterParam
                                 Service.firstPage () 3 _)))
            3 {| UsersDataSource.Users := [] |} [] _).
  - eapply UsersDataSource.remaining_next; [reflexivity | discriminate |].
    eapply UsersDataSource.remaining_next; [reflexivity | discriminate |].
    eapply UsersDataSource.remaining_last; reflexivity.
  - lia.
Defined.

(** ** The user resource *)

Section UserStatus.
Import Okta UserResource.
Context {Σ : Type} (client : UserClient Σ) (helpers : Helpers Σ).

Lemma mapStatus_cases s :
  mapStatus s = if decide (s = userStatusPasswordExpired ∨ s = userStatusRecovery)
                then statusActive else s.
Proof.
  unfold mapStatus.
  destruct (decide (s = userStatusPasswordExpired ∨ s = userStatusRecovery)) as [[->| ->]|Hne].
  - done.
  - done.
  - rewrite !bool_decide_eq_false_2; [done | tauto | tauto].
Qed.

Lemma mapStatus_mapStatus s : mapStatus (mapStatus s) = mapStatus s.
Proof.
  rewrite (mapStatus_cases s).
  destruct (decide (s = userStatusPasswordExpired ∨ s = userStatusRecovery)); [done |].
  rewrite mapStatus_cases. by rewrite decide_False.
Qed.

Lemma Get_Set_ne k k' v d : k ≠ k' → Get k' (Set_ k v d) = Get k' d.
Proof. intros Hne. unfold Get, Set_. cbn [attrs]. by rewrite lookup_insert_ne. Qed.

Lemma Get_Set_eq k v d : Get k (Set_ k v d) = Some v.
Proof. unfold Get, Set_. cbn [attrs]. by rewrite lookup_insert_eq. Qed.

(** C10: [mapStatus] is idempotent, sends PASSWORD_EXPIRED and RECOVERY to
    ACTIVE and keeps every other status.  When the helpers that
    [resourceUserRead] calls after it has stored the status leave that
    attribute alone, the read either stores no status (user not found, or
    the request failed) or ends with the mapped status of the user, which
    [mapStatus] maps to itself. *)
Theorem mapStatus_idempotent :
  (∀ d m, Get "status" (setNonPrimitives helpers d m).1 = Get "status" d) →
  (∀ d s, Get "status" (setAdminRoles helpers d s).1.1 = Get "status" d) →
  (∀ d s, Get "status" (setGroups helpers d s).1.1 = Get "status" d) →
  (∀ s, mapStatus (mapStatus s) = mapStatus s) ∧
  mapStatus userStatusPasswordExpired = statusActive ∧
  mapStatus userStatusRecovery = statusActive ∧
  (∀ s, s ≠ userStatusPasswordExpired → s ≠ userStatusRecovery → mapStatus s = s) ∧
  (∀ d w,
     let d' := (resourceUserRead client helpers d w).1.2 in
     let '((user, resp), err) := (GetUser client (id d) (remote w)).1 in
     if notFound resp || bool_decide (err ≠ None)
     then Get "status" d' = Get "status" d
     else Get "status" d' = Some (VString (mapStatus (Status user))) ∧
          mapStatus (GetString "status" d') = GetString "status" d').
Proof.
  intros Hprim Hroles Hgroups. split_and!.
  - apply mapStatus_mapStatus.
  - done.
  - done.
  - intros s H1 H2. rewrite mapStatus_cases, decide_False; [done | tauto].
  - intros d w. cbv zeta.
    assert (Hstored : ∀ d' user,
      Get "status" d' = Some (VString (mapStatus (Status user))) →
      Get "status" d' = Some (VString (mapStatus (Status user))) ∧
      mapStatus (GetString "status" d') = GetString "status" d').
    { intros d' user Hd'. split; [done |]. unfold GetString. rewrite Hd'.
      apply mapStatus_mapStatus. }
    unfold resourceUserRead. rewrite bind_request.
    destruct (GetUser client (id d) (remote w)) as [[[user resp] err] s1].
    cbn [fst snd]. destruct (notFound resp); [done |].
    destruct err as [err|]; [done |]. cbn [orb bool_decide].
    rewrite bool_decide_eq_false_2 by (by intros ?).
    set (d1 := Set_ "raw_status" _ _).
    assert (Hd1 : Get "status" d1 = Some (VString (mapStatus (Status user)))).
    { unfold d1. rewrite Get_Set_ne by done. apply Get_Set_eq. }
    destruct (flattenUser helpers user) as [rawMap [err|]]; [by apply Hstored |].
    specialize (Hprim d1 rawMap).
    destruct (setNonPrimitives helpers d1 rawMap) as [d2 err]. cbn [fst] in Hprim.
    assert (Hd2 : Get "status" d2 = Some (VString (mapStatus (Status user))))
      by by rewrite Hprim.
    destruct err as [err|]; [by apply Hstored |].
    rewrite bind_request. cbn [remote].
    specialize (Hroles d2 s1).
    destruct (setAdminRoles helpers d2 s1) as [[d3 err] s2]. cbn [fst snd] in *.
    assert (Hd3 : Get "status" d3 = Some (VString (mapStatus (Status user))))
      by by rewrite Hroles.
    destruct err as [err|]; [by apply Hstored |].
    destruct (GetOkExists "group_memberships" d3).2; [| by apply Hstored].
    rewrite bind_request. cbn [remote].
    specialize (Hgroups d3 s2).
    destruct (setGroups helpers d3 s2) as [[d4 err] s3]. cbn [fst snd] in *.
    unfold ret. cbn [fst snd]. apply Hstored. by rewrite Hgroups.
Qed.

(** C9: [ensureUserDelete] sends one request for a DEPROVISIONED user and
    two for any other status when each comes back without error, and it
    stops with an error at the first request that fails. *)
Theorem ensureUserDelete_passes id status w :
  let c := DeactivateOrDeleteUserCall id in
  let first := DeactivateOrDeleteUser client id (remote w) in
  let second := DeactivateOrDeleteUser client id first.2 in
  ensureUserDelete client id status w =
    match first.1.2 with
    | Some err =>
        (Some (Errorf "failed to deprovision or delete user from Okta: " err),
         MkWorld first.2 (calls w ++ [(c, Some err)]))
    | None =>
        if bool_decide (status = userStatusDeprovisioned) then
          (None, MkWorld first.2 (calls w ++ [(c, None)]))
        else
          match second.1.2 with
          | Some err =>
              (Some (Errorf "failed to deprovision or delete user from Okta: " err),
               MkWorld second.2 (calls w ++ [(c, None); (c, Some err)]))
          | None =>
              (None, MkWorld second.2 (calls w ++ [(c, None); (c, None)]))
          end
    end.
Proof.
  cbv zeta. unfold ensureUserDelete.
  destruct (bool_decide (status = userStatusDeprovisioned)); cbn [deletePasses].
  - rewrite bind_request.
    destruct (DeactivateOrDeleteUser client id (remote w)) as [[resp [err|]] s1]; done.
  - rewrite bind_request.
    destruct (DeactivateOrDeleteUser client id (remote w)) as [[resp [err|]] s1];
      cbn [fst snd]; [done |].
    rewrite bind_request. cbn [remote calls].
    destruct (DeactivateOrDeleteUser client id s1) as [[resp2 [err|]] s2];
      cbn [fst snd]; unfold ret; by rewrite <- app_assoc.
Qed.

(** C8: an update that sets a changed status to STAGED returns the error
    at once: no request is sent, the service is as it was and the resource
    data is the one passed in. *)
Theorem resourceUserUpdate_staged d w :
  GetString "status" d = userStatusStaged →
  HasChange "status" d = true →
  ∃ err, resourceUserUpdate client helpers d w = ((Some err, d), w).
Proof.
  intros Hstatus Hchange. unfold resourceUserUpdate.
  rewrite Hstatus, Hchange. rewrite bool_decide_eq_true_2 by done.
  cbn [andb]. unfold ret. by eexists.
Qed.
End UserStatus.

(** ** The order of the steps of a user creation *)

Section UserCreate.
Import Okta UserResource Observe.
Context {Σ : Type} (client : UserClient Σ) (helpers : Helpers Σ).

(** [resourceUserRead] sends nothing but its own requests. *)
Lemma resourceUserRead_log d w :
  ∃ readLog,
    calls (resourceUserRead client helpers d w).2 = calls w ++ readLog ∧
    Forall (λ ev, is_read_call ev.1 = true) readLog.
Proof.
  unfold resourceUserRead. rewrite bind_request.
  destruct (GetUser client (id d) (remote w)) as [[[user resp] err] s1].
  cbn [fst snd].
  destruct (notFound resp).
  { eexists [_]. split; [done | by repeat constructor]. }
  destruct err as [err|].
  { eexists [_]. split; [done | by repeat constructor]. }
  destruct (flattenUser helpers user) as [rawMap [err|]].
  { eexists [_]. split; [done | by repeat constructor]. }
  destruct (setNonPrimitives helpers _ rawMap) as [d2 [err|]].
  { eexists [_]. split; [done | by repeat constructor]. }
  rewrite bind_request. cbn [remote calls].
  destruct (setAdminRoles helpers d2 s1) as [[d3 err] s2]. cbn [fst snd].
  destruct err as [err|].
  { eexists [_; _]. split; [unfold ret; cbn [snd calls]; by rewrite <- app_assoc
                           | by repeat constructor]. }
  destruct (GetOkExists "group_memberships" d3).2.
  - rewrite bind_request. cbn [remote calls].
    destruct (setGroups helpers d3 s2) as [[d4 err] s3]. cbn [fst snd].
    eexists [_; _; _]. split; [unfold ret; cbn [snd calls]; by rewrite <- !app_assoc
                              | by repeat constructor].
  - eexists [_; _]. split; [unfold ret; cbn [snd calls]; by rewrite <- app_assoc
                           | by repeat constructor].
Qed.

(** C4: the requests of [resourceUserCreate] follow the plan
    [CreateUser], role assignment, group assignment, status update, each
    of the last three only under its condition.  Either every request of
    the plan came back without error, and then only the requests of the
    final read follow; or one request of the plan failed, the requests
    before it are the plan up to there, all without error, nothing is sent
    after it, and the creation returns an error. *)
Theorem resourceUserCreate_order d s :
  let r := resourceUserCreate client helpers d (MkWorld s []) in
  ∃ body qp,
    let uid := Id (CreateUser client body qp s).1.1.1 in
    let plan := CreateUserCall body qp :: createSteps helpers d uid in
    (∃ readLog,
       calls r.2 = (ok <$> plan) ++ readLog ∧
       Forall (λ ev, is_read_call ev.1 = true) readLog)
    ∨
    (∃ k c err,
       plan !! k = Some c ∧
       calls r.2 = (ok <$> take k plan) ++ [(c, Some err)] ∧
       r.1.1 ≠ None).
Proof.
  cbv zeta. unfold resourceUserCreate.
  match goal with
  | |- context [request (CreateUserCall ?b ?q)] => exists b, q; set (body := b); set (qp := q)
  end.
  rewrite bind_request. cbn [remote calls].
  destruct (CreateUser client body qp s) as [[[user resp] err] s1].
  cbn [fst snd app].
  destruct err as [err|].
  { right. exists 0, (CreateUserCall body qp), err. by split_and!. }
  change (Get ?k (SetId ?v d)) with (Get k d).
  change (GetString ?k (SetId ?v d)) with (GetString k d).
  change (GetOkExists ?k (SetId ?v d)) with (GetOkExists k d).
  unfold createSteps.
  destruct (convertInterfaceToStringSetNullable helpers (Get "admin_roles" d))
    as [roles|].
  all: destruct (GetOkExists "group_memberships" d).2.
  all: destruct (bool_decide (GetString "status" d = userStatusSuspended)
                 || bool_decide (GetString "status" d = userStatusDeprovisioned)).
  all: repeat first
    [ rewrite bind_ret_run
    | rewrite bind_bind_run
    | rewrite bind_request; cbn [remote calls fst snd app];
      match goal with
      | |- context [assignAdminRolesToUser helpers ?a ?b ?s] =>
          destruct (assignAdminRolesToUser helpers a b s) as [[[] [?|]] ?]
      | |- context [assignGroupsToUser helpers ?a ?b ?s] =>
          destruct (assignGroupsToUser helpers a b s) as [[[] [?|]] ?]
      | |- context [updateUserStatus helpers ?a ?b ?s] =>
          destruct (updateUserStatus helpers a b s) as [[[] [?|]] ?]
      end;
      cbn [fst snd fmap option_fmap option_map] ].
  all: try (right; unfold ret; cbn [fst snd calls];
            first [ by eexists 1, _, _
                  | by eexists 2, _, _
                  | by eexists 3, _, _ ]).
  all: left;
    match goal with
    | |- context [resourceUserRead client helpers ?d' ?w] =>
        destruct (resourceUserRead_log d' w) as (readLog & -> & ?)
    end;
    by exists readLog.
Qed.
End UserCreate.

Lemma mapStatus_idempotent_witness :
  UserResource.Get "status"
    (UserResource.resourceUserRead Service.directory Service.directoryHelpers
       (Service.userData [] [("status", UserResource.VString "STAGED")])
       (MkWorld {| Service.status := "PASSWORD_EXPIRED"; Service.refuse_in := None |} [])).1.2
  = Some (UserResource.VString "ACTIVE").
Proof.
  refine (proj1 (proj2 (proj2 (proj2 (proj2
            (mapStatus_idempotent Service.directory Service.directoryHelpers _ _ _))))
            (Service.userData [] [("status", UserResource.VString "STAGED")])
            (MkWorld {| Service.status := "PASSWORD_EXPIRED"; Service.refuse_in := None |} []))).
  - intros d m. reflexivity.
  - intros d [st [[|n]|]]; reflexivity.
  - intros d [st [[|n]|]]; reflexivity.
Defined.

Lemma resourceUserUpdate_staged_witness :
  ∃ err,
    UserResource.resourceUserUpdate Service.directory Service.directoryHelpers
      (Service.userData [("status", UserResource.VString "ACTIVE")]
                        [("status", UserResource.VString "STAGED")])
      (MkWorld {| Service.status := "ACTIVE"; Service.refuse_in := None |} [])
    = ((Some err,
        Service.userData [("status", UserResource.VString "ACTIVE")]
                         [("status", UserResource.VString "STAGED")]),
       MkWorld {| Service.status := "ACTIVE"; Service.refuse_in := None |} []).
Proof.
  apply (resourceUserUpdate_staged Service.directory Service.directoryHelpers
           (Service.userData [("status", UserResource.VString "ACTIVE")]
                             [("status", UserResource.VString "STAGED")])
           (MkWorld {| Service.status := "ACTIVE"; Service.refuse_in := None |} [])).
  - vm_compute. reflexivity.
  - vm_compute. reflexivity.
Defined.

(** ** How many requests a function sends *)

Section Requests.
Import Okta.
Context {Σ : Type}.
Context (NewRequest : string → string → option Sdk.Role → Sdk.Request * error).
Context (Do : Sdk.Request → Σ → ((Sdk.Payload * option Response) * error) * Σ).
Context (Params_String : Params → string).
Context {Σu : Type} (client : UserResource.UserClient Σu).
Context {Σl : Type}.
Context (ListUsers : Params → Σl → ((list User * option Response) * error) * Σl).
Context (GetAfterParam : option Response → string).

(** Build the request, and send it when that went well: at most one
    request. *)
Ltac one_request :=
  intros; unfold issued;
  match goal with
  | |- context [NewRequest ?m ?u ?b] => destruct (NewRequest m u b) as [? [?|]]
  end;
  [ reflexivity
  | rewrite bind_request; cbn [remote calls];
    match goal with
    | |- context [Do ?r ?s] => destruct (Do r s) as [[[? ?] ?] ?]
    end;
    reflexivity ].

Lemma collectUsers_requests fuel results qp w :
  (length (calls (UsersDataSource.collectUsers ListUsers GetAfterParam fuel results qp w).2)
   ≤ length (calls w) + fuel)%nat.
Proof.
  revert results qp w. induction fuel as [|fuel IH]; intros results qp w.
  - simpl. lia.
  - cbn [UsersDataSource.collectUsers]. rewrite bind_request.
    destruct (ListUsers qp (remote w)) as [[[users res] [err|]] s']; cbn [fst snd].
    + unfold ret. cbn [snd calls]. rewrite length_app. simpl. lia.
    + destruct (bool_decide _).
      * etrans; [apply IH |]. cbn [calls]. rewrite length_app. simpl. lia.
      * unfold ret. cbn [snd calls]. rewrite length_app. simpl. lia.
Qed.

(** Every run of [collectUsers] that returns has followed a chain of
    pages of the endpoint, with one request for each page, and one more
    when the chain ends in a request that fails. *)
Lemma collectUsers_returns fuel results qp s log :
  let r := UsersDataSource.collectUsers ListUsers GetAfterParam fuel results qp
             (MkWorld s log) in
  r.1 ≠ None →
  ∃ trail,
    (∃ s', UsersDataSource.pages ListUsers GetAfterParam qp s trail s' ∧
           calls r.2 = log ++ ((λ qp, (UsersDataSource.ListUsersCall qp, None)) <$> trail.*1))
    ∨
    (∃ qp' err s',
       UsersDataSource.failing ListUsers GetAfterParam qp s trail qp' err s' ∧
       calls r.2 = log ++ ((λ qp, (UsersDataSource.ListUsersCall qp, None)) <$> trail.*1)
                       ++ [(UsersDataSource.ListUsersCall qp', Some err)]).
Proof.
  cbv zeta. revert results qp s log.
  induction fuel as [|fuel IH]; intros results qp s log; [done |].
  destruct (ListUsers qp s) as [[[users res] err] s'] eqn:Hlist.
  rewrite (collectUsers_step ListUsers GetAfterParam _ _ _ _ _ _ _ _ _ Hlist).
  destruct err as [err|].
  { intros _. exists []. right. exists qp, err, s'. split; [| done].
    eapply UsersDataSource.failing_now. exact Hlist. }
  destruct (bool_decide (GetAfterParam res ≠ "")) eqn:Hafter.
  - apply bool_decide_eq_true in Hafter. intros Hret.
    apply IH in Hret as [trail [(s'' & Hpages & Hlog)|(qp' & e & s'' & Hfail & Hlog)]];
      exists ((qp, users) :: trail).
    + left. exists s''. split.
      * eapply UsersDataSource.pages_next; [exact Hlist | done | done].
      * etrans; [exact Hlog |]. by rewrite <- app_assoc.
    + right. exists qp', e, s''. split.
      * eapply UsersDataSource.failing_next; [exact Hlist | done | done].
      * etrans; [exact Hlog |]. by rewrite <- app_assoc.
  - apply bool_decide_eq_false in Hafter. intros _.
    exists [(qp, users)]. left. exists s'. split; [| done].
    eapply UsersDataSource.pages_last; [exact Hlist |].
    destruct (decide (GetAfterParam res = "")); [done | by destruct Hafter].
Qed.

(** C5, amended: each function of the SDK supplement sends at most one
    HTTP request (the request its builder has made; none when the builder
    fails), but the resource functions may send more:
    [ensureUserDelete] sends one or two [DeactivateOrDeleteUser] requests
    and nothing else, and [collectUsers] sends one [ListUsers] request for
    every page the endpoint answers it with, and one more when a request
    fails, never more than its recursion is deep. *)
Theorem requests_per_function :
  let sent (built : Sdk.Request * error) (s : Σ) : list (Sdk.Call * error) :=
    match built with
    | (req, None) => [(Sdk.DoCall req, (Do req s).1.2)]
    | (_, Some _) => []
    end in
  (∀ groupId roleId s,
     issued (Sdk.DeleteAdminRole NewRequest Do groupId roleId) s
     = sent (NewRequest "DELETE" ("/api/v1/groups/" +:+ groupId +:+ "/roles/" +:+ roleId)
               None) s) ∧
  (∀ groupId qp s,
     issued (Sdk.ListAdminRoles NewRequest Do Params_String groupId qp) s
     = sent (NewRequest "GET"
               (Sdk.withParams Params_String ("/api/v1/groups/" +:+ groupId +:+ "/roles") qp)
               None) s) ∧
  (∀ groupId body qp s,
     issued (Sdk.CreateAdminRole NewRequest Do Params_String groupId body qp) s
     = sent (NewRequest "POST"
               (Sdk.withParams Params_String ("/api/v1/groups/" +:+ groupId +:+ "/roles") qp)
               (Some body)) s) ∧
  (∀ groupId roleId targetGroupId s,
     issued (Sdk.DeleteAdminRoleGroupTarget NewRequest Do groupId roleId targetGroupId) s
     = sent (NewRequest "DELETE"
               ("/api/v1/groups/" +:+ groupId +:+ "/roles/" +:+ roleId
                +:+ "/targets/groups/" +:+ targetGroupId) None) s) ∧
  (∀ groupId roleId qp s,
     issued (Sdk.ListAdminRoleGroupTargets NewRequest Do Params_String groupId roleId qp) s
     = sent (NewRequest "GET"
               (Sdk.withParams Params_String
                  ("/api/v1/groups/" +:+ groupId +:+ "/roles/" +:+ roleId
                   +:+ "/targets/groups") qp) None) s) ∧
  (∀ groupId roleId targetGroupId s,
     issued (Sdk.CreateAdminRoleGroupTarget NewRequest Do groupId roleId targetGroupId) s
     = sent (NewRequest "PUT"
               ("/api/v1/groups/" +:+ groupId +:+ "/roles/" +:+ roleId
                +:+ "/targets/groups/" +:+ targetGroupId) None) s) ∧
  (∀ id status s,
     ∃ n : nat,
       (1 ≤ n ≤ 2)%nat ∧
       (issued (UserResource.ensureUserDelete client id status) s).*1
       = replicate n (UserResource.DeactivateOrDeleteUserCall id)) ∧
  (∀ fuel results qp s,
     let r := UsersDataSource.collectUsers ListUsers GetAfterParam fuel results qp
                (MkWorld s []) in
     (length (calls r.2) ≤ fuel)%nat ∧
     (r.1 ≠ None →
      ∃ trail,
        (∃ s', UsersDataSource.pages ListUsers GetAfterParam qp s trail s' ∧
               calls r.2 = (λ qp, (UsersDataSource.ListUsersCall qp, None)) <$> trail.*1)
        ∨
        (∃ qp' err s',
           UsersDataSource.failing ListUsers GetAfterParam qp s trail qp' err s' ∧
           calls r.2 = ((λ qp, (UsersDataSource.ListUsersCall qp, None)) <$> trail.*1)
                       ++ [(UsersDataSource.ListUsersCall qp', Some err)]))).
Proof.
  cbv zeta. split_and!.
  - unfold Sdk.DeleteAdminRole. one_request.
  - unfold Sdk.ListAdminRoles. one_request.
  - unfold Sdk.CreateAdminRole. one_request.
  - unfold Sdk.DeleteAdminRoleGroupTarget. one_request.
  - unfold Sdk.ListAdminRoleGroupTargets. one_request.
  - unfold Sdk.CreateAdminRoleGroupTarget. one_request.
  - intros id status s. unfold issued, UserResource.ensureUserDelete.
    destruct (bool_decide _); cbn [UserResource.deletePasses];
      rewrite bind_request; cbn [remote calls];
      destruct (UserResource.DeactivateOrDeleteUser client id s) as [[resp [err|]] s1];
      cbn [fst snd]; try (exists 1%nat; split; [lia | done]).
    rewrite bind_request. cbn [remote calls].
    destruct (UserResource.DeactivateOrDeleteUser client id s1) as [[resp2 [err|]] s2];
      exists 2%nat; (split; [lia | done]).
  - intros fuel results qp s. cbv zeta. split.
    + etrans; [apply collectUsers_requests |]. simpl. lia.
    + intros Hret. exact (collectUsers_returns fuel results qp s [] Hret).
Qed.
End Requests.

(** C5 as stated fails: deleting a user that is not DEPROVISIONED sends two
    requests from the one function [ensureUserDelete], and [collectUsers]
    sends a request for each of the three pages of the directory. *)
Lemma more_than_one_request :
  length (issued (UserResource.ensureUserDelete Service.directory "00u1" "ACTIVE")
                 {| Service.status := "ACTIVE"; Service.refuse_in := None |}) = 2%nat ∧
  length (issued (UsersDataSource.collectUsers Service.listUsers Service.afterParam 3
                    {| UsersDataSource.Users := [] |} Service.firstPage) ()) = 3%nat.
Proof. split; vm_compute; reflexivity. Qed.

(** * Further properties *)

(** ** The life cycle of the OAuth API scope resource *)

Lemma filter_none {A} (P : A → Prop) `{!∀ x, Decision (P x)} (l : list A) :
  (∀ x, x ∈ l → ¬ P x) → filter P l = [].
Proof.
  induction l as [|x l IH]; intros Hl; [done |].
  rewrite filter_cons_False by (apply Hl; by left).
  apply IH. intros y Hy. apply Hl. by right.
Qed.

Lemma filter_scopes_self d to :
  OAuthApiScope.getOAuthApiScopeUpdateLists (OAuthApiScope.setOAuthApiScopes d to).1 to
  = ([], []).
Proof.
  rewrite getOAuthApiScopeUpdateLists_filter. cbn.
  f_equal; apply filter_none; intros x Hx Hnot; by apply Hnot.
Qed.

(** What [setOAuthApiScopes] has stored is in step with the grants it was
    given: a diff of the stored scopes against the same grants finds
    nothing to grant and nothing to revoke. *)
Theorem setOAuthApiScopes_getOAuthApiScopeUpdateLists d to :
  OAuthApiScope.getOAuthApiScopeUpdateLists (OAuthApiScope.setOAuthApiScopes d to).1 to
  = ([], []).
Proof. apply filter_scopes_self. Qed.

Section ScopeLifecycle.
Import OAuthApiScope Observe.
Context {Σ : Type} (client : ApplicationClient Σ).
Context (suppressErrorOn404 : option Response → error → error).

(** The id map holds, for every scope that occurs among the current
    grants, the id of the last grant of that scope, and nothing else; the
    map is fetched with one list request, and an error that is not
    suppressed comes back wrapped, without a map. *)
Theorem getOAuthApiScopeIdMap_lookup d w :
  let '((current, resp), err) := (ListScopeConsentGrants client (app_id d) (remote w)).1 in
  let r := getOAuthApiScopeIdMap client suppressErrorOn404 d w in
  (calls r.2).*1 = (calls w).*1 ++ [ListScopeConsentGrantsCall (app_id d)] ∧
  match suppressErrorOn404 resp err with
  | Some err =>
      r.1 = (None, Some (Errorf "failed to get application scope consent grants: " err))
  | None =>
      ∃ m : gmap string string,
        r.1 = (Some m, None) ∧
        (∀ s, m !! s = Id <$> last (filter (λ g, ScopeId g = s) (range current))) ∧
        (∀ s, is_Some (m !! s) ↔ s ∈ ScopeId <$> range current)
  end.
Proof.
  rewrite getOAuthApiScopeIdMap_run.
  destruct (ListScopeConsentGrants client (app_id d) (remote w))
    as [[[current resp] err] s1]. cbn [fst snd calls].
  split; [by rewrite fmap_app |].
  destruct (suppressErrorOn404 resp err) as [e|]; [done |].
  eexists. split; [done |]. split; [apply scopeIdMap_lookup |].
  intros s. rewrite scopeIdMap_lookup, list_elem_of_fmap. split.
  - intros [i Hi]. destruct (last _) as [g|] eqn:Hlast; [|done].
    apply last_Some_elem_of, list_elem_of_filter in Hlast as [Hg Hin]. by exists g.
  - intros (g & -> & Hin).
    assert (Hf : g ∈ filter (λ g', ScopeId g' = ScopeId g) (range current))
      by by apply list_elem_of_filter.
    destruct (filter _ (range current)) as [|g0 l0 _] using rev_ind.
    + by apply elem_of_nil in Hf.
    + rewrite last_snoc. by eexists.
Qed.

(** What a grant loop leaves in the log: every grant without error, or the
    grants before the first one that fails, and that one. *)
Lemma grantOAuthApiScopes_cases d grants w :
  let r := grantOAuthApiScopes client d grants w in
  (r.1 = None ∧
   calls r.2 = calls w ++ (ok ∘ GrantConsentToScopeCall (app_id d) <$> grants))
  ∨
  (∃ k grant err,
     grants !! k = Some grant ∧
     calls r.2 = calls w ++ (ok ∘ GrantConsentToScopeCall (app_id d) <$> take k grants)
                         ++ [(GrantConsentToScopeCall (app_id d) grant, Some err)] ∧
     r.1 = Some (Errorf "failed to grant application api scope: " err)).
Proof.
  cbv zeta. revert w. induction grants as [|g grants IH]; intros w.
  - left. cbn. by rewrite app_nil_r.
  - cbn [grantOAuthApiScopes]. rewrite bind_request.
    destruct (GrantConsentToScope client (app_id d) g (remote w)) as [[[g' resp] [err|]] s1];
      cbn [fst snd].
    + right. exists 0, g, err. by split_and!.
    + destruct (IH (MkWorld s1 (calls w ++ [(GrantConsentToScopeCall (app_id d) g, None)])))
        as [[Hok Hlog]|(k & g0 & err & Hk & Hlog & Herr)].
      * left. split; [done |]. etrans; [exact Hlog |]. cbn [calls].
        by rewrite fmap_cons, <- app_assoc.
      * right. exists (S k), g0, err. split_and!; [done | | done].
        etrans; [exact Hlog |]. cbn [calls take].
        by rewrite fmap_cons, <- !app_assoc.
Qed.

(** Creation grants every configured scope, in the order of the
    configuration and with the configured issuer, and only then reads the
    grants back.  When a grant fails the creation stops at once: no further
    grant and no read is sent, the error comes back wrapped and the
    resource data is untouched. *)
Theorem resourceAppOAuthApiScopeCreate_grants_all d w :
  let r := resourceAppOAuthApiScopeCreate client d w in
  let grant scope := GrantConsentToScopeCall (app_id d) (newOAuthApiScope scope (issuer d)) in
  (∃ e, calls r.2 = calls w ++ (ok ∘ grant <$> scopes d)
                            ++ [(ListScopeConsentGrantsCall (app_id d), e)])
  ∨
  (∃ k scope err,
     scopes d !! k = Some scope ∧
     calls r.2 = calls w ++ (ok ∘ grant <$> take k (scopes d)) ++ [(grant scope, Some err)] ∧
     r.1 = (Some (Errorf "failed to create application scope consent grant: "
                    (Errorf "failed to grant application api scope: " err)), d)).
Proof.
  cbv zeta. unfold resourceAppOAuthApiScopeCreate.
  rewrite fold_append, app_nil_l, list_fmap_id, bind_run.
  destruct (grantOAuthApiScopes_cases d (getOAuthApiScopeList (scopes d) (issuer d)) w)
    as [[Hok Hlog]|(k & g & err & Hk & Hlog & Herr)].
  - left. rewrite Hok. eexists. rewrite resourceAppOAuthApiScopeRead_calls.
    rewrite app_assoc. f_equal. etrans; [exact Hlog |].
    unfold getOAuthApiScopeList. by rewrite <- list_fmap_compose.
  - right. rewrite Herr. unfold ret. cbn [fst snd].
    unfold getOAuthApiScopeList in Hk, Hlog.
    rewrite list_lookup_fmap in Hk.
    destruct (scopes d !! k) as [scope|] eqn:Hscope; [|done].
    cbn in Hk. injection Hk as <-.
    exists k, scope, err. split_and!; [done | | done].
    etrans; [exact Hlog |]. by rewrite <- fmap_take, <- list_fmap_compose.
Qed.

(** Deletion fetches the id map with one list request and then revokes,
    in the order of the configuration, the grant id the map has for each
    configured scope; a scope that is not granted is revoked under the
    empty id.  It stops at the first revoke whose error
    [suppressErrorOn404] does not clear: the requests before it were all
    accepted, nothing is sent after it, and its error comes back wrapped.
    When the map cannot be fetched nothing is revoked. *)
Theorem resourceAppOAuthApiScopeDelete_revokes d w :
  let '(((current, resp), err), s1) := ListScopeConsentGrants client (app_id d) (remote w) in
  let r := resourceAppOAuthApiScopeDelete client suppressErrorOn404 d w in
  let idOf scope :=
    default "" (Id <$> last (filter (λ g, ScopeId g = scope) (range current))) in
  let list := (ListScopeConsentGrantsCall (app_id d), err) in
  match suppressErrorOn404 resp err with
  | Some err =>
      r = (Some (Errorf "failed to get application scope consent grant: "
                   (Errorf "failed to get application scope consent grants: " err)),
           MkWorld s1 (calls w ++ [list]))
  | None =>
      let answered :=
        answers (RevokeScopeConsentGrant client (app_id d)) (idOf <$> scopes d) s1 in
      let refusal e := suppressErrorOn404 e.1.2.1 e.1.2.2 in
      let revoke e := (RevokeScopeConsentGrantCall (app_id d) e.1.1, e.1.2.2) in
      (∀ scope, scope ∉ ScopeId <$> range current → idOf scope = "") ∧
      answered.*1.*1 = idOf <$> scopes d ∧
      ((Forall (λ e, refusal e = None) answered ∧
        r = (None, MkWorld (stateAfter s1 answered)
                     (calls w ++ [list] ++ (revoke <$> answered))))
       ∨
       (∃ (k : nat) e err,
          answered !! k = Some e ∧
          Forall (λ e, refusal e = None) (take k answered) ∧
          refusal e = Some err ∧
          r = (Some (Errorf "failed to revoke application scope consent grant: "
                       (Errorf "failed to revoke application api scope: " err)),
               MkWorld e.2 (calls w ++ [list] ++ (revoke <$> take (S k) answered)))))
  end.
Proof.
  unfold resourceAppOAuthApiScopeDelete. rewrite bind_run, getOAuthApiScopeIdMap_run.
  destruct (ListScopeConsentGrants client (app_id d) (remote w)) as [[[current resp] err] s1].
  cbn [fst snd]. cbv zeta.
  destruct (suppressErrorOn404 resp err) as [e'|]; [done |].
  split.
  { intros scope Hscope. destruct (last _) as [g|] eqn:Hlast; [|done].
    apply last_Some_elem_of, list_elem_of_filter in Hlast as [Hg Hin].
    destruct Hscope. apply list_elem_of_fmap. by exists g. }
  split; [apply answers_items |].
  rewrite bind_run, fold_append, app_nil_l, revokeOAuthApiScope_run. cbv zeta.
  cbn [fst snd remote calls].
  match goal with
  | |- context [answers _ (?f <$> ?l) s1] =>
      rewrite (list_fmap_ext f
                 (λ sc, default "" (Id <$> last (filter (λ g, ScopeId g = sc)
                                                        (range current)))) l)
        by (intros _ sc _; cbn; by rewrite scopeIdMap_lookup)
  end.
  set (answered := answers _ _ s1).
  destruct (upto_first (λ e, bool_decide (is_Some (suppressErrorOn404 e.1.2.1 e.1.2.2)))
              answered) as [[Hall ->]|(k & e & Hk & He & Hall & ->)].
  - left.
    assert (Hall' : Forall (λ e, suppressErrorOn404 e.1.2.1 e.1.2.2 = None) answered).
    { eapply Forall_impl; [exact Hall |]. intros e He. cbn beta in He.
      apply bool_decide_eq_false in He. by apply eq_None_not_Some. }
    split; [exact Hall' |].
    assert (Hlast : last answered ≫= (λ e, suppressErrorOn404 e.1.2.1 e.1.2.2) = None).
    { destruct (last answered) as [e|] eqn:Hlast; [|done].
      apply last_Some_elem_of in Hlast. cbn.
      by apply (proj1 (Forall_forall _ _) Hall'). }
    rewrite Hlast. unfold ret. cbn [fst snd fmap option_fmap option_map].
    by rewrite <- app_assoc.
  - right. apply bool_decide_eq_true in He as [refused He].
    exists k, e, refused. split_and!; [done | | done |].
    { eapply Forall_impl; [exact Hall |]. intros e0 He0. cbn beta in He0.
      apply bool_decide_eq_false in He0. by apply eq_None_not_Some. }
    rewrite (last_take_S _ _ _ Hk). cbn [mbind option_bind]. rewrite He.
    unfold ret, stateAfter. cbn [fst snd fmap option_fmap option_map].
    rewrite (last_take_S _ _ _ Hk). cbn. by rewrite <- app_assoc.
Qed.

(** A read sends one list request.  When it fails the error comes back
    wrapped and the resource data is untouched; when the service has no
    grant list ([nil]) the resource id is cleared and nothing else changes;
    otherwise, also for an empty list, the id becomes the application id
    and the scopes become the scope ids of the grants, in their order. *)
Theorem resourceAppOAuthApiScopeRead_outcome d w :
  let '((current, resp), err) := (ListScopeConsentGrants client (app_id d) (remote w)).1 in
  let r := resourceAppOAuthApiScopeRead client d w in
  (calls r.2).*1 = (calls w).*1 ++ [ListScopeConsentGrantsCall (app_id d)] ∧
  match err, current with
  | Some err, _ =>
      r.1 = (Some (Errorf "failed to get application scope consent grants: " err), d)
  | None, None => r.1 = (None, SetId "" d)
  | None, Some grants =>
      r.1 = (None, {| id := app_id d; app_id := app_id d; issuer := issuer d;
                      scopes := ScopeId <$> grants |})
  end.
Proof.
  pose proof (resourceAppOAuthApiScopeRead_calls client d w) as Hcalls. revert Hcalls.
  unfold resourceAppOAuthApiScopeRead. rewrite bind_request.
  destruct (ListScopeConsentGrants client (app_id d) (remote w))
    as [[[current resp] err] s1]. cbn [fst snd]. intros ->.
  split; [by rewrite fmap_app |].
  destruct err; [done |]. by destruct current.
Qed.

(** When the desired and the current scopes are the same set, an update
    changes nothing at the service: whatever the service answers, the
    update sends list requests only, at most three of them. *)
Theorem resourceAppOAuthApiScopeUpdate_noop d w :
  let current := ScopeId <$> range (ListScopeConsentGrants client (app_id d) (remote w)).1.1.1 in
  (∀ scope, scope ∈ scopes d ↔ scope ∈ current) →
  ∃ n : nat, (n ≤ 3)%nat ∧
       (calls (resourceAppOAuthApiScopeUpdate client suppressErrorOn404 d w).2).*1
       = (calls w).*1 ++ replicate n (ListScopeConsentGrantsCall (app_id d)).
Proof.
  cbv zeta. intros Hsame. unfold resourceAppOAuthApiScopeUpdate. rewrite bind_request.
  destruct (ListScopeConsentGrants client (app_id d) (remote w))
    as [[[current resp] err] s1]. cbn [fst snd] in *.
  destruct err as [err|].
  { exists 1. split; [lia |]. unfold ret. cbn [snd calls]. by rewrite fmap_app. }
  rewrite getOAuthApiScopeUpdateLists_filter.
  rewrite !filter_none;
    [| intros x Hx Hnot; by apply Hnot, Hsame | intros x Hx Hnot; by apply Hnot, Hsame].
  cbv beta iota zeta. cbn [getOAuthApiScopeList fmap list_fmap grantOAuthApiScopes].
  rewrite bind_ret_run, bind_run, getOAuthApiScopeIdMap_run. cbn [remote calls].
  destruct (ListScopeConsentGrants client (app_id d) s1) as [[[current2 resp2] err2] s2].
  cbn [fst snd].
  destruct (suppressErrorOn404 resp2 err2) as [e|].
  { exists 2. split; [lia |]. unfold ret. cbn [snd calls]. by rewrite !fmap_app, <- app_assoc. }
  cbn [fold_left revokeOAuthApiScope]. rewrite bind_ret_run.
  exists 3. split; [lia |]. rewrite resourceAppOAuthApiScopeRead_calls. cbn [calls].
  by rewrite !fmap_app, <- !app_assoc.
Qed.

(** An import asks for the grants of the application named by the resource
    id.  Without any grant it fails with "no application scope found";
    otherwise the imported resource has the application id as id and as
    [app_id], the issuer of the first grant and the scope ids of all
    grants, so that a diff against these grants is empty. *)
Theorem importerStateContext_outcome d w :
  let '((current, resp), err) := (ListScopeConsentGrants client (id d) (remote w)).1 in
  let r := importerStateContext client d w in
  (calls r.2).*1 = (calls w).*1 ++ [ListScopeConsentGrantsCall (id d)] ∧
  match err, range current with
  | Some err, _ => r.1 = ((None, Some err), d)
  | None, [] => r.1 = ((None, Some "no application scope found"), Set_app_id (id d) d)
  | None, first :: _ =>
      let d' := {| id := id d; app_id := id d; issuer := Issuer first;
                   scopes := ScopeId <$> range current |} in
      r.1 = ((Some [d'], None), d') ∧
      getOAuthApiScopeUpdateLists d' current = ([], [])
  end.
Proof.
  unfold importerStateContext. rewrite bind_request.
  destruct (ListScopeConsentGrants client (id d) (remote w))
    as [[[current resp] err] s1]. cbn [fst snd].
  destruct err as [err|].
  { unfold ret. cbn [fst snd calls]. split; [by rewrite fmap_app | done]. }
  destruct (range current) as [|first rest] eqn:Hcurrent.
  { unfold ret. cbn [fst snd calls]. split; [by rewrite fmap_app | done]. }
  unfold setOAuthApiScopes, ret. cbv beta iota zeta. cbn [fst snd calls].
  split; [by rewrite fmap_app |]. rewrite Hcurrent. split; [done |].
  rewrite <- Hcurrent.
  apply (filter_scopes_self
           {| id := id d; app_id := id d; issuer := Issuer first; scopes := [] |} current).
Qed.
End ScopeLifecycle.

Lemma resourceAppOAuthApiScopeUpdate_noop_witness :
  ∃ n : nat, (n ≤ 3)%nat ∧
    (calls (OAuthApiScope.resourceAppOAuthApiScopeUpdate Service.grants Service.suppress404
              (Service.scopeData ["okta.users.read"; "okta.groups.read"])
              (MkWorld [Service.granted "okta.groups.read"; Service.granted "okta.users.read"]
                       [])).2).*1
    = [] ++ replicate n (OAuthApiScope.ListScopeConsentGrantsCall "0oa1").
Proof.
  apply (resourceAppOAuthApiScopeUpdate_noop Service.grants Service.suppress404
           (Service.scopeData ["okta.users.read"; "okta.groups.read"])
           (MkWorld [Service.granted "okta.groups.read"; Service.granted "okta.users.read"] [])).
  intros scope. cbn. rewrite !elem_of_cons, !elem_of_nil. tauto.
Defined.

(** ** More on the user resource *)

Section UserChanges.
Import Okta UserResource Observe.
Context {Σ : Type} (client : UserClient Σ) (helpers : Helpers Σ).

Lemma hasChangeIn_true keys d :
  hasChangeIn keys d = true ↔ ∃ k, k ∈ keys ∧ HasChange k d = true.
Proof.
  induction keys as [|k keys IH]; cbn [hasChangeIn].
  - split; [done | by intros (k & ?%elem_of_nil & _)].
  - destruct (HasChange k d) eqn:Hk.
    + split; [intros _; exists k; split; [by left | done] | done].
    + rewrite IH. split.
      * intros (k' & Hin & Hk'). exists k'. split; [by right | done].
      * intros (k' & [->|Hin]%elem_of_cons & Hk'); [congruence | by exists k'].
Qed.

(** [hasProfileChange] holds exactly when the prior and the planned value
    of some profile key differ.  The password and the recovery question
    and answer are profile keys, so a change of one of them counts; the
    status, the admin roles and the group memberships are not. *)
Theorem hasProfileChange_iff d :
  (hasProfileChange d = true ↔ ∃ k, k ∈ profileKeys ∧ prior d !! k ≠ attrs d !! k) ∧
  (HasChange "password" d || HasChange "recovery_question" d
   || HasChange "recovery_answer" d = true → hasProfileChange d = true) ∧
  ((∀ k, prior d !! k ≠ attrs d !! k →
         k ∈ ["status"; "raw_status"; "admin_roles"; "group_memberships"]) →
   hasProfileChange d = false).
Proof.
  unfold hasProfileChange. split_and!.
  - rewrite hasChangeIn_true. unfold HasChange.
    split; intros (k & Hin & Hk); exists k; split; try done.
    + by apply bool_decide_eq_true in Hk.
    + by apply bool_decide_eq_true.
  - intros H. apply hasChangeIn_true.
    apply orb_true_iff in H as [H|H]; [apply orb_true_iff in H as [H|H] |].
    + exists "password". split; [| done]. unfold profileKeys. set_solver.
    + exists "recovery_question". split; [| done]. unfold profileKeys. set_solver.
    + exists "recovery_answer". split; [| done]. unfold profileKeys. set_solver.
  - intros Honly. apply not_true_is_false. rewrite hasChangeIn_true.
    intros (k & Hin & Hk). apply bool_decide_eq_true in Hk.
    apply Honly in Hk. rewrite !elem_of_cons, elem_of_nil in Hk.
    destruct Hk as [->|[->|[->|[->|[]]]]];
      apply (bool_decide_pack _) in Hin; vm_compute in Hin; done.
Qed.

Lemma hasProfileChange_false_key d k :
  hasProfileChange d = false → k ∈ profileKeys → HasChange k d = false.
Proof.
  intros Hno Hin. apply not_true_is_false. intros Hk.
  assert (hasProfileChange d = true) by (apply hasChangeIn_true; by exists k).
  congruence.
Qed.

(** An update of a user on which nothing has changed is just a read: no
    other request is sent. *)
Theorem resourceUserUpdate_unchanged d w :
  HasChange "status" d = false →
  HasChange "admin_roles" d = false →
  HasChange "group_memberships" d = false →
  hasProfileChange d = false →
  resourceUserUpdate client helpers d w = resourceUserRead client helpers d w.
Proof.
  intros Hstatus Hroles Hgroups Hprofile. unfold resourceUserUpdate.
  rewrite Hstatus, Hroles, Hgroups, Hprofile.
  rewrite !(hasProfileChange_false_key d _ Hprofile)
    by (apply (bool_decide_unpack _); by vm_compute).
  rewrite !andb_false_r. cbn [when orb]. by rewrite !bind_ret_run.
Qed.

(** A DEPROVISIONED user takes no change but that of its status: when a
    profile key has changed the update fails, and the only request it may
    have sent before is the status update, which is sent first when the
    status has changed as well.  The profile is never sent. *)
Theorem resourceUserUpdate_deprovisioned d w :
  GetString "status" d = userStatusDeprovisioned →
  hasProfileChange d = true →
  let r := resourceUserUpdate client helpers d w in
  r.1.1 ≠ None ∧
  if HasChange "status" d
  then ∃ e, calls r.2 = calls w ++ [(updateUserStatusCall (id d) userStatusDeprovisioned, e)]
  else r = ((Some "[ERROR] Only the status of a DEPROVISIONED user can be updated, we detected other change", d), w).
Proof.
  intros Hstatus Hprofile. cbv zeta. unfold resourceUserUpdate.
  rewrite Hstatus, Hprofile. cbn [bool_decide andb].
  rewrite (bool_decide_eq_false_2 (userStatusDeprovisioned = userStatusStaged)) by done.
  rewrite (bool_decide_eq_true_2 (userStatusDeprovisioned = userStatusDeprovisioned)) by done.
  cbn [andb]. destruct (HasChange "status" d); cbn [when].
  - rewrite bind_bind_run, bind_request.
    destruct (updateUserStatus helpers (id d) userStatusDeprovisioned (remote w))
      as [[[] [e|]] s1]; cbn [fst snd fmap option_fmap option_map];
      rewrite bind_ret_run; unfold ret; cbn [fst snd calls]; split; by eauto.
  - rewrite bind_ret_run. unfold ret. by cbn.
Qed.

(** The requests of an update follow one order: status, profile, admin
    roles, group memberships, password, recovery question, each only when
    its attribute has changed, and then the read.  Either every request of
    this plan came back without error and only the requests of the read
    follow, or one of them failed, nothing is sent after it and the update
    returns an error.  (The two updates the resource refuses are left
    out: a change to STAGED, and a profile change of a DEPROVISIONED
    user.) *)
Theorem resourceUserUpdate_order d s :
  bool_decide (GetString "status" d = userStatusStaged) && HasChange "status" d = false →
  bool_decide (GetString "status" d = userStatusDeprovisioned) && hasProfileChange d = false →
  let r := resourceUserUpdate client helpers d (MkWorld s []) in
  let plan := updateSteps helpers d in
  (∃ readLog,
     calls r.2 = (ok <$> plan) ++ readLog ∧
     Forall (λ ev, is_read_call ev.1 = true) readLog)
  ∨
  (∃ (k : nat) c err,
     plan !! k = Some c ∧
     calls r.2 = (ok <$> take k plan) ++ [(c, Some err)] ∧
     r.1.1 ≠ None).
Proof.
  intros Hstaged Hdeprovisioned. cbv zeta.
  unfold resourceUserUpdate, updateSteps. rewrite Hstaged, Hdeprovisioned.
  destruct (HasChange "status" d); destruct (hasProfileChange d);
    destruct (HasChange "admin_roles" d); destruct (HasChange "group_memberships" d);
    destruct (HasChange "password" d);
    destruct (HasChange "recovery_question" d || HasChange "recovery_answer" d).
  all: cbn [when app].
  all: unfold GetChangeString, GetString, Get; cbn [Set_ id prior attrs fst snd].
  all: rewrite ?lookup_insert_ne by done.
  all: repeat first
    [ rewrite bind_ret_run
    | rewrite bind_bind_run
    | rewrite bind_request; cbn [remote calls fst snd app];
      match goal with
      | |- context [updateUserStatus helpers ?a ?b ?s] =>
          destruct (updateUserStatus helpers a b s) as [[[] [?|]] ?]
      | |- context [UpdateUser client ?a ?b ?s] =>
          destruct (UpdateUser client a b s) as [[[? ?] [?|]] ?]
      | |- context [updateAdminRolesOnUser helpers ?a ?b ?s] =>
          destruct (updateAdminRolesOnUser helpers a b s) as [[[] [?|]] ?]
      | |- context [updateGroupsOnUser helpers ?a ?b ?s] =>
          destruct (updateGroupsOnUser helpers a b s) as [[[] [?|]] ?]
      | |- context [ChangePassword client ?a ?b ?s] =>
          destruct (ChangePassword client a b s) as [[[? ?] [?|]] ?]
      | |- context [ChangeRecoveryQuestion client ?a ?b ?s] =>
          destruct (ChangeRecoveryQuestion client a b s) as [[[? ?] [?|]] ?]
      end;
      cbn [fst snd fmap option_fmap option_map] ].
  all: try (right; unfold ret; cbn [fst snd calls];
            first [ by eexists 0, _, _
                  | by eexists 1, _, _
                  | by eexists 2, _, _
                  | by eexists 3, _, _
                  | by eexists 4, _, _
                  | by eexists 5, _, _ ]).
  all: left;
    match goal with
    | |- context [resourceUserRead client helpers ?d' ?w] =>
        destruct (resourceUserRead_log client helpers d' w) as (readLog & -> & ?)
    end;
    by exists readLog.
Qed.

End UserChanges.

Section UserAnswers.
Import Okta UserResource Observe.
Context {Σ : Type} (client : UserClient Σ) (helpers : Helpers Σ).

(** A read starts with its [GetUser] request. *)
Lemma resourceUserRead_first d w :
  ∃ e rest, calls (resourceUserRead client helpers d w).2
            = calls w ++ (GetUserCall (id d), e) :: rest.
Proof.
  unfold resourceUserRead. rewrite bind_request.
  destruct (GetUser client (id d) (remote w)) as [[[user resp] err] s1].
  cbn [fst snd]. exists err.
  destruct (notFound resp); [by exists [] |].
  destruct err as [err|]; [by exists [] |].
  destruct (flattenUser helpers user) as [rawMap [err|]]; [by exists [] |].
  destruct (setNonPrimitives helpers _ rawMap) as [d2 [err|]]; [by exists [] |].
  rewrite bind_request. cbn [remote calls].
  destruct (setAdminRoles helpers d2 s1) as [[d3 [err|]] s2]; cbn [fst snd].
  { eexists [_]. unfold ret. cbn [snd calls]. by rewrite <- app_assoc. }
  destruct (GetOkExists "group_memberships" d3).2.
  - rewrite bind_request. cbn [remote calls].
    destruct (setGroups helpers d3 s2) as [[d4 err] s3]. cbn [fst snd].
    eexists [_; _]. unfold ret. cbn [snd calls]. by rewrite <- !app_assoc.
  - eexists [_]. unfold ret. cbn [snd calls]. by rewrite <- app_assoc.
Qed.

(** After its [GetUser] request a read sends nothing but the requests of
    [setAdminRoles] and [setGroups]. *)
Lemma resourceUserRead_rest d w :
  ∃ rest,
    calls (resourceUserRead client helpers d w).2
    = calls w ++ (GetUserCall (id d), (GetUser client (id d) (remote w)).1.2) :: rest ∧
    Forall (λ ev, ∃ uid, ev.1 = setAdminRolesCall uid ∨ ev.1 = setGroupsCall uid) rest.
Proof.
  unfold resourceUserRead. rewrite bind_request.
  destruct (GetUser client (id d) (remote w)) as [[[user resp] err] s1].
  cbn [fst snd].
  destruct (notFound resp); [by exists [] |].
  destruct err as [err|]; [by exists [] |].
  destruct (flattenUser helpers user) as [rawMap [err|]]; [by exists [] |].
  destruct (setNonPrimitives helpers _ rawMap) as [d2 [err|]]; [by exists [] |].
  rewrite bind_request. cbn [remote calls].
  destruct (setAdminRoles helpers d2 s1) as [[d3 [err|]] s2]; cbn [fst snd].
  { eexists [_]. unfold ret. cbn [snd calls]. rewrite <- app_assoc.
    split; [done |]. repeat constructor. eexists. by left. }
  destruct (GetOkExists "group_memberships" d3).2.
  - rewrite bind_request. cbn [remote calls].
    destruct (setGroups helpers d3 s2) as [[d4 err] s3]. cbn [fst snd].
    eexists [_; _]. unfold ret. cbn [snd calls]. rewrite <- !app_assoc.
    split; [done |]. repeat constructor; eexists; [by left | by right].
  - eexists [_]. unfold ret. cbn [snd calls]. rewrite <- app_assoc.
    split; [done |]. repeat constructor. eexists. by left.
Qed.

(** The existence check and the read on a missing user and on an error. *)
Lemma resourceUserExists_agrees d w :
  let '(((user, resp), err), s1) := GetUser client (id d) (remote w) in
  let e := resourceUserExists client d w in
  let r := resourceUserRead client helpers d w in
  let w1 := MkWorld s1 (calls w ++ [(GetUserCall (id d), err)]) in
  e.2 = w1 ∧
  (e.1 = (false, None) ↔ notFound resp = true) ∧
  (e.1.1 = true ↔ notFound resp = false ∧ err = None) ∧
  (notFound resp = true → r = ((None, SetId "" d), w1)) ∧
  (notFound resp = false → ∀ msg, err = Some msg →
     e.1 = (false, Some msg) ∧
     r = ((Some (Errorf "[ERROR] Error Getting User from Okta: " msg), d), w1)).
Proof.
  unfold resourceUserExists, resourceUserRead. rewrite !bind_request.
  destruct (GetUser client (id d) (remote w)) as [[[user resp] err] s1].
  cbn [fst snd]. destruct (notFound resp); unfold ret; cbn [fst snd].
  - split_and!; [done | done | | done | done]. split; [done | by intros [? _]].
  - split_and!; [done | | | done |].
    + split; [| done]. intros [= Hb He]. subst. by rewrite bool_decide_eq_true_2 in Hb.
    + split; [intros ?%bool_decide_eq_true; by split | by intros [_ ->]].
    + intros _ msg ->. done.
Qed.

(** [resourceUserExists] and [resourceUserRead] ask for the user with one
    request and agree on a missing user: on a 404 answer, whatever error
    comes with it, the existence check says "no" without error and the
    read clears the resource id, returns no error, writes no attribute and
    sends nothing else.  The existence check says "yes" only for an answer
    that is neither 404 nor an error.  In every case, also when the user
    is found, the read sends its [GetUser] request once and first: what
    follows are requests of [setAdminRoles] and [setGroups] only. *)
Theorem resourceUserExists_resourceUserRead d w :
  let '(((user, resp), err), s1) := GetUser client (id d) (remote w) in
  let e := resourceUserExists client d w in
  let r := resourceUserRead client helpers d w in
  let w1 := MkWorld s1 (calls w ++ [(GetUserCall (id d), err)]) in
  e.2 = w1 ∧
  (e.1 = (false, None) ↔ notFound resp = true) ∧
  (e.1.1 = true ↔ notFound resp = false ∧ err = None) ∧
  (notFound resp = true → r = ((None, SetId "" d), w1)) ∧
  (notFound resp = false → ∀ msg, err = Some msg →
     e.1 = (false, Some msg) ∧
     r = ((Some (Errorf "[ERROR] Error Getting User from Okta: " msg), d), w1)) ∧
  (∃ rest,
     calls r.2 = calls w1 ++ rest ∧
     Forall (λ ev, ∃ uid, ev.1 = setAdminRolesCall uid ∨ ev.1 = setGroupsCall uid) rest).
Proof.
  pose proof (resourceUserExists_agrees d w) as Hagree.
  pose proof (resourceUserRead_rest d w) as (rest & Hrest & Hall).
  destruct (GetUser client (id d) (remote w)) as [[[user resp] err] s1].
  cbv zeta in Hagree |- *. cbn [fst snd] in Hrest.
  destruct Hagree as (H1 & H2 & H3 & H4 & H5).
  split_and!; [done | done | done | done | done |].
  exists rest. split; [| done]. cbn [calls]. etrans; [exact Hrest |].
  by rewrite <- app_assoc.
Qed.

(** The status a read stores and the diff suppression of the [status]
    attribute work together: against a configured ACTIVE, a user shows no
    status difference exactly when its raw status is ACTIVE, PROVISIONED,
    PASSWORD_EXPIRED or RECOVERY.  The suppression never hides a planned
    status other than ACTIVE. *)
Theorem status_diff_hidden raw :
  (mapStatus raw = statusActive ∨ statusDiffSuppress (mapStatus raw) statusActive = true
   ↔ raw ∈ [statusActive; userStatusProvisioned; userStatusPasswordExpired;
            userStatusRecovery]) ∧
  (∀ new, statusDiffSuppress raw new = true → new = statusActive ∧ raw ≠ new).
Proof.
  split.
  - rewrite mapStatus_cases, !elem_of_cons, elem_of_nil. unfold statusDiffSuppress.
    destruct (decide (raw = userStatusPasswordExpired ∨ raw = userStatusRecovery))
      as [Hraw|Hraw].
    + split; [intros _; tauto | by left].
    + rewrite (bool_decide_eq_true_2 (statusActive = statusActive)) by done.
      rewrite !andb_true_r. split.
      * intros [->|[H|H]%orb_true_iff]; [by left | |];
          apply bool_decide_eq_true in H; tauto.
      * intros [->|[->|[->|[->|[]]]]]; [by left | by right | tauto | tauto].
  - intros new. unfold statusDiffSuppress.
    intros [[Hold Hnew]%andb_true_iff|[Hold Hnew]%andb_true_iff]%orb_true_iff;
      apply bool_decide_eq_true in Hold, Hnew; by subst.
Qed.

(** The user id is in the resource data as soon as the user exists: when
    [CreateUser] fails the resource data is untouched, and when a later
    step fails before the read, the resource data returned with the error
    is the one passed in with the id of the new user.  The user is created
    inactive exactly when the configured status is STAGED. *)
Theorem resourceUserCreate_tracks_user d s :
  let r := resourceUserCreate client helpers d (MkWorld s []) in
  ∃ body qp,
    let '((user, _), err) := (CreateUser client body qp s).1 in
    head (calls r.2) = Some (CreateUserCall body qp, err) ∧
    Activate qp = (if bool_decide (GetString "status" d = userStatusStaged)
                   then Some false else None) ∧
    (∀ msg, err = Some msg →
       r.1 = (Some (Errorf "[ERROR] Error Creating User from Okta: " msg), d)) ∧
    (err = None →
     Forall (λ ev, is_read_call ev.1 = false) (calls r.2) →
     r.1.1 ≠ None ∧ r.1.2 = SetId (Id user) d).
Proof.
  cbv zeta. unfold resourceUserCreate.
  match goal with
  | |- context [request (CreateUserCall ?b ?q)] => exists b, q; set (body := b); set (qp := q)
  end.
  rewrite bind_request. cbn [remote calls].
  destruct (CreateUser client body qp s) as [[[user resp] err] s1].
  cbn [fst snd app].
  assert (Hqp : Activate qp = (if bool_decide (GetString "status" d = userStatusStaged)
                               then Some false else None)).
  { unfold qp. by destruct (bool_decide (GetString "status" d = userStatusStaged)). }
  destruct err as [err|].
  { unfold ret. cbn [fst snd calls]. split_and!; [done | done | by intros msg [= ->] | done]. }
  change (Get ?k (SetId ?v d)) with (Get k d).
  change (GetString ?k (SetId ?v d)) with (GetString k d).
  change (GetOkExists ?k (SetId ?v d)) with (GetOkExists k d).
  destruct (convertInterfaceToStringSetNullable helpers (Get "admin_roles" d))
    as [roles|].
  all: destruct (GetOkExists "group_memberships" d).2.
  all: destruct (bool_decide (GetString "status" d = userStatusSuspended)
                 || bool_decide (GetString "status" d = userStatusDeprovisioned)).
  all: repeat first
    [ rewrite bind_ret_run
    | rewrite bind_bind_run
    | rewrite bind_request; cbn [remote calls fst snd app];
      match goal with
      | |- context [assignAdminRolesToUser helpers ?a ?b ?s] =>
          destruct (assignAdminRolesToUser helpers a b s) as [[[] [?|]] ?]
      | |- context [assignGroupsToUser helpers ?a ?b ?s] =>
          destruct (assignGroupsToUser helpers a b s) as [[[] [?|]] ?]
      | |- context [updateUserStatus helpers ?a ?b ?s] =>
          destruct (updateUserStatus helpers a b s) as [[[] [?|]] ?]
      end;
      cbn [fst snd fmap option_fmap option_map] ].
  all: try (unfold ret; cbn [fst snd calls]; by split_and!).
  all: match goal with
       | |- context [resourceUserRead client helpers ?d' ?w] =>
           pose proof (resourceUserRead_first d' w) as (e & rest & Hlog)
       end.
  all: rewrite Hlog; cbn [calls app]; split_and!; [done | done | done |].
  all: intros _ Hno; exfalso; revert Hno; rewrite !Forall_cons; cbn [fst is_read_call];
    intros; repeat match goal with H : _ ∧ _ |- _ => destruct H end; done.
Qed.
End UserAnswers.

Lemma resourceUserUpdate_unchanged_witness :
  UserResource.resourceUserUpdate Service.directory Service.directoryHelpers
    (Service.userData [("status", UserResource.VString "ACTIVE")]
                      [("status", UserResource.VString "ACTIVE")])
    (MkWorld {| Service.status := "ACTIVE"; Service.refuse_in := None |} [])
  = UserResource.resourceUserRead Service.directory Service.directoryHelpers
      (Service.userData [("status", UserResource.VString "ACTIVE")]
                        [("status", UserResource.VString "ACTIVE")])
      (MkWorld {| Service.status := "ACTIVE"; Service.refuse_in := None |} []).
Proof.
  apply (resourceUserUpdate_unchanged Service.directory Service.directoryHelpers
           (Service.userData [("status", UserResource.VString "ACTIVE")]
                             [("status", UserResource.VString "ACTIVE")])
           (MkWorld {| Service.status := "ACTIVE"; Service.refuse_in := None |} []));
    vm_compute; reflexivity.
Defined.

Lemma resourceUserUpdate_deprovisioned_witness :
  let d := Service.userData
             [("status", UserResource.VString "ACTIVE"); ("city", UserResource.VString "Oslo")]
             [("status", UserResource.VString "DEPROVISIONED");
              ("city", UserResource.VString "Bergen")] in
  let w := MkWorld {| Service.status := "ACTIVE"; Service.refuse_in := None |} [] in
  let r := UserResource.resourceUserUpdate Service.directory Service.directoryHelpers d w in
  r.1.1 ≠ None ∧
  if UserResource.HasChange "status" d
  then ∃ e, calls r.2
            = calls w ++ [(UserResource.updateUserStatusCall (UserResource.id d)
                             UserResource.userStatusDeprovisioned, e)]
  else r = ((Some "[ERROR] Only the status of a DEPROVISIONED user can be updated, we detected other change", d), w).
Proof.
  apply (resourceUserUpdate_deprovisioned Service.directory Service.directoryHelpers
           (Service.userData
              [("status", UserResource.VString "ACTIVE"); ("city", UserResource.VString "Oslo")]
              [("status", UserResource.VString "DEPROVISIONED");
               ("city", UserResource.VString "Bergen")])
           (MkWorld {| Service.status := "ACTIVE"; Service.refuse_in := None |} []));
    vm_compute; reflexivity.
Defined.

Lemma resourceUserUpdate_order_witness :
  let d := Service.userData
             [("status", UserResource.VString "ACTIVE");
              ("admin_roles", UserResource.VSet ["APP_ADMIN"]);
              ("password", UserResource.VString "old")]
             [("status", UserResource.VString "SUSPENDED");
              ("admin_roles", UserResource.VSet ["USER_ADMIN"]);
              ("password", UserResource.VString "new")] in
  let r := UserResource.resourceUserUpdate Service.directory Service.directoryHelpers d
             (MkWorld {| Service.status := "ACTIVE"; Service.refuse_in := Some 2%nat |} []) in
  let plan := Observe.updateSteps Service.directoryHelpers d in
  (∃ readLog,
     calls r.2 = (Observe.ok <$> plan) ++ readLog ∧
     Forall (λ ev, Observe.is_read_call ev.1 = true) readLog)
  ∨
  (∃ (k : nat) c err,
     plan !! k = Some c ∧
     calls r.2 = (Observe.ok <$> take k plan) ++ [(c, Some err)] ∧
     r.1.1 ≠ None).
Proof.
  apply (resourceUserUpdate_order Service.directory Service.directoryHelpers
           (Service.userData
              [("status", UserResource.VString "ACTIVE");
               ("admin_roles", UserResource.VSet ["APP_ADMIN"]);
               ("password", UserResource.VString "old")]
              [("status", UserResource.VString "SUSPENDED");
               ("admin_roles", UserResource.VSet ["USER_ADMIN"]);
               ("password", UserResource.VString "new")])
           {| Service.status := "ACTIVE"; Service.refuse_in := Some 2%nat |});
    vm_compute; reflexivity.
Defined.

(** The update of the witness above stops at its third request. *)
Example resourceUserUpdate_order_example :
  (issued (UserResource.resourceUserUpdate Service.directory Service.directoryHelpers
             (Service.userData
                [("status", UserResource.VString "ACTIVE");
                 ("admin_roles", UserResource.VSet ["APP_ADMIN"]);
                 ("password", UserResource.VString "old")]
                [("status", UserResource.VString "SUSPENDED");
                 ("admin_roles", UserResource.VSet ["USER_ADMIN"]);
                 ("password", UserResource.VString "new")]))
          {| Service.status := "ACTIVE"; Service.refuse_in := Some 2%nat |}).*2
  = [None; None; Some "refused"].
Proof. vm_compute. reflexivity. Qed.

(** ** More on the user list *)

Section PaginationErrors.
Import Okta UsersDataSource.
Context {Σ : Type}.
Context (ListUsers : Params → Σ → ((list User * option Response) * error) * Σ).
Context (GetAfterParam : option Response → string).

Local Abbreviation collect := (collectUsers ListUsers GetAfterParam).
Local Abbreviation failing := (failing ListUsers GetAfterParam).

Lemma collectUsers_failing_run qp s trail qp' err s' :
  failing qp s trail qp' err s' →
  ∀ (fuel : nat) results log, (length trail < fuel)%nat →
    collect fuel results qp (MkWorld s log)
    = (Some (Some err, {| Users := Users results ++ concat trail.*2 |}, qp'),
       MkWorld s' (log ++ ((λ qp, (ListUsersCall qp, None)) <$> trail.*1)
                       ++ [(ListUsersCall qp', Some err)])).
Proof.
  induction 1 as [qp s r err s' Hlist
                 |qp s users res s' trail qp' err s'' Hlist Hafter Hrest IH];
    intros fuel results log Hfuel.
  - destruct fuel as [|fuel]; [simpl in Hfuel; lia |]. destruct r as [users res].
    rewrite (collectUsers_step _ _ _ _ _ _ _ _ _ _ _ Hlist).
    destruct results. cbn. by rewrite app_nil_r.
  - destruct fuel as [|fuel]; [simpl in Hfuel; lia |].
    rewrite (collectUsers_step _ _ _ _ _ _ _ _ _ _ _ Hlist).
    rewrite bool_decide_eq_true_2 by done.
    rewrite IH by (simpl in Hfuel; lia).
    rewrite !fmap_cons. cbn [Users fst snd concat]. by rewrite <- !app_assoc.
Qed.

(** When a page cannot be fetched, [collectUsers] hands the error on as it
    is, but the accumulator keeps the users of the pages fetched before,
    and the request parameters stay at the cursor that failed. *)
Theorem collectUsers_keeps_pages_on_error qp s trail qp' err s' fuel :
  failing qp s trail qp' err s' →
  (length trail < fuel)%nat →
  ∀ results log,
    collect fuel results qp (MkWorld s log)
    = (Some (Some err, {| Users := Users results ++ concat trail.*2 |}, qp'),
       MkWorld s' (log ++ ((λ qp, (ListUsersCall qp, None)) <$> trail.*1)
                       ++ [(ListUsersCall qp', Some err)])).
Proof. intros Hfail Hfuel results log. by apply collectUsers_failing_run. Qed.

(** Whatever the service answers, [collectUsers] changes nothing of the
    request parameters but the after-token, and it only ever appends to
    the accumulator. *)
Theorem collectUsers_invariants fuel results qp w :
  match (collectUsers ListUsers GetAfterParam fuel results qp w).1 with
  | Some (_, results', qp') =>
      Search qp' = Search qp ∧ Limit qp' = Limit qp ∧
      SortOrder qp' = SortOrder qp ∧ Activate qp' = Activate qp ∧
      Users results `prefix_of` Users results'
  | None => True
  end.
Proof.
  revert results qp w. induction fuel as [|fuel IH]; intros results qp w; [done |].
  destruct (ListUsers qp (remote w)) as [[[users res] err] s'] eqn:Hlist.
  destruct w as [s log]. cbn [remote] in Hlist.
  rewrite (collectUsers_step _ _ _ _ _ _ _ _ _ _ _ Hlist).
  destruct err as [err|]; [done |].
  destruct (bool_decide _).
  - specialize (IH {| Users := Users results ++ users |}
                   (set_After (GetAfterParam res) qp)
                   (MkWorld s' (log ++ [(ListUsersCall qp, None)]))).
    destruct (collect fuel _ _ _).1 as [[[e results'] qp']|]; [|done].
    destruct IH as (? & ? & ? & ? & Hprefix). split_and!; try done.
    etrans; [|exact Hprefix]. by apply prefix_app_r.
  - cbn. split_and!; try done. by apply prefix_app_r.
Qed.
End PaginationErrors.

Lemma collectUsers_keeps_pages_on_error_witness :
  UsersDataSource.collectUsers Service.listUsersFlaky Service.afterParam 2
    {| UsersDataSource.Users := [] |} Service.firstPage (MkWorld () [])
  = (Some (Some "server error",
           {| UsersDataSource.Users := [Service.user "u1"; Service.user "u2"] |},
           Okta.set_After "c1" Service.firstPage),
     MkWorld () [(UsersDataSource.ListUsersCall Service.firstPage, None);
                 (UsersDataSource.ListUsersCall (Okta.set_After "c1" Service.firstPage),
                  Some "server error")]).
Proof.
  refine (collectUsers_keeps_pages_on_error Service.listUsersFlaky Service.afterParam
            Service.firstPage ()
            [(Service.firstPage, [Service.user "u1"; Service.user "u2"])]
            (Okta.set_After "c1" Service.firstPage) "server error" () 2 _ _
            {| UsersDataSource.Users := [] |} []).
  - eapply UsersDataSource.failing_next; [reflexivity | discriminate |].
    eapply UsersDataSource.failing_now. reflexivity.
  - simpl. lia.
Defined.

Section DataSourceRead.
Import Okta UsersDataSource.
Context {Σ RawMap Filter : Type}.
Context (ListUsers : Params → Σ → ((list User * option Response) * error) * Σ).
Context (GetAfterParam : option Response → string).
Context (getSearchCriteria : @ResourceData RawMap Filter → string).
Context (flattenUser : User → @ResourceData RawMap Filter → RawMap * error).
Context (Params_String : Params → string).
Context (hashcode_String : string → Z).
Context (Sprintf_d : Z → string).
Context (Set_users : list RawMap → @ResourceData RawMap Filter
                     → @ResourceData RawMap Filter * error).

Local Abbreviation read :=
  (dataSourceUsersRead ListUsers GetAfterParam getSearchCriteria flattenUser
     Params_String hashcode_String Sprintf_d Set_users).

Local Abbreviation firstRequest := (firstRequest getSearchCriteria).

Lemma flattenUsers_all users d arr :
  Forall (λ user, (flattenUser user d).2 = None) users →
  flattenUsers flattenUser users d arr
  = (arr ++ ((λ user, (flattenUser user d).1) <$> users), None).
Proof.
  revert arr. induction users as [|user users IH]; intros arr Hall; cbn [flattenUsers].
  - by rewrite app_nil_r.
  - apply Forall_cons in Hall as [Huser Hall].
    destruct (flattenUser user d) as [rawMap err] eqn:Hflat. cbn in Huser. subst err.
    rewrite IH by done. rewrite fmap_cons, Hflat. cbn [fst]. by rewrite <- app_assoc.
Qed.

Lemma flattenUsers_error users d arr :
  Exists (λ user, (flattenUser user d).2 ≠ None) users →
  (flattenUsers flattenUser users d arr).2 ≠ None.
Proof.
  revert arr. induction users as [|user users IH]; intros arr Hex; cbn [flattenUsers].
  - by apply Exists_nil in Hex.
  - destruct (flattenUser user d) as [rawMap [err|]] eqn:Hflat; [done |].
    apply IH. apply Exists_cons in Hex as [Hex|Hex]; [| done].
    rewrite Hflat in Hex. by destruct Hex.
Qed.

(** When the endpoint answers page after page, the read gives the data
    source the hash of the request parameters as id, and these are the
    parameters as the pagination left them, with the after-token of the
    last page requested.  If every user can be flattened, the read hands
    one entry for each user, in page order, to [d.Set] for [users], and
    returns the error and the resource data of that call; if one cannot,
    the read fails before that call, with the id already set. *)
Theorem dataSourceUsersRead_pages d s trail s' fuel log :
  pages ListUsers GetAfterParam (firstRequest d) s trail s' →
  (length trail ≤ fuel)%nat →
  let r := read fuel d (MkWorld s log) in
  let lastRequest := default (firstRequest d) (last trail.*1) in
  let d1 := SetId (Sprintf_d (hashcode_String (Params_String lastRequest))) d in
  let found := concat trail.*2 in
  r.2 = MkWorld s' (log ++ ((λ qp, (ListUsersCall qp, None)) <$> trail.*1)) ∧
  (Forall (λ user, (flattenUser user d1).2 = None) found →
   r.1 = Some (prod_swap (Set_users ((λ user, (flattenUser user d1).1) <$> found) d1))) ∧
  (Exists (λ user, (flattenUser user d1).2 ≠ None) found →
   ∃ err, r.1 = Some (Some err, d1)).
Proof.
  intros Hpages Hfuel. cbv zeta. unfold dataSourceUsersRead. rewrite bind_run.
  change {| Search := getSearchCriteria d; Limit := 200; SortOrder := "0";
            After := ""; Activate := None |} with (firstRequest d).
  rewrite (collectUsers_pages _ _ _ _ _ _ Hpages) by done.
  cbn [fst snd Users app]. split_and!.
  - destruct (flattenUsers _ _ _ _) as [arr [err|]]; [done |].
    by destruct (Set_users arr _).
  - intros Hall. rewrite flattenUsers_all by done. cbn [app].
    by destruct (Set_users _ _).
  - intros Hex. apply (flattenUsers_error _ _ []) in Hex.
    destruct (flattenUsers _ _ _ _) as [arr [err|]]; [by exists err | done].
Qed.

(** When a page cannot be fetched the read fails with the wrapped error;
    the users of the pages before are dropped and the resource data is
    untouched. *)
Theorem dataSourceUsersRead_error d s trail qp' err s' fuel log :
  failing ListUsers GetAfterParam (firstRequest d) s trail qp' err s' →
  (length trail < fuel)%nat →
  read fuel d (MkWorld s log)
  = (Some (Some (Errorf "Error Getting User from Okta: " err), d),
     MkWorld s' (log ++ ((λ qp, (ListUsersCall qp, None)) <$> trail.*1)
                     ++ [(ListUsersCall qp', Some err)])).
Proof.
  intros Hfail Hfuel. unfold dataSourceUsersRead. rewrite bind_run.
  change {| Search := getSearchCriteria d; Limit := 200; SortOrder := "0";
            After := ""; Activate := None |} with (firstRequest d).
  by rewrite (collectUsers_failing_run _ _ _ _ _ _ _ _ Hfail) by done.
Qed.
End DataSourceRead.

Lemma dataSourceUsersRead_pages_witness :
  (UsersDataSource.dataSourceUsersRead Service.listUsers Service.afterParam
     (λ _ : @UsersDataSource.ResourceData string unit, "")
     (λ user _, (Okta.Id user, None))
     Okta.After (λ s, Z.of_nat (String.length s))
     (λ z, if decide (z = 2%Z) then "2" else "other") Service.setUsers
     3 {| UsersDataSource.id := ""; UsersDataSource.search := ();
          UsersDataSource.users := None |}
     (MkWorld () [])).1
  = Some (None, {| UsersDataSource.id := "2"; UsersDataSource.search := ();
                   UsersDataSource.users := Some ["u1"; "u2"; "u3"; "u4"; "u5"] |}).
Proof.
  refine (proj1 (proj2
            (dataSourceUsersRead_pages Service.listUsers Service.afterParam
               (λ _ : @UsersDataSource.ResourceData string unit, "")
               (λ user _, (Okta.Id user, None))
               Okta.After (λ s, Z.of_nat (String.length s))
               (λ z, if decide (z = 2%Z) then "2" else "other") Service.setUsers
               {| UsersDataSource.id := ""; UsersDataSource.search := ();
                  UsersDataSource.users := None |}
               ()
               [(Service.firstPage, [Service.user "u1"; Service.user "u2"]);
                (Okta.set_After "c1" Service.firstPage, [Service.user "u3"]);
                (Okta.set_After "c2" (Okta.set_After "c1" Service.firstPage),
                 [Service.user "u4"; Service.user "u5"])]
               () 3 [] _ _)) _).
  - eapply UsersDataSource.pages_next; [reflexivity | discriminate |].
    eapply UsersDataSource.pages_next; [reflexivity | discriminate |].
    eapply UsersDataSource.pages_last; reflexivity.
  - simpl. lia.
  - repeat constructor.
Defined.

Lemma dataSourceUsersRead_error_witness :
  UsersDataSource.dataSourceUsersRead Service.listUsersFlaky Service.afterParam
    (λ _ : @UsersDataSource.ResourceData string unit, "")
    (λ user _, (Okta.Id user, None))
    Okta.After (λ s, Z.of_nat (String.length s))
    (λ z, if decide (z = 2%Z) then "2" else "other") Service.setUsers
    2 {| UsersDataSource.id := ""; UsersDataSource.search := ();
         UsersDataSource.users := None |}
    (MkWorld () [])
  = (Some (Some "Error Getting User from Okta: server error",
           {| UsersDataSource.id := ""; UsersDataSource.search := ();
              UsersDataSource.users := None |}),
     MkWorld () [(UsersDataSource.ListUsersCall Service.firstPage, None);
                 (UsersDataSource.ListUsersCall (Okta.set_After "c1" Service.firstPage),
                  Some "server error")]).
Proof.
  refine (dataSourceUsersRead_error Service.listUsersFlaky Service.afterParam
            (λ _ : @UsersDataSource.ResourceData string unit, "")
            (λ user _, (Okta.Id user, None))
            Okta.After (λ s, Z.of_nat (String.length s))
            (λ z, if decide (z = 2%Z) then "2" else "other") Service.setUsers
            {| UsersDataSource.id := ""; UsersDataSource.search := ();
               UsersDataSource.users := None |}
            ()
            [(Service.firstPage, [Service.user "u1"; Service.user "u2"])]
            (Okta.set_After "c1" Service.firstPage) "server error" () 2 [] _ _).
  - eapply UsersDataSource.failing_next; [reflexivity | discriminate |].
    eapply UsersDataSource.failing_now. reflexivity.
  - simpl. lia.
Defined.

(** ** The SWA application resource *)

Section AppSwaProperties.
Import UserResource AppSwa.
Context {Visibility Accessibility Σ : Type}.
Context (backend : @Backend Visibility Accessibility Σ).

Local Abbreviation build := (buildAppSwa backend).
Local Abbreviation read := (resourceAppSwaRead backend).

Lemma GetString_Get k d d' : Get k d' = Get k d → GetString k d' = GetString k d.
Proof. unfold GetString. by intros ->. Qed.

(** What a read has stored is what a build sends back: after a read that
    found the application, [buildAppSwa] gives the login fields and the
    user name template of the application as the service has them,
    provided the helpers the read ends with leave the attributes alone
    that the read has written itself. *)
Theorem resourceAppSwaRead_buildAppSwa d w :
  (∀ d name status signOnMode label accy vis k, k ∈ readKeys →
     Get k (appRead backend d name status signOnMode label accy vis) = Get k d) →
  (∀ appId d s k, k ∈ readKeys →
     Get k (syncGroupsAndUsers backend appId d s).1.1 = Get k d) →
  let app := (fetchApp backend d (NewSwaApplication backend) (remote w)).1.1.1 in
  match (read d w).1 with
  | Some (None, d') =>
      Id app ≠ "" →
      Settings (build d') ≫= App = Settings app ≫= App ∧
      Credentials (build d') ≫= UserNameTemplate = Credentials app ≫= UserNameTemplate
  | _ => True
  end.
Proof.
  intros HappRead Hsync. cbv zeta. unfold resourceAppSwaRead. rewrite bind_request.
  destruct (fetchApp backend d (NewSwaApplication backend) (remote w))
    as [[[app d1] [err|]] s1]; cbn [fst snd]; [done |].
  destruct (bool_decide (Id app = "")) eqn:Hid.
  { intros Hne. by apply bool_decide_eq_true in Hid. }
  destruct (Settings app ≫= App) as [settings|]; [|done].
  destruct (Credentials app ≫= UserNameTemplate) as [template|]; [|done].
  rewrite bind_request. cbn [remote calls].
  match goal with
  | |- context [syncGroupsAndUsers backend ?i ?d0 ?s] =>
      pose proof (Hsync i d0 s) as Hsync'; set (d2 := d0) in *;
      destruct (syncGroupsAndUsers backend i d2 s) as [[d3 [err|]] s2]
  end; cbn [fst snd] in *; [done |].
  intros _.
  assert (Hkey : ∀ k, k ∈ readKeys →
            Get k d3 = Get k
              (Set_ "user_name_template_suffix" (VString (Suffix template))
              (Set_ "user_name_template_type" (VString (Type_ template))
              (Set_ "user_name_template" (VString (Template template))
              (Set_ "url_regex" (VString (LoginUrlRegex settings))
              (Set_ "url" (VString (Url settings))
              (Set_ "username_field" (VString (UsernameField settings))
              (Set_ "password_field" (VString (PasswordField settings))
              (Set_ "button_field" (VString (ButtonField settings)) d1))))))))).
  { intros k Hk. rewrite Hsync' by done. unfold d2. by rewrite HappRead. }
  unfold buildAppSwa. cbn [Settings Credentials mbind option_bind App UserNameTemplate].
  apply Forall_forall in Hkey. unfold readKeys in Hkey.
  repeat match goal with
         | H : Forall _ (_ :: _) |- _ =>
             apply Forall_cons in H as [?%GetString_Get H]
         end.
  repeat match goal with
         | H : GetString _ d3 = _ |- _ => rewrite H; clear H
         end.
  unfold GetString.
  repeat first [rewrite Get_Set_eq | rewrite Get_Set_ne by done].
  by destruct settings, template.
Qed.

Lemma resourceAppSwaRead_run d w :
  let '(((app, d1), err), s1) := fetchApp backend d (NewSwaApplication backend) (remote w) in
  let r := read d w in
  let w1 := MkWorld s1 (calls w ++ [(fetchAppCall (id d), err)]) in
  match err with
  | Some err => r = (Some (Some (Errorf "failed to get SWA application: " err), d1), w1)
  | None =>
      if bool_decide (Id app = "") then r = (Some (None, SetId "" d1), w1)
      else
        match Settings app ≫= App, Credentials app ≫= UserNameTemplate with
        | Some _, Some _ =>
            ∃ e d',
              calls r.2 = calls w1 ++ [(syncGroupsAndUsersCall (Id app), e)] ∧
              r.1 = Some (Errorf "failed to sync groups and users for SWA application: " <$> e,
                          d')
        | _, _ => r = (None, w1)
        end
  end.
Proof.
  unfold resourceAppSwaRead. rewrite bind_request.
  destruct (fetchApp backend d (NewSwaApplication backend) (remote w))
    as [[[app d1] [err|]] s1]; cbn [fst snd]; [done |].
  destruct (bool_decide (Id app = "")); [done |].
  destruct (Settings app ≫= App) as [settings|]; [|done].
  destruct (Credentials app ≫= UserNameTemplate) as [template|]; [|done].
  rewrite bind_request. cbn [remote calls].
  match goal with
  | |- context [syncGroupsAndUsers backend ?i ?d0 ?s] =>
      destruct (syncGroupsAndUsers backend i d0 s) as [[d3 [err|]] s2]
  end; cbn [fst snd]; unfold ret; cbn [fst snd calls]; by eexists _, _.
Qed.

(** A read asks for the application once.  If that fails, the error comes
    back wrapped; if the service has no such application (the fetched one
    has no id), the resource id is cleared and nothing else is written or
    asked.  For an application without settings or without a user name
    template the function runs into a [nil] pointer; otherwise it ends
    with the synchronisation of groups and users, whose error it wraps. *)
Theorem resourceAppSwaRead_outcome d w :
  let '(((app, d1), err), s1) := fetchApp backend d (NewSwaApplication backend) (remote w) in
  let r := read d w in
  let w1 := MkWorld s1 (calls w ++ [(fetchAppCall (id d), err)]) in
  match err with
  | Some err => r = (Some (Some (Errorf "failed to get SWA application: " err), d1), w1)
  | None =>
      if bool_decide (Id app = "") then r = (Some (None, SetId "" d1), w1)
      else
        match Settings app ≫= App, Credentials app ≫= UserNameTemplate with
        | Some _, Some _ =>
            ∃ e d',
              calls r.2 = calls w1 ++ [(syncGroupsAndUsersCall (Id app), e)] ∧
              r.1 = Some (Errorf "failed to sync groups and users for SWA application: " <$> e,
                          d')
        | _, _ => r = (None, w1)
        end
  end.
Proof. apply resourceAppSwaRead_run. Qed.

Lemma resourceAppSwaRead_log d w :
  ∃ readLog,
    calls (read d w).2 = calls w ++ readLog ∧
    Forall (λ ev, is_read_call ev.1 = true) readLog.
Proof.
  pose proof (resourceAppSwaRead_run d w) as Hrun. revert Hrun.
  destruct (fetchApp backend d (NewSwaApplication backend) (remote w))
    as [[[app d1] [err|]] s1].
  { intros ->. eexists [_]. split; [done | by repeat constructor]. }
  destruct (bool_decide (Id app = "")).
  { intros ->. eexists [_]. split; [done | by repeat constructor]. }
  destruct (Settings app ≫= App) as [settings|];
    [destruct (Credentials app ≫= UserNameTemplate) as [template|] |].
  - intros (e & d' & -> & _). eexists [_; _].
    split; [cbn [calls]; by rewrite <- app_assoc | by repeat constructor].
  - intros ->. eexists [_]. split; [done | by repeat constructor].
  - intros ->. eexists [_]. split; [done | by repeat constructor].
Qed.

(** A creation sends the built application, to be activated exactly when
    the configured status is ACTIVE, then handles groups and users for the
    id the service has given, then reads.  Either both requests came back
    without error and only the requests of the read follow, or one of them
    failed, nothing is sent after it and the creation returns an error. *)
Theorem resourceAppSwaCreate_order d s :
  let r := resourceAppSwaCreate backend d (MkWorld s []) in
  let params := {| Okta.Search := ""; Okta.Limit := 0; Okta.SortOrder := ""; Okta.After := "";
                   Okta.Activate :=
                     Some (bool_decide (GetString "status" d = statusActive)) |} in
  let app := (CreateApplication backend (build d) params s).1.1.1 in
  let plan := [CreateApplicationCall (build d) params;
               handleAppGroupsAndUsersCall (Id app)] in
  (∃ readLog,
     calls r.2 = (Observe.ok <$> plan) ++ readLog ∧
     Forall (λ ev, is_read_call ev.1 = true) readLog)
  ∨
  (∃ (k : nat) c err,
     plan !! k = Some c ∧
     calls r.2 = (Observe.ok <$> take k plan) ++ [(c, Some err)] ∧
     ∃ msg d', r.1 = Some (Some msg, d')).
Proof.
  cbv zeta. unfold resourceAppSwaCreate. rewrite bind_request. cbn [remote calls].
  destruct (CreateApplication backend (build d) _ s) as [[[app1 resp] [err|]] s1];
    cbn [fst snd app].
  { right. exists 0, (CreateApplicationCall (build d)
                        {| Okta.Search := ""; Okta.Limit := 0; Okta.SortOrder := "";
                           Okta.After := "";
                           Okta.Activate :=
                             Some (bool_decide (GetString "status" d = statusActive)) |}), err.
    unfold ret. cbn [fst snd calls]. split_and!; [done | done | by eexists _, _]. }
  rewrite bind_request. cbn [remote calls].
  destruct (handleAppGroupsAndUsers backend (Id app1) (SetId (Id app1) d) s1)
    as [[d2 [err|]] s2]; cbn [fst snd].
  { right. exists 1, (handleAppGroupsAndUsersCall (Id app1)), err.
    unfold ret. cbn [fst snd calls]. split_and!; [done | done | by eexists _, _]. }
  left. destruct (resourceAppSwaRead_log d2 (MkWorld s2
           [(CreateApplicationCall (build d)
               {| Okta.Search := ""; Okta.Limit := 0; Okta.SortOrder := ""; Okta.After := "";
                  Okta.Activate :=
                    Some (bool_decide (GetString "status" d = statusActive)) |}, None);
            (handleAppGroupsAndUsersCall (Id app1), None)]))
    as (readLog & Hlog & Hread).
  exists readLog. split; [exact Hlog | done].
Qed.

(** An update sends the built application under the resource id, sets the
    status the service has answered with, handles groups and users for
    the id the service has answered with, and reads, in this order; a
    failing request ends the update with an error and nothing is sent
    after it. *)
Theorem resourceAppSwaUpdate_order d s :
  let r := resourceAppSwaUpdate backend d (MkWorld s []) in
  let app := (UpdateApplication backend (id d) (build d) s).1.1.1 in
  let plan := [UpdateApplicationCall (id d) (build d);
               setAppStatusCall (id d) (Status app);
               handleAppGroupsAndUsersCall (Id app)] in
  (∃ readLog,
     calls r.2 = (Observe.ok <$> plan) ++ readLog ∧
     Forall (λ ev, is_read_call ev.1 = true) readLog)
  ∨
  (∃ (k : nat) c err,
     plan !! k = Some c ∧
     calls r.2 = (Observe.ok <$> take k plan) ++ [(c, Some err)] ∧
     ∃ msg d', r.1 = Some (Some msg, d')).
Proof.
  cbv zeta. unfold resourceAppSwaUpdate. rewrite bind_request. cbn [remote calls].
  destruct (UpdateApplication backend (id d) (build d) s) as [[[app1 resp] [err|]] s1];
    cbn [fst snd app].
  { right. exists 0, (UpdateApplicationCall (id d) (build d)), err.
    unfold ret. cbn [fst snd calls]. split_and!; [done | done | by eexists _, _]. }
  rewrite bind_request. cbn [remote calls].
  destruct (setAppStatus backend d (Status app1) s1) as [[d2 [err|]] s2]; cbn [fst snd].
  { right. exists 1, (setAppStatusCall (id d) (Status app1)), err.
    unfold ret. cbn [fst snd calls]. split_and!; [done | done | by eexists _, _]. }
  rewrite bind_request. cbn [remote calls].
  destruct (handleAppGroupsAndUsers backend (Id app1) d2 s2)
    as [[d3 [err|]] s3]; cbn [fst snd].
  { right. exists 2, (handleAppGroupsAndUsersCall (Id app1)), err.
    unfold ret. cbn [fst snd calls]. split_and!; [done | done | by eexists _, _]. }
  left. destruct (resourceAppSwaRead_log d3 (MkWorld s3
           [(UpdateApplicationCall (id d) (build d), None);
            (setAppStatusCall (id d) (Status app1), None);
            (handleAppGroupsAndUsersCall (Id app1), None)]))
    as (readLog & Hlog & Hread).
  exists readLog. split; [exact Hlog | done].
Qed.
End AppSwaProperties.

Lemma resourceAppSwaRead_buildAppSwa_witness :
  let d := Service.userData [] [] in
  let w := MkWorld (Some Service.wiki) [] in
  let app := (AppSwa.fetchApp Service.swa d (AppSwa.NewSwaApplication Service.swa)
                (remote w)).1.1.1 in
  match (AppSwa.resourceAppSwaRead Service.swa d w).1 with
  | Some (None, d') =>
      AppSwa.Id app ≠ "" →
      AppSwa.Settings (AppSwa.buildAppSwa Service.swa d') ≫= AppSwa.App
      = AppSwa.Settings app ≫= AppSwa.App ∧
      AppSwa.Credentials (AppSwa.buildAppSwa Service.swa d') ≫= AppSwa.UserNameTemplate
      = AppSwa.Credentials app ≫= AppSwa.UserNameTemplate
  | _ => True
  end.
Proof.
  apply (resourceAppSwaRead_buildAppSwa Service.swa (Service.userData [] [])
           (MkWorld (Some Service.wiki) [])).
  - intros d name status signOnMode label accy vis k Hk. cbn.
    unfold AppSwa.readKeys in Hk. rewrite !elem_of_cons, elem_of_nil in Hk.
    rewrite !Get_Set_ne; [done | |]; intros Heq; subst k;
      repeat (destruct Hk as [Hk|Hk]; [discriminate Hk |]); done.
  - intros appId d s k Hk. reflexivity.
Defined.

(** The application of the witness above, read and built again. *)
Example resourceAppSwaRead_buildAppSwa_example :
  (λ r, (λ d', AppSwa.Settings (AppSwa.buildAppSwa Service.swa d'.2)) <$> r)
    (AppSwa.resourceAppSwaRead Service.swa (Service.userData [] [])
       (MkWorld (Some Service.wiki) [])).1
  = Some (AppSwa.Settings Service.wiki).
Proof. vm_compute. reflexivity. Qed.

(** ** The SDK supplement and the transport *)

Lemma append_cons a (s1 s2 : string) : String a s1 +:+ s2 = String a (s1 +:+ s2).
Proof. reflexivity. Qed.

Lemma append_assoc (s1 s2 s3 : string) : (s1 +:+ s2) +:+ s3 = s1 +:+ (s2 +:+ s3).
Proof.
  induction s1 as [|a s1 IH]; [reflexivity |].
  by rewrite !append_cons, IH.
Qed.

Section SdkRequests.
Import Okta Sdk Observe.
Context {Σ : Type}.
Context (NewRequest : string → string → option Role → Request * error).
Context (Do : Request → Σ → ((Payload * option Response) * error) * Σ).
Context (Params_String : Params → string).

Lemma rolesURL_role groupId roleId :
  rolesURL groupId +:+ "/" +:+ roleId = "/api/v1/groups/" +:+ groupId +:+ "/roles/" +:+ roleId.
Proof. unfold rolesURL. by rewrite !append_assoc. Qed.

Lemma targetsURL_role groupId roleId :
  targetsURL groupId roleId
  = "/api/v1/groups/" +:+ groupId +:+ "/roles/" +:+ roleId +:+ "/targets/groups".
Proof. unfold targetsURL, rolesURL. by rewrite !append_assoc. Qed.

Lemma targetsURL_target groupId roleId targetGroupId :
  targetsURL groupId roleId +:+ "/" +:+ targetGroupId
  = "/api/v1/groups/" +:+ groupId +:+ "/roles/" +:+ roleId
    +:+ "/targets/groups/" +:+ targetGroupId.
Proof. unfold targetsURL, rolesURL. by rewrite !append_assoc. Qed.

(** The six functions address one tree of resources: the roles of a group,
    one role under them, the group targets of that role, and one target
    under them.  Listing and creating use the same collection path,
    creating and deleting a target the same target path, and query
    parameters are appended to the collection paths only.  Each function
    sends the request the builder has made of its method, path and body,
    and sends nothing when the builder fails. *)
Theorem requests_address_one_tree groupId roleId targetGroupId body qp s :
  let sent {A} (m : M Σ Call A) := (issued m s).*1 in
  let request method url body :=
    match NewRequest method url body with
    | (req, None) => [DoCall req]
    | (_, Some _) => []
    end in
  sent (ListAdminRoles NewRequest Do Params_String groupId None)
    = request "GET" (rolesURL groupId) None ∧
  sent (ListAdminRoles NewRequest Do Params_String groupId (Some qp))
    = request "GET" (rolesURL groupId +:+ Params_String qp) None ∧
  sent (CreateAdminRole NewRequest Do Params_String groupId body None)
    = request "POST" (rolesURL groupId) (Some body) ∧
  sent (CreateAdminRole NewRequest Do Params_String groupId body (Some qp))
    = request "POST" (rolesURL groupId +:+ Params_String qp) (Some body) ∧
  sent (DeleteAdminRole NewRequest Do groupId roleId)
    = request "DELETE" (rolesURL groupId +:+ "/" +:+ roleId) None ∧
  sent (ListAdminRoleGroupTargets NewRequest Do Params_String groupId roleId None)
    = request "GET" (targetsURL groupId roleId) None ∧
  sent (ListAdminRoleGroupTargets NewRequest Do Params_String groupId roleId (Some qp))
    = request "GET" (targetsURL groupId roleId +:+ Params_String qp) None ∧
  sent (CreateAdminRoleGroupTarget NewRequest Do groupId roleId targetGroupId)
    = request "PUT" (targetsURL groupId roleId +:+ "/" +:+ targetGroupId) None ∧
  sent (DeleteAdminRoleGroupTarget NewRequest Do groupId roleId targetGroupId)
    = request "DELETE" (targetsURL groupId roleId +:+ "/" +:+ targetGroupId) None.
Proof.
  cbv zeta. rewrite rolesURL_role, targetsURL_target, targetsURL_role.
  unfold issued, rolesURL.
  unfold ListAdminRoles, CreateAdminRole, DeleteAdminRole, ListAdminRoleGroupTargets,
    CreateAdminRoleGroupTarget, DeleteAdminRoleGroupTarget, withParams.
  rewrite !append_assoc.
  split_and!.
  all: match goal with
       | |- context [NewRequest ?m ?u ?b] => destruct (NewRequest m u b) as [req [e|]]
       end; [reflexivity |].
  all: rewrite bind_request; cbn [remote calls];
    destruct (Do req s) as [[[? ?] ?] ?]; reflexivity.
Qed.
End SdkRequests.

Section AddHeader.
Import Transport.
Context {Σ : Type} (T : Request → Σ → (option Response * error) * Σ).

Lemma RoundTrip_run req w :
  RoundTrip T req w
  = let req' := {| URL := URL req;
                   Header := Header_Add "User-Agent" "Okta Terraform Provider" (Header req) |} in
    let '((resp, err), s) := T req' (remote w) in
    (((resp, err), req'), MkWorld s (calls w ++ [(RoundTripCall req', err)])).
Proof.
  unfold RoundTrip. rewrite bind_request. cbv zeta.
  by destruct (T _ (remote w)) as [[resp err] s].
Qed.

Lemma iter_Header_Add_lookup key value (h : gmap string (list string)) (i : nat) :
  default [] (Nat.iter i (Header_Add key value) h !! key)
    = default [] (h !! key) ++ replicate i value ∧
  ∀ key', key' ≠ key → Nat.iter i (Header_Add key value) h !! key' = h !! key'.
Proof.
  induction i as [|i [IHkey IHother]]; [by rewrite app_nil_r |].
  rewrite Nat.iter_succ. set (h' := Nat.iter i _ h) in *. unfold Header_Add. split.
  - rewrite lookup_insert_eq.
    change (default [] (h' !! key) ++ [value] = default [] (h !! key) ++ replicate (S i) value).
    rewrite IHkey, <- app_assoc.
    f_equal. clear. induction i as [|i IH]; [done |]. cbn [replicate app]. by rewrite IH.
  - intros key' Hne. by rewrite lookup_insert_ne, IHother.
Qed.

(** Every round trip adds one value to the User-Agent header of the
    request, hands the request with the added value to the wrapped
    transport and returns what the transport answers.  When a request goes
    through [n] round trips, the wrapped transport receives it [n] times,
    the [i]-th time with [i] added values, and the request ends with [n]
    added values.  The values already present, the other keys and the URL
    are left as they are. *)
Theorem resend_adds_user_agent n req w :
  let sent (i : nat) :=
    {| URL := URL req;
       Header := Nat.iter i (Header_Add "User-Agent" "Okta Terraform Provider") (Header req) |} in
  let r := resend T n req w in
  r.1 = sent n ∧
  (calls r.2).*1 = (calls w).*1 ++ (RoundTripCall ∘ sent ∘ S <$> seq 0 n) ∧
  (RoundTrip T req w).1 = ((T (sent 1%nat) (remote w)).1, sent 1%nat) ∧
  (∀ i : nat,
     default [] (Header (sent i) !! "User-Agent")
       = default [] (Header req !! "User-Agent") ++ replicate i "Okta Terraform Provider" ∧
     ∀ key, key ≠ "User-Agent" → Header (sent i) !! key = Header req !! key).
Proof.
  cbv zeta. split_and!.
  - revert req w. induction n as [|n IH]; intros req w; [by destruct req |].
    cbn [resend]. rewrite bind_run, RoundTrip_run. cbv zeta.
    destruct (T _ (remote w)) as [[resp err] s]. cbn [fst snd].
    rewrite IH. cbn [URL Header]. by rewrite Nat.iter_succ_r.
  - revert req w. induction n as [|n IH]; intros req w.
    + cbn. by rewrite app_nil_r.
    + cbn [resend]. rewrite bind_run, RoundTrip_run. cbv zeta.
      destruct (T _ (remote w)) as [[resp err] s]. cbn [fst snd].
      rewrite IH. cbn [calls URL Header]. rewrite fmap_app, <- app_assoc.
      f_equal. cbn [fmap list_fmap fst app seq]. f_equal.
      rewrite <- fmap_S_seq, <- list_fmap_compose.
      apply list_fmap_ext. intros _ i _. unfold compose. cbn [URL Header].
      by rewrite <- Nat.iter_succ_r.
  - rewrite RoundTrip_run. cbv zeta. rewrite Nat.iter_succ. cbn [Nat.iter nat_rect].
    by destruct (T _ (remote w)) as [[resp err] s].
  - intros i. cbn [Header]. apply iter_Header_Add_lookup.
Qed.
End AddHeader.
